(** * Base-Server: a shallow embedding of the request client, the document
    proxies, the journal pager, the report poller and the token store.

    Python objects are modelled by the values the code can observe on them;
    exceptions are an explicit result type; mutation of [self] and of the
    outside world (network calls, log lines, clock) is explicit state
    passing. *)

From Stdlib Require Import ZArith List String Ascii Bool Lia.
From Stdlib Require Import SpecFloat.
From Equations Require Import Equations.
Import ListNotations.

Set Warnings "-register-all".

Local Open Scope string_scope.
Local Open Scope Z_scope.

(** ** Python values, truthiness, exceptions *)

Module Py.

(** JSON-shaped Python values.  A [dict] keeps insertion order, so it is
    an association list with string keys. *)
Inductive pyval : Type :=
| PNone
| PBool (b : bool)
| PInt (z : Z)
| PFloat (f : spec_float)
| PStr (s : string)
| PBytes (s : string)
| PList (l : list pyval)
| PDict (d : list (string * pyval)).

Inductive exn : Type :=
| KeyError | IndexError | TypeError | AttributeError | ValueError
| UnicodeDecodeError | FileNotFoundError | BinasciiError.

(** Outcome of evaluating Python code: a value, or a raised exception. *)
Inductive result (A : Type) : Type :=
| Ok (a : A)
| Raise (e : exn).
Arguments Ok {A} a.
Arguments Raise {A} e.

Definition bind {A B} (r : result A) (k : A -> result B) : result B :=
  match r with
  | Ok a => k a
  | Raise e => Raise e
  end.

(** [bool(v)] *)
Definition truthy (v : pyval) : bool :=
  match v with
  | PNone => false
  | PBool b => b
  | PInt z => negb (z =? 0)
  | PFloat (S754_zero _) => false
  | PFloat _ => true
  | PStr s => negb (String.eqb s EmptyString)
  | PBytes s => negb (String.eqb s EmptyString)
  | PList l => match l with [] => false | _ => true end
  | PDict d => match d with [] => false | _ => true end
  end.

Fixpoint assoc (k : string) (d : list (string * pyval)) : option pyval :=
  match d with
  | [] => None
  | (k', v) :: d' => if String.eqb k k' then Some v else assoc k d'
  end.

(** [k in d] for a dict [d] (also [k in d.keys()]). *)
Definition has_key (k : string) (d : list (string * pyval)) : bool :=
  match assoc k d with Some _ => true | None => false end.

(** [d.get(k, default)] on a dict. *)
Definition dict_get (k : string) (default : pyval) (d : list (string * pyval)) : pyval :=
  match assoc k d with Some v => v | None => default end.

(** [v.get(k, default)]: only a dict has the method. *)
Definition get (v : pyval) (k : string) (default : pyval) : result pyval :=
  match v with
  | PDict d => Ok (dict_get k default d)
  | _ => Raise AttributeError
  end.

(** [v.keys()] *)
Definition keys (v : pyval) : result (list (string * pyval)) :=
  match v with
  | PDict d => Ok d
  | _ => Raise AttributeError
  end.

(** [v[k]] with a string key. *)
Definition getitem (v : pyval) (k : string) : result pyval :=
  match v with
  | PDict d => match assoc k d with Some x => Ok x | None => Raise KeyError end
  | _ => Raise TypeError
  end.

(** [l[i]] on a list: negative indices count from the end, anything
    outside [-len, len) raises IndexError. *)
Definition list_index {A} (l : list A) (i : Z) : result A :=
  let n := Z.of_nat (List.length l) in
  let j := if i <? 0 then i + n else i in
  if (j <? 0) || (n <=? j) then Raise IndexError
  else match nth_error l (Z.to_nat j) with
       | Some x => Ok x
       | None => Raise IndexError
       end.

(** [v[i]] with an integer index. *)
Definition index (v : pyval) (i : Z) : result pyval :=
  match v with
  | PList l => list_index l i
  | PDict _ => Raise KeyError
  | PStr s =>
      match list_index (list_ascii_of_string s) i with
      | Ok c => Ok (PStr (String c EmptyString))
      | Raise e => Raise e
      end
  | PBytes s =>
      match list_index (list_ascii_of_string s) i with
      | Ok c => Ok (PInt (Z.of_nat (nat_of_ascii c)))
      | Raise e => Raise e
      end
  | _ => Raise TypeError
  end.

(** [for x in v]: the items the loop visits. *)
Definition iter (v : pyval) : result (list pyval) :=
  match v with
  | PList l => Ok l
  | PDict d => Ok (map (fun kv => PStr (fst kv)) d)
  | PStr s => Ok (map (fun c => PStr (String c EmptyString)) (list_ascii_of_string s))
  | PBytes s => Ok (map (fun c => PInt (Z.of_nat (nat_of_ascii c))) (list_ascii_of_string s))
  | _ => Raise TypeError
  end.

Fixpoint is_substring (p s : string) : bool :=
  if String.prefix p s then true
  else match s with
       | EmptyString => false
       | String _ s' => is_substring p s'
       end.

(** ["k" in v] for a string literal [k]. *)
Definition contains_str (k : string) (v : pyval) : result bool :=
  match v with
  | PDict d => Ok (has_key k d)
  | PList l =>
      Ok (existsb (fun x => match x with PStr s => String.eqb s k | _ => false end) l)
  | PStr s => Ok (is_substring k s)
  | _ => Raise TypeError
  end.

(** [str.lstrip(chars)] and [str.rstrip(chars)]. *)
Fixpoint mem_char (c : ascii) (chars : string) : bool :=
  match chars with
  | EmptyString => false
  | String c' r => Ascii.eqb c c' || mem_char c r
  end.

Fixpoint lstrip (chars s : string) : string :=
  match s with
  | EmptyString => EmptyString
  | String c s' => if mem_char c chars then lstrip chars s' else s
  end.

Fixpoint rstrip (chars s : string) : string :=
  match s with
  | EmptyString => EmptyString
  | String c s' =>
      match rstrip chars s' with
      | EmptyString => if mem_char c chars then EmptyString else String c EmptyString
      | r => String c r
      end
  end.

End Py.
Import Py.

Notation "x <- c1 ;; c2" := (Py.bind c1 (fun x => c2))
  (at level 61, c1 at next level, right associativity).

(** ** Events the code leaves in the outside world *)

Inductive level : Type := INFO | WARNING | ERROR.

(** What the code does to the outside world, one event for each call it
    makes.  [HttpCall method url] is one call of [session.request(method,
    url)] by [ApiClient.request] (in the web scraper, one call of
    [api_client.get]).  It is not one HTTP request: the adapter that
    [ApiClient.__init__] mounts with [Retry(total=retries)] may send the
    request of one such call again, up to [retries] times, and the trace
    does not count what goes over the wire.  [FileWrite path obj] is the
    file [path] under [logs] opened to write [obj]. *)

Inductive event : Type :=
| Log (lvl : level) (msg : string)
| HttpCall (method url : string)
| AuditResponse (destination : string) (status_code : Z) (body : string)
| AuditSuccess (destination : string) (success : bool)
| StartService (api : string)
| BatchUpdate (document_id : pyval) (body : pyval)
| FileWrite (path : string) (obj : pyval)
| Sleep (seconds : Z).

Definition is_error_log (e : event) : bool :=
  match e with Log ERROR _ => true | _ => false end.

(** ** helpers/api_client.py *)

Module ApiClient.

(** What the code reads off a [requests.Response]: [json_body] is the
    outcome of [response.json()] ([None] for JSONDecodeError) and [decoded]
    the outcome of [response.content.decode()] ([None] for
    UnicodeDecodeError). *)
Record Response : Type := {
  status_code : Z;
  content : string;
  text : string;
  json_body : option pyval;
  decoded : option string
}.

(** Outcome of one call of [session.request], whatever the mounted
    adapter resent before it came to it: the exception classes the
    handlers of [request] tell apart, or a response. *)
Inductive send_outcome : Type :=
| SendTimeout
| SendHTTPError
| SendRequestException
| SendResponse (r : Response).

Record t : Type := {
  base_url : option string;
  timeout : Z;
  splunk_log_url : option string;
  splunk_log_headers : option (list (string * string))
}.

(** [ApiClient.__init__] *)
Definition init (base_url : option string) (timeout : Z) : t :=
  {| base_url := match base_url with
                 | Some b => Some (rstrip "/" b)
                 | None => None
                 end;
     timeout := timeout;
     splunk_log_url := None;
     splunk_log_headers := None |}.

Definition str_truthy (s : option string) : bool :=
  match s with
  | Some s => negb (String.eqb s EmptyString)
  | None => false
  end.

Definition headers_truthy (h : option (list (string * string))) : bool :=
  match h with
  | Some (_ :: _) => true
  | _ => false
  end.

(** [ApiClient._prepare_url] *)
Definition _prepare_url (self : t) (endpoint : string) : string :=
  if str_truthy (base_url self) then
    match base_url self with
    | Some b => b ++ "/" ++ lstrip "/" endpoint
    | None => lstrip "/" endpoint
    end
  else lstrip "/" endpoint.

(** [ApiClient.setup_splunk_logging] *)
Definition setup_splunk_logging (self : t) (url : string) (headers : list (string * string)) : t :=
  {| base_url := base_url self;
     timeout := timeout self;
     splunk_log_url := Some url;
     splunk_log_headers := Some headers |}.

Definition splunk_configured (self : t) : bool :=
  str_truthy (splunk_log_url self) && headers_truthy (splunk_log_headers self).

(** [ApiClient.log_response]; [post_ok] tells whether the audit POST went
    through or raised a RequestException. *)
Definition log_response (self : t) (post_ok : bool) (response : Response) (destination : string)
  : result unit * list event :=
  if negb (splunk_configured self) then
    (Ok tt, [Log WARNING "Splunk logging is not configured."])
  else
    match decoded response with
    | None => (Raise UnicodeDecodeError, [])
    | Some body =>
        let post := AuditResponse destination (status_code response) body in
        if post_ok then (Ok tt, [post])
        else (Ok tt, [post; Log ERROR "Failed to log response to Splunk: %s"])
    end.

(** [ApiClient.log_success] *)
Definition log_success (self : t) (post_ok : bool) (success : bool) (destination : string)
  : result unit * list event :=
  if negb (splunk_configured self) then
    (Ok tt, [Log WARNING "Splunk logging is not configured."])
  else
    let post := AuditSuccess destination success in
    if post_ok then (Ok tt, [post])
    else (Ok tt, [post; Log ERROR "Failed to log response to Splunk: %s"]).

(** [response.raise_for_status()] raises HTTPError on 4xx and 5xx. *)
Definition raise_for_status (r : Response) : bool :=
  (400 <=? status_code r) && (status_code r <? 600).

(** [bool(response)] is [response.ok]. *)
Definition response_truthy (r : option Response) : bool :=
  match r with
  | Some r => negb (raise_for_status r)
  | None => false
  end.

(** The loop over [error_json["messages"]]: one error line per message,
    AttributeError at the first item without a [get] method. *)
Fixpoint log_messages (msgs : list pyval) : result unit * list event :=
  match msgs with
  | [] => (Ok tt, [])
  | msg :: rest =>
      match Py.get msg "type" PNone, Py.get msg "text" PNone with
      | Ok _, Ok _ =>
          let '(r, tr) := log_messages rest in
          (r, Log ERROR "API error for %s: %s - %s" :: tr)
      | Raise e, _ => (Raise e, [])
      | _, Raise e => (Raise e, [])
      end
  end.

(** The handler [except HTTPError] when a response is at hand. *)
Definition handle_http_error (response : Response) (handle_400 : bool)
  : result pyval * list event :=
  if handle_400 && (status_code response =? 400) then
    (Ok (PDict [("message", PStr "Bad request")]),
     [Log INFO "Bad request accepted as having meaning (probably non existent annature envelope) for %s: %s"])
  else
    match json_body response with
    | None =>
        (Ok PNone, [Log ERROR "HTTP error for %s: %s"; Log ERROR "Raw response: %s"])
    | Some error_json =>
        match contains_str "messages" error_json with
        | Raise e => (Raise e, [])
        | Ok false =>
            (Ok PNone, [Log ERROR "HTTP error for %s: %s"; Log ERROR "Response JSON: %s"])
        | Ok true =>
            match (m <- getitem error_json "messages" ;; iter m) with
            | Raise e => (Raise e, [])
            | Ok msgs =>
                let '(r, tr) := log_messages msgs in
                (match r with Ok _ => Ok PNone | Raise e => Raise e end, tr)
            end
        end
    end.

(** The [try] block of [request] with its [except] clauses; falling out of
    a handler reaches the final [return None]. The second component is the
    value of the local [response] when the [finally] clause runs.  The one
    [HttpCall] stands for the one call of [session.request]. *)
Definition request_try (url method : string) (net : send_outcome) (handle_400 raw : bool)
  : (result pyval * list event) * option Response :=
  match net with
  | SendTimeout =>
      ((Ok PNone, [HttpCall method url; Log ERROR "Request to %s timed out."]), None)
  | SendHTTPError =>
      ((Ok PNone, [HttpCall method url; Log ERROR "No response on HTTPError for %s: %s"]), None)
  | SendRequestException =>
      ((Ok PNone, [HttpCall method url; Log ERROR "Request exception for %s: %s"]), None)
  | SendResponse response =>
      if raise_for_status response then
        let '(r, tr) := handle_http_error response handle_400 in
        ((r, HttpCall method url :: tr), Some response)
      else if raw then
        ((Ok (PBytes (content response)), [HttpCall method url]), Some response)
      else
        match json_body response with
        | Some v => ((Ok v, [HttpCall method url]), Some response)
        | None =>
            ((Ok PNone, [HttpCall method url; Log ERROR "Request exception for %s: %s"]),
             Some response)
        end
  end.

(** The [finally] clause of [request]. *)
Definition request_finally (self : t) (post_ok : bool) (response : option Response)
    (destination : option string) : result unit * list event :=
  if str_truthy destination then
    match destination with
    | Some dest =>
        if headers_truthy (splunk_log_headers self) && str_truthy (splunk_log_url self)
           && response_truthy response then
          match response with
          | Some r => log_response self post_ok r dest
          | None => (Ok tt, [])
          end
        else log_success self post_ok false dest
    | None => (Ok tt, [])
    end
  else (Ok tt, []).

(** [ApiClient.request]: [net] is what [session.request] does for this
    call, [post_ok] what the audit POST does. An exception leaving the
    [finally] clause replaces the pending return value or exception. *)
Definition request (self : t) (net : send_outcome) (post_ok : bool)
    (method endpoint : string) (destination : option string) (handle_400 raw : bool)
  : result pyval * list event :=
  let url := _prepare_url self endpoint in
  let '((r, tr), response) := request_try url method net handle_400 raw in
  let '(f, tr') := request_finally self post_ok response destination in
  match f with
  | Ok _ => (r, (tr ++ tr')%list)
  | Raise e => (Raise e, (tr ++ tr')%list)
  end.

Definition get self net post_ok endpoint destination handle_400 raw :=
  request self net post_ok "GET" endpoint destination handle_400 raw.
Definition post self net post_ok endpoint destination handle_400 raw :=
  request self net post_ok "POST" endpoint destination handle_400 raw.
Definition put self net post_ok endpoint destination handle_400 raw :=
  request self net post_ok "PUT" endpoint destination handle_400 raw.
Definition delete self net post_ok endpoint destination handle_400 raw :=
  request self net post_ok "DELETE" endpoint destination handle_400 raw.

End ApiClient.

(** ** State and exceptions together: methods that mutate [self] *)

Definition st (S A : Type) : Type := S -> result A * S.

Definition st_ret {S A} (a : A) : st S A := fun s => (Ok a, s).

Definition st_bind {S A B} (c : st S A) (k : A -> st S B) : st S B :=
  fun s => match c s with
           | (Ok a, s') => k a s'
           | (Raise e, s') => (Raise e, s')
           end.

(** Evaluate an expression that may raise, leaving the state alone. *)
Definition st_eval {S A} (r : result A) : st S A := fun s => (r, s).

(** An assignment to a field of the state. *)
Definition st_assign {S} (f : S -> S) : st S unit := fun s => (Ok tt, f s).

Definition st_read {S A} (f : S -> A) : st S A := fun s => (Ok (f s), s).

Notation "x <~ c1 ;; c2" := (st_bind c1 (fun x => c2))
  (at level 61, c1 at next level, right associativity).
Notation "c1 ;;; c2" := (st_bind c1 (fun _ => c2))
  (at level 61, right associativity).

(** ** The Google API services the proxies talk to *)

Module GoogleApi.

(** What one [request.execute()] does: return the decoded body, or raise
    one of the two exception classes the retry wrappers catch. *)
Inductive api_outcome : Type :=
| ApiReturn (data : pyval)
| ApiHttpError (status_code : Z)
| ApiTimeoutError.

(** The outside world of a proxy: [execute n] is the outcome of the n-th
    [execute()] of the process, [ncalls] counts the ones made so far and
    [trace] lists what was sent and logged, oldest first; [logs_dir]
    tells whether the directory [logs/failed_sheets_calls] is there to be
    written to, which nothing in the code sees to. *)
Record world : Type := {
  execute : nat -> api_outcome;
  ncalls : nat;
  trace : list event;
  logs_dir : bool
}.

Definition emit (e : event) (w : world) : world :=
  {| execute := execute w; ncalls := ncalls w; trace := (trace w ++ [e])%list;
     logs_dir := logs_dir w |}.

Definition call (w : world) : api_outcome * world :=
  (execute w (ncalls w),
   {| execute := execute w; ncalls := S (ncalls w); trace := trace w;
      logs_dir := logs_dir w |}).

Definition RETRIES : Z := 5.

(** The body of [for i in range(RETRIES)] in [batch_update], from
    iteration [i] on, with [remaining = RETRIES - i] iterations to go.
    The same loop serves [google_sheets.batch_update] and
    [google_docs.batch_update], which differ in the log line only. *)
Fixpoint batch_update_from (msg : string) (remaining : nat) (i : Z)
    (document_id body : pyval) (w : world) : pyval * world :=
  match remaining with
  | O => (PNone, w)
  | S remaining' =>
      let '(out, w1) := call (emit (BatchUpdate document_id body) w) in
      match out with
      | ApiReturn data => (data, w1)
      | ApiTimeoutError =>
          if i <? RETRIES - 1
          then batch_update_from msg remaining' (i + 1) document_id body w1
          else (PNone, emit (Log ERROR msg) w1)
      | ApiHttpError status =>
          if (i <? RETRIES - 1) && ((status =? 500) || (status =? 503))
          then batch_update_from msg remaining' (i + 1) document_id body w1
          else (PNone, emit (Log ERROR msg) w1)
      end
  end.

End GoogleApi.

(** ** helpers/files.py *)

Module Files.
Import GoogleApi.

(** What [json.dump] writes without a TypeError: any value that holds no
    bytes. *)
Fixpoint json_serializable (v : pyval) : bool :=
  match v with
  | PBytes _ => false
  | PList l => forallb json_serializable l
  | PDict d => forallb (fun kv => json_serializable (snd kv)) d
  | _ => true
  end.

(** [log_json(path, obj)]: [open(os.path.join('logs', path), 'w')] raises
    FileNotFoundError when the directory of the file is missing; with the
    file open, [dump] writes [obj], or raises TypeError where it comes to
    a value that is not JSON, part of the text being written by then. *)
Definition log_json (path : string) (obj : pyval) (w : world) : result unit * world :=
  if negb (logs_dir w) then (Raise FileNotFoundError, w)
  else if json_serializable obj then (Ok tt, emit (FileWrite path obj) w)
  else (Raise TypeError, emit (FileWrite path obj) w).

End Files.

(** ** tasks/google_sheets.py *)

Module GoogleSheets.
Import GoogleApi.

(** [start_service()] obtains the suite credentials (refreshing them when
    they have expired) and builds the client object.  It is taken to
    return; the trace records that it ran, not what it sent. *)
Definition start_service (w : world) : world := emit (StartService "sheets") w.

(** [batch_update(service, spreadsheetId=..., body=...)] *)
Definition batch_update (spreadsheetId body : pyval) (w : world) : pyval * world :=
  batch_update_from "Google sheets batch update request API error: %s"
    (Z.to_nat RETRIES) 0 spreadsheetId body w.

(** *** class Sheet *)

Record Sheet : Type := {
  spreadsheet_id : pyval;
  json : pyval;
  sheet_id : pyval;
  sheet_name : pyval;
  requests : list pyval;
  width : Z;
  cell_array : list (list pyval)
}.

Definition set_spreadsheet_id (v : pyval) (s : Sheet) : Sheet :=
  {| spreadsheet_id := v; json := json s; sheet_id := sheet_id s;
     sheet_name := sheet_name s; requests := requests s; width := width s;
     cell_array := cell_array s |}.
Definition set_json (v : pyval) (s : Sheet) : Sheet :=
  {| spreadsheet_id := spreadsheet_id s; json := v; sheet_id := sheet_id s;
     sheet_name := sheet_name s; requests := requests s; width := width s;
     cell_array := cell_array s |}.
Definition set_sheet_id (v : pyval) (s : Sheet) : Sheet :=
  {| spreadsheet_id := spreadsheet_id s; json := json s; sheet_id := v;
     sheet_name := sheet_name s; requests := requests s; width := width s;
     cell_array := cell_array s |}.
Definition set_sheet_name (v : pyval) (s : Sheet) : Sheet :=
  {| spreadsheet_id := spreadsheet_id s; json := json s; sheet_id := sheet_id s;
     sheet_name := v; requests := requests s; width := width s;
     cell_array := cell_array s |}.
Definition set_requests (v : list pyval) (s : Sheet) : Sheet :=
  {| spreadsheet_id := spreadsheet_id s; json := json s; sheet_id := sheet_id s;
     sheet_name := sheet_name s; requests := v; width := width s;
     cell_array := cell_array s |}.
Definition set_width (v : Z) (s : Sheet) : Sheet :=
  {| spreadsheet_id := spreadsheet_id s; json := json s; sheet_id := sheet_id s;
     sheet_name := sheet_name s; requests := requests s; width := v;
     cell_array := cell_array s |}.
Definition set_cell_array (v : list (list pyval)) (s : Sheet) : Sheet :=
  {| spreadsheet_id := spreadsheet_id s; json := json s; sheet_id := sheet_id s;
     sheet_name := sheet_name s; requests := requests s; width := width s;
     cell_array := v |}.

(** [j['sheets'][0]] *)
Definition sheet0 (j : pyval) : result pyval :=
  s <- getitem j "sheets" ;; index s 0.

(** [j['sheets'][0]['properties'][k]] *)
Definition sheet0_property (j : pyval) (k : string) : result pyval :=
  s <- sheet0 j ;; p <- getitem s "properties" ;; getitem p k.

(** [j['sheets'][0]['data'][0]] *)
Definition sheet0_data0 (j : pyval) : result pyval :=
  s <- sheet0 j ;; d <- getitem s "data" ;; index d 0.

(** [len(v)] *)
Definition len (v : pyval) : result Z :=
  match v with
  | PList l => Ok (Z.of_nat (List.length l))
  | PDict d => Ok (Z.of_nat (List.length d))
  | PStr s | PBytes s => Ok (Z.of_nat (String.length s))
  | _ => Raise TypeError
  end.

(** The row a [rowData] entry without ['values'] stands for. *)
Definition blank_row (cell_array : list (list pyval)) : list pyval :=
  match cell_array with
  | first :: _ => repeat (PDict []) (List.length first)
  | [] => [PDict []]
  end.

(** The loop over [rowData]; [track_width] is set in [__init__], which
    also maintains [self.width], and unset in [reload]. *)
Fixpoint load_rows (track_width : bool) (rows : list pyval) : st Sheet unit :=
  match rows with
  | [] => st_ret tt
  | row_object :: rest =>
      ks <~ st_eval (keys row_object) ;;
      (if negb (has_key "values" ks) then
         ca <~ st_read cell_array ;;
         st_assign (fun s => set_cell_array (cell_array s ++ [blank_row ca])%list s)
       else
         (if track_width then
            n <~ st_eval (v <- getitem row_object "values" ;; len v) ;;
            st_assign (fun s => set_width (Z.max (width s) n) s)
          else st_ret tt) ;;;
         new_row <~ st_eval (v <- getitem row_object "values" ;; iter v) ;;
         st_assign (fun s => set_cell_array (cell_array s ++ [new_row])%list s)) ;;;
      load_rows track_width rest
  end.

(** The part [__init__] (under [get_data]) and [reload] share: read the
    grid of the first tab into [cell_array]. *)
Definition load_grid (track_width : bool) : st Sheet unit :=
  j <~ st_read json ;;
  d <~ st_eval (d0 <- sheet0_data0 j ;; keys d0) ;;
  if negb (has_key "rowData" d) then st_ret tt
  else
    rows <~ st_eval (d0 <- sheet0_data0 j ;; r <- getitem d0 "rowData" ;; iter r) ;;
    load_rows track_width rows.

(** [Sheet.__init__]: the attributes are set on a fresh object, here a
    record of [None]s. *)
Definition blank : Sheet :=
  {| spreadsheet_id := PNone; json := PNone; sheet_id := PNone; sheet_name := PNone;
     requests := []; width := 0; cell_array := [] |}.

Definition init_body (preload : pyval) (get_data : bool) : st Sheet unit :=
  sid <~ st_eval (getitem preload "spreadsheetId") ;;
  st_assign (set_spreadsheet_id sid) ;;;
  st_assign (set_json preload) ;;;
  i <~ st_eval (sheet0_property preload "sheetId") ;;
  st_assign (set_sheet_id i) ;;;
  n <~ st_eval (sheet0_property preload "title") ;;
  st_assign (set_sheet_name n) ;;;
  st_assign (set_requests []) ;;;
  st_assign (set_width 0) ;;;
  st_assign (set_cell_array []) ;;;
  if get_data then load_grid true else st_ret tt.

Definition init (preload : pyval) (get_data : bool) : result Sheet :=
  match init_body preload get_data blank with
  | (Ok _, s) => Ok s
  | (Raise e, _) => Raise e
  end.

(** [Sheet.reload] *)
Definition reload (preload : pyval) : st Sheet unit :=
  sid <~ st_eval (getitem preload "spreadsheetId") ;;
  st_assign (set_spreadsheet_id sid) ;;;
  st_assign (set_json preload) ;;;
  i <~ st_eval (sheet0_property preload "sheetId") ;;
  st_assign (set_sheet_id i) ;;;
  n <~ st_eval (sheet0_property preload "title") ;;
  st_assign (set_sheet_name n) ;;;
  st_assign (set_requests []) ;;;
  st_assign (set_cell_array []) ;;;
  load_grid false.

(** [Sheet.value_to_object] *)
Definition value_to_object (value : pyval) : pyval :=
  match value with
  | PBool _ => PDict [("boolValue", value)]
  | PInt _ | PFloat _ => PDict [("numberValue", value)]
  | PStr s =>
      if negb (Z.of_nat (String.length s) =? 0) then
        match s with
        | String c _ =>
            if Ascii.eqb c "=" then PDict [("formulaValue", value)]
            else PDict [("stringValue", value)]
        | EmptyString => PDict [("stringValue", value)]
        end
      else PNone
  | _ => PNone
  end.

Definition preferred_type_order : list string :=
  ["numberValue"; "stringValue"; "boolValue"; "formulaValue"].

(** The [for value_type in preferred_type_order] loop of [get_value]. *)
Fixpoint first_preferred (order : list string) (value : list (string * pyval)) : pyval :=
  match order with
  | [] => PNone
  | value_type :: rest =>
      match assoc value_type value with
      | Some v => v
      | None => first_preferred rest value
      end
  end.

(** [self.cell_array[row][column]] *)
Definition cell_at (self : Sheet) (row column : Z) : result pyval :=
  r <- list_index (cell_array self) row ;; list_index r column.

(** [except IndexError: return None] around a block. *)
Definition catch_IndexError {A} (r : result A) (handler : result A) : result A :=
  match r with
  | Raise IndexError => handler
  | _ => r
  end.

(** [Sheet.get_value]: the [try] block yields the [value] dict, or returns
    early with [None]; the loop after it picks the preferred entry. *)
Definition get_value (self : Sheet) (row column : Z) : result pyval :=
  let tried :=
    catch_IndexError
      (cell_json <- cell_at self row column ;;
       d <- Py.get cell_json "effectiveValue" PNone ;;
       value <- Py.get cell_json "userEnteredValue" d ;;
       Ok (Some value))
      (Ok None) in
  found <- tried ;;
  match found with
  | None => Ok PNone
  | Some PNone => Ok PNone
  | Some value =>
      ks <- keys value ;;
      Ok (first_preferred preferred_type_order ks)
  end.

(** [Sheet.get_formatted_value] *)
Definition get_formatted_value (self : Sheet) (row column : Z) : result pyval :=
  let tried :=
    catch_IndexError
      (cell <- cell_at self row column ;;
       present <- contains_str "formattedValue" cell ;;
       if negb present then (v <- get_value self row column ;; Ok (Some v))
       else Ok None)
      (Ok (Some PNone)) in
  early <- tried ;;
  match early with
  | Some v => Ok v
  | None => cell <- cell_at self row column ;; getitem cell "formattedValue"
  end.

(** [Sheet.delete_rows], one of the methods that only queue. *)
Definition delete_rows (start_index number : Z) (self : Sheet) : Sheet :=
  if number <? 1 then self
  else
    let row_request :=
      PDict [("range",
              PDict [("sheetId", sheet_id self);
                     ("dimension", PStr "ROWS");
                     ("startIndex", PInt start_index);
                     ("endIndex", PInt (start_index + number))])] in
    set_requests (requests self ++ [PDict [("deleteDimension", row_request)]])%list self.

(** The local [request_object] of [Sheet.commit_changes]. *)
Definition request_object (update : bool) (self : Sheet) : pyval :=
  PDict [("requests", PList (requests self));
         ("includeSpreadsheetInResponse", PBool update);
         ("responseRanges", PList [sheet_name self]);
         ("responseIncludeGridData", PBool update)].

(** [Sheet.commit_changes]; after a failed batch update [log_json]
    writes the requests to a file of [logs/failed_sheets_calls] named
    after the current timestamp, and what it raises leaves the method. *)
Definition commit_changes (update : bool) (self : Sheet) (w : world)
  : result bool * Sheet * world :=
  if Z.of_nat (List.length (requests self)) =? 0 then (Ok true, self, w)
  else
    let '(preload, w1) :=
      batch_update (spreadsheet_id self) (request_object update self)
        (start_service w) in
    if negb (truthy preload) then
      match Files.log_json "failed_sheets_calls/" (PList (requests self))
              (emit (Log ERROR "Could not commit changes to %s due to API error.") w1)
      with
      | (Ok _, w2) => (Ok false, self, w2)
      | (Raise e, w2) => (Raise e, self, w2)
      end
    else if update then
      match (p <~ st_eval (getitem preload "updatedSpreadsheet") ;; reload p) self with
      | (Ok _, self') => (Ok true, self', w1)
      | (Raise e, self') => (Raise e, self', w1)
      end
    else (Ok true, self, w1).

(** *** class CellRange *)

Record CellRange : Type := {
  start_row : Z;
  start_column : Z;
  depth : Z;
  range_width : Z
}.

(** [CellRange.end_row] and [CellRange.end_column] *)
Definition end_row (r : CellRange) : Z := start_row r + depth r.
Definition end_column (r : CellRange) : Z := start_column r + range_width r.

(** The [while col_num > 0] loop of [CellRange._col_to_letter]:
    [divmod(col_num - 1, 26)], the letter of the remainder put in front. *)
Equations? col_to_letter_loop (col_num : Z) (result : string) : string
    by wf (Z.to_nat col_num) lt :=
  col_to_letter_loop col_num result with Z_gt_dec col_num 0 => {
    | left _ =>
        col_to_letter_loop ((col_num - 1) / 26)
          (String (ascii_of_nat (Z.to_nat (65 + (col_num - 1) mod 26))) result)
    | right _ => result }.
Proof.
  assert ((col_num - 1) / 26 <= col_num - 1)
    by (apply Z.div_le_upper_bound; lia).
  lia.
Qed.

(** [CellRange._col_to_letter] *)
Definition _col_to_letter (col_num : Z) : string :=
  col_to_letter_loop col_num EmptyString.

(** *** The methods of Sheet that stage a request *)

Definition append_request (request : pyval) (self : Sheet) : Sheet :=
  set_requests (requests self ++ [request])%list self.

(** [Sheet.insert_rows] *)
Definition insert_rows (start_index number : Z) (self : Sheet) : Sheet :=
  if number <? 1 then self
  else
    let row_request :=
      PDict [("range",
              PDict [("sheetId", sheet_id self);
                     ("dimension", PStr "ROWS");
                     ("startIndex", PInt start_index);
                     ("endIndex", PInt (start_index + number))]);
             ("inheritFromBefore", PBool (negb (start_index =? 0)))] in
    append_request (PDict [("insertDimension", row_request)]) self.

(** [Sheet.delete_columns] *)
Definition delete_columns (start_index number : Z) (self : Sheet) : Sheet :=
  if number <? 1 then self
  else
    let column_request :=
      PDict [("range",
              PDict [("sheetId", sheet_id self);
                     ("dimension", PStr "COLUMNS");
                     ("startIndex", PInt start_index);
                     ("endIndex", PInt (start_index + number))])] in
    append_request (PDict [("deleteDimension", column_request)]) self.

(** [Sheet.insert_column] *)
Definition insert_column (start_index number : Z) (self : Sheet) : Sheet :=
  if number <? 1 then self
  else
    let column_request :=
      PDict [("range",
              PDict [("sheetId", sheet_id self);
                     ("dimension", PStr "COLUMNS");
                     ("startIndex", PInt start_index);
                     ("endIndex", PInt (start_index + number))]);
             ("inheritFromBefore", PBool true)] in
    append_request (PDict [("insertDimension", column_request)]) self.

(** [Sheet._dimension_properties_request] *)
Definition _dimension_properties_request (properties : pyval) (fields : string)
    (dimension_range : pyval) (self : Sheet) : Sheet :=
  let dimension_request :=
    PDict [("properties", properties);
           ("fields", PStr fields);
           ("range", dimension_range)] in
  append_request (PDict [("updateDimensionProperties", dimension_request)]) self.

Definition dimension_range (self : Sheet) (dimension : string) (start number : Z) : pyval :=
  PDict [("sheetId", sheet_id self);
         ("dimension", PStr dimension);
         ("startIndex", PInt start);
         ("endIndex", PInt (start + number))].

(** [Sheet.set_row_height] and [Sheet.set_column_width] *)
Definition set_row_height (start_row height number : Z) (self : Sheet) : Sheet :=
  _dimension_properties_request (PDict [("pixelSize", PInt height)]) "pixelSize"
    (dimension_range self "ROWS" start_row number) self.

Definition set_column_width (start_column width number : Z) (self : Sheet) : Sheet :=
  _dimension_properties_request (PDict [("pixelSize", PInt width)]) "pixelSize"
    (dimension_range self "COLUMNS" start_column number) self.

(** [Sheet.set_rows_hidden] and [Sheet.set_columns_hidden] *)
Definition set_rows_hidden (start_row number : Z) (hidden : bool) (self : Sheet) : Sheet :=
  _dimension_properties_request (PDict [("hiddenByUser", PBool hidden)]) "hiddenByUser"
    (dimension_range self "ROWS" start_row number) self.

Definition set_columns_hidden (start_column number : Z) (hidden : bool) (self : Sheet)
  : Sheet :=
  _dimension_properties_request (PDict [("hiddenByUser", PBool hidden)]) "hiddenByUser"
    (dimension_range self "COLUMNS" start_column number) self.

(** [Sheet.merge_cells] *)
Definition merge_cells (cell_range : CellRange) (self : Sheet) : Sheet :=
  let merge_request :=
    PDict [("range",
            PDict [("sheetId", sheet_id self);
                   ("startRowIndex", PInt (start_row cell_range));
                   ("endRowIndex", PInt (start_row cell_range + depth cell_range));
                   ("startColumnIndex", PInt (start_column cell_range));
                   ("endColumnIndex",
                    PInt (start_column cell_range + range_width cell_range))]);
           ("mergeType", PStr "MERGE_ALL")] in
  append_request (PDict [("mergeCells", merge_request)]) self.

(** [Sheet._cells_request] *)
Definition _cells_request (row column : Z) (row_objects : list pyval) (fields : string)
    (self : Sheet) : Sheet :=
  let cell_request :=
    PDict [("rows", PList row_objects);
           ("fields", PStr fields);
           ("start",
            PDict [("sheetId", sheet_id self);
                   ("rowIndex", PInt row);
                   ("columnIndex", PInt column)])] in
  append_request (PDict [("updateCells", cell_request)]) self.

(** The nested [for _ in range(depth)] / [for _ in range(width)] loops
    that fill a range with one cell: [range] of a negative number is
    empty. *)
Definition fill_range (cell_range : CellRange) (cell : pyval) : list pyval :=
  repeat (PDict [("values", PList (repeat cell (Z.to_nat (range_width cell_range))))])
    (Z.to_nat (depth cell_range)).

(** [Sheet.set_value] *)
Definition set_value (row column : Z) (value : pyval) (self : Sheet) : Sheet :=
  let value_object := value_to_object value in
  let row_objects :=
    [PDict [("values", PList [PDict [("userEnteredValue", value_object)]])]] in
  _cells_request row column row_objects "userEnteredValue" self.

(** [Sheet.set_values] *)
Definition set_values (cell_range : CellRange) (value : pyval) (self : Sheet) : Sheet :=
  let value_object := value_to_object value in
  _cells_request (start_row cell_range) (start_column cell_range)
    (fill_range cell_range (PDict [("userEnteredValue", value_object)]))
    "userEnteredValue" self.

(** [Sheet.mass_set_value] *)
Definition mass_set_value (start_row start_column : Z) (values : list (list pyval))
    (self : Sheet) : Sheet :=
  let row_objects :=
    map (fun row =>
           PDict [("values",
                   PList (map (fun value =>
                                 PDict [("userEnteredValue", value_to_object value)])
                              row))])
        values in
  _cells_request start_row start_column row_objects "userEnteredValue" self.

(** [Sheet.set_horizontal_alignment] and [Sheet.set_vertical_alignment] *)
Definition set_horizontal_alignment (cell_range : CellRange) (alignment : string)
    (self : Sheet) : Sheet :=
  _cells_request (start_row cell_range) (start_column cell_range)
    (fill_range cell_range
       (PDict [("userEnteredFormat", PDict [("horizontalAlignment", PStr alignment)])]))
    "userEnteredFormat.horizontalAlignment" self.

Definition set_vertical_alignment (cell_range : CellRange) (alignment : string)
    (self : Sheet) : Sheet :=
  _cells_request (start_row cell_range) (start_column cell_range)
    (fill_range cell_range
       (PDict [("userEnteredFormat", PDict [("verticalAlignment", PStr alignment)])]))
    "userEnteredFormat.verticalAlignment" self.

(** [Sheet.set_background_colour] *)
Definition set_background_colour (cell_range : CellRange) (colour : pyval)
    (self : Sheet) : Sheet :=
  _cells_request (start_row cell_range) (start_column cell_range)
    (fill_range cell_range
       (PDict [("userEnteredFormat", PDict [("backgroundColor", colour)])]))
    "userEnteredFormat.backgroundColor" self.

(** [Sheet.set_wrap_strategy] *)
Definition set_wrap_strategy (cell_range : CellRange) (wrap_strategy : string)
    (self : Sheet) : Sheet :=
  _cells_request (start_row cell_range) (start_column cell_range)
    (fill_range cell_range
       (PDict [("userEnteredFormat", PDict [("wrapStrategy", PStr wrap_strategy)])]))
    "userEnteredFormat.wrapStrategy" self.

(** [Sheet.set_data_validation] *)
Definition set_data_validation (cell_range : CellRange) (data_validation : pyval)
    (self : Sheet) : Sheet :=
  _cells_request (start_row cell_range) (start_column cell_range)
    (fill_range cell_range (PDict [("dataValidation", data_validation)]))
    "dataValidation" self.

(** The loop [for i in range(cell_range.depth)] of [replace_cells], from
    index [i] on: [cell_definitions[i]] raises IndexError past the end. *)
Fixpoint replace_rows (count : nat) (i : Z) (cell_definitions : list pyval)
  : result (list pyval) :=
  match count with
  | O => Ok []
  | S count' =>
      d <- list_index cell_definitions i ;;
      rest <- replace_rows count' (i + 1) cell_definitions ;;
      Ok (PDict [("values", d)] :: rest)
  end.

(** [Sheet.replace_cells] *)
Definition replace_cells (cell_range : CellRange) (cell_definitions : list pyval)
    (self : Sheet) : result unit * Sheet :=
  match replace_rows (Z.to_nat (depth cell_range)) 0 cell_definitions with
  | Ok row_objects =>
      (Ok tt,
       _cells_request (start_row cell_range) (start_column cell_range) row_objects
         "*" self)
  | Raise e => (Raise e, self)
  end.

(** [d[k] = v] on a dict with string keys: a key already there keeps its
    place and takes the new value, a new key goes last. *)
Fixpoint dict_setitem (k : string) (v : pyval) (d : list (string * pyval))
  : list (string * pyval) :=
  match d with
  | [] => [(k, v)]
  | (k', v') :: d' =>
      if String.eqb k' k then (k', v) :: d' else (k', v') :: dict_setitem k v d'
  end.

(** [kwargs.pop(k, None)]: the dict that is left. *)
Definition dict_pop (k : string) (d : list (string * pyval)) : list (string * pyval) :=
  filter (fun kv => negb (String.eqb (fst kv) k)) d.

(** [fields.add(k)] on a set kept as the list of its elements. *)
Definition set_add (k : string) (fields : list string) : list string :=
  if existsb (String.eqb k) fields then fields else (fields ++ [k])%list.

(** [Sheet.set_text_format]; [kwargs] is the dict of the keyword
    arguments of the call.  [','.join(fields)] reads a set: [set_order]
    is the order in which the interpreter iterates it, a permutation
    that depends on the hash seed of the process.  Every cell holds the
    one [kwargs] dict, so the [foregroundColorStyle] entry written into
    it while the first cell is built shows in all of them. *)
Definition set_text_format (set_order : list string -> list string)
    (cell_range : CellRange) (kwargs : list (string * pyval)) (self : Sheet) : Sheet :=
  match kwargs with
  | [] => self
  | _ =>
      let colour := dict_get "colour" PNone kwargs in
      let kwargs := dict_pop "colour" kwargs in
      let fields := map fst kwargs in
      let fields :=
        if truthy colour then set_add "foregroundColorStyle" fields else fields in
      let field_mask :=
        ("userEnteredFormat.textFormat(" ++ String.concat "," (set_order fields) ++ ")")%string in
      let kwargs :=
        if truthy colour
        then dict_setitem "foregroundColorStyle" (PDict [("rgbColor", colour)]) kwargs
        else kwargs in
      _cells_request (start_row cell_range) (start_column cell_range)
        (fill_range cell_range
           (PDict [("userEnteredFormat", PDict [("textFormat", PDict kwargs)])]))
        field_mask self
  end.

(** [s.find(sub)] read from offset [i] of the whole string: the lowest
    index at which [sub] starts, [-1] when it starts nowhere. *)
Fixpoint find_from (sub s : string) (i : Z) : Z :=
  if String.prefix sub s then i
  else match s with
       | EmptyString => -1
       | String _ rest => find_from sub rest (i + 1)
       end.

(** [string_value.find(sub)] once the method is found: text finds text,
    bytes find bytes or one byte given as an integer of [range(256)]. *)
Definition find (string_value sub : pyval) : result Z :=
  let byte (n : Z) : result Z :=
    match string_value with
    | PBytes s =>
        if (0 <=? n) && (n <? 256)
        then Ok (find_from (String (ascii_of_nat (Z.to_nat n)) EmptyString) s 0)
        else Raise ValueError
    | _ => Raise TypeError
    end in
  match string_value, sub with
  | PStr s, PStr x => Ok (find_from x s 0)
  | PBytes s, PBytes x => Ok (find_from x s 0)
  | PBytes _, PInt n => byte n
  | PBytes _, PBool b => byte (if b then 1 else 0)
  | _, _ => Raise TypeError
  end.

(** The body of the loop of [create_text_format_runs] for one link: the
    runs it appends. *)
Definition link_runs (string_value link : pyval) : result (list pyval) :=
  match string_value with
  | PStr _ | PBytes _ =>
      value <- getitem link "value" ;;
      temp <- find string_value value ;;
      if temp =? -1 then Ok []
      else
        uri <- getitem link "uri" ;;
        let run :=
          PDict [("startIndex", PInt temp);
                 ("format", PDict [("link", PDict [("uri", uri)])])] in
        n <- len string_value ;;
        m <- len value ;;
        if n =? temp + m then Ok [run]
        else Ok [run; PDict [("startIndex", PInt (temp + m)); ("format", PDict [])]]
  | _ => Raise AttributeError
  end.

(** [create_text_format_runs], the local function of [set_link_sets],
    over the links the loop visits. *)
Fixpoint create_text_format_runs (string_value : pyval) (links : list pyval)
  : result (list pyval) :=
  match links with
  | [] => Ok []
  | link :: links' =>
      runs <- link_runs string_value link ;;
      rest <- create_text_format_runs string_value links' ;;
      Ok (runs ++ rest)%list
  end.

(** One cell of the comprehension of [set_link_sets]. *)
Definition link_cell (cell : pyval) : result pyval :=
  string_value <- getitem cell "stringValue" ;;
  links <- getitem cell "links" ;;
  links <- iter links ;;
  text_format_runs <- create_text_format_runs string_value links ;;
  Ok (PDict [("userEnteredValue", PDict [("stringValue", string_value)]);
             ("textFormatRuns", PList text_format_runs)]).

(** A comprehension [[f(x) for x in l]] whose body can raise. *)
Fixpoint comprehension (f : pyval -> result pyval) (l : list pyval)
  : result (list pyval) :=
  match l with
  | [] => Ok []
  | x :: l' =>
      y <- f x ;;
      rest <- comprehension f l' ;;
      Ok (y :: rest)
  end.

(** One row of the comprehension of [set_link_sets]. *)
Definition link_row (row : pyval) : result pyval :=
  cells <- iter row ;;
  values <- comprehension link_cell cells ;;
  Ok (PDict [("values", PList values)]).

(** The comprehension over the rows of [link_set_array]. *)
Definition link_rows (link_set_array : pyval) : result (list pyval) :=
  rows <- iter link_set_array ;;
  comprehension link_row rows.

(** [Sheet.set_link_sets]: [rows] is a list holding the one list of the
    row objects, and goes as it is into the request. *)
Definition set_link_sets (start_row start_column : Z) (link_set_array : pyval)
    (self : Sheet) : result unit * Sheet :=
  match link_rows link_set_array with
  | Ok row_objects =>
      (Ok tt,
       _cells_request start_row start_column [PList row_objects]
         "userEnteredValue,textFormatRuns" self)
  | Raise e => (Raise e, self)
  end.

(** [Sheet.set_number_format]; [pattern] is [None] when not given. *)
Definition set_number_format (cell_range : CellRange) (number_type : string)
    (pattern : pyval) (self : Sheet) : Sheet :=
  _cells_request (start_row cell_range) (start_column cell_range)
    (fill_range cell_range
       (PDict [("userEnteredFormat",
                PDict [("numberFormat",
                        PDict [("type", PStr number_type); ("pattern", pattern)])])]))
    "userEnteredFormat.numberFormat" self.

(** [Sheet.add_hide_box] *)
Definition add_hide_box (row column : Z) (formula : string) (self : Sheet) : Sheet :=
  let grid_range :=
    PDict [("sheetId", sheet_id self);
           ("startRowIndex", PInt row);
           ("endRowIndex", PInt (row + 1));
           ("startColumnIndex", PInt column);
           ("endColumnIndex", PInt (column + 1))] in
  let white := PDict [("rgbColor",
                       PDict [("red", PInt 1); ("green", PInt 1); ("blue", PInt 1)])] in
  let format_json :=
    PDict [("textFormat", PDict [("foregroundColorStyle", white)]);
           ("backgroundColorStyle", white)] in
  let bool_rule :=
    PDict [("condition",
            PDict [("type", PStr "CUSTOM_FORMULA");
                   ("values", PList [PDict [("userEnteredValue", PStr formula)]])]);
           ("format", format_json)] in
  let rule := PDict [("ranges", PList [grid_range]); ("booleanRule", bool_rule)] in
  let conditional_request := PDict [("rule", rule); ("index", PInt 0)] in
  append_request (PDict [("addConditionalFormatRule", conditional_request)]) self.

(** [Sheet.set_borders]; [colour] is [None] when not given. *)
Definition set_borders (cell_range : CellRange) (sides : list string) (style : string)
    (colour : pyval) (self : Sheet) : Sheet :=
  let colour :=
    match colour with
    | PNone => PDict [("red", PInt 0); ("green", PInt 0); ("blue", PInt 0)]
    | _ => colour
    end in
  let update_borders_request :=
    [("range",
      PDict [("sheetId", sheet_id self);
             ("startRowIndex", PInt (start_row cell_range));
             ("endRowIndex", PInt (end_row cell_range));
             ("startColumnIndex", PInt (start_column cell_range));
             ("endColumnIndex", PInt (end_column cell_range))])] in
  let update_borders_request :=
    fold_left
      (fun d side => dict_setitem side (PDict [("style", PStr style); ("color", colour)]) d)
      sides update_borders_request in
  append_request (PDict [("updateBorders", PDict update_borders_request)]) self.

End GoogleSheets.

(** *** class Spreadsheet *)

Module Spreadsheet.
Import GoogleApi.

(** Keys of a Python dict: lists and dicts are unhashable, numbers are
    equal across [bool], [int] and [float] when they denote the same
    number. *)
Definition hashable (v : pyval) : bool :=
  match v with
  | PList _ | PDict _ => false
  | _ => true
  end.

Definition float_eq_Z (f : spec_float) (z : Z) : bool :=
  match f with
  | S754_zero _ => z =? 0
  | S754_finite s m e =>
      let v := if s then Z.neg m else Z.pos m in
      if 0 <=? e then v * 2 ^ e =? z else v =? z * 2 ^ (- e)
  | _ => false
  end.

Definition key_eqb (a b : pyval) : bool :=
  match a, b with
  | PNone, PNone => true
  | PStr s, PStr s' => String.eqb s s'
  | PBytes s, PBytes s' => String.eqb s s'
  | PBool x, PBool y => Bool.eqb x y
  | PBool x, PInt z | PInt z, PBool x => (if x then 1 else 0) =? z
  | PInt x, PInt y => x =? y
  | PFloat f, PInt z | PInt z, PFloat f => float_eq_Z f z
  | PFloat f, PBool x | PBool x, PFloat f => float_eq_Z f (if x then 1 else 0)
  | PFloat f, PFloat g => SFeqb f g
  | _, _ => false
  end.

(** [d[k] = v] on a dict with arbitrary hashable keys: an equal key keeps
    its place and takes the new value, a new key goes last. *)
Fixpoint dict_set (k v : pyval) (d : list (pyval * pyval)) : list (pyval * pyval) :=
  match d with
  | [] => [(k, v)]
  | (k', v') :: d' =>
      if key_eqb k' k then (k', v) :: d' else (k', v') :: dict_set k v d'
  end.

Record t : Type := {
  spreadsheet_id : pyval;
  json : pyval;
  requests : list pyval;
  title_key : list (pyval * pyval)
}.

Definition set_spreadsheet_id (v : pyval) (s : t) : t :=
  {| spreadsheet_id := v; json := json s; requests := requests s;
     title_key := title_key s |}.
Definition set_json (v : pyval) (s : t) : t :=
  {| spreadsheet_id := spreadsheet_id s; json := v; requests := requests s;
     title_key := title_key s |}.
Definition set_requests (v : list pyval) (s : t) : t :=
  {| spreadsheet_id := spreadsheet_id s; json := json s; requests := v;
     title_key := title_key s |}.
Definition set_title_key (v : list (pyval * pyval)) (s : t) : t :=
  {| spreadsheet_id := spreadsheet_id s; json := json s; requests := requests s;
     title_key := v |}.

(** The loop [for sheet in preload['sheets']] filling [title_key]. *)
Fixpoint load_titles (sheets : list pyval) : st t unit :=
  match sheets with
  | [] => st_ret tt
  | sheet :: rest =>
      title <~ st_eval (p <- getitem sheet "properties" ;; getitem p "title") ;;
      sid <~ st_eval (p <- getitem sheet "properties" ;; getitem p "sheetId") ;;
      (if hashable sid
       then st_assign (fun s => set_title_key (dict_set sid title (title_key s)) s)
       else st_eval (Raise TypeError)) ;;;
      load_titles rest
  end.

(** [Spreadsheet.reload]; [__init__] has the same body. *)
Definition reload (preload : pyval) : st t unit :=
  sid <~ st_eval (getitem preload "spreadsheetId") ;;
  st_assign (set_spreadsheet_id sid) ;;;
  st_assign (set_json preload) ;;;
  st_assign (set_requests []) ;;;
  st_assign (set_title_key []) ;;;
  sheets <~ st_eval (s <- getitem preload "sheets" ;; iter s) ;;
  load_titles sheets.

(** The local [request_object] of [Spreadsheet.commit_changes]. *)
Definition request_object (update : bool) (self : t) : pyval :=
  PDict [("requests", PList (requests self));
         ("includeSpreadsheetInResponse", PBool update)].

(** [Spreadsheet.commit_changes] *)
Definition commit_changes (update : bool) (self : t) (w : world)
  : result bool * t * world :=
  if Z.of_nat (List.length (requests self)) =? 0 then (Ok true, self, w)
  else
    let '(preload, w1) :=
      GoogleSheets.batch_update (spreadsheet_id self) (request_object update self)
        (GoogleSheets.start_service w) in
    if negb (truthy preload) then
      (Ok false, self,
       emit (Log ERROR "Could not commit changes to spreadsheet %s due to API error.") w1)
    else if update then
      match (p <~ st_eval (getitem preload "updatedSpreadsheet") ;; reload p) self with
      | (Ok _, self') => (Ok true, self', w1)
      | (Raise e, self') => (Raise e, self', w1)
      end
    else (Ok true, self, w1).

(** [Spreadsheet.delete_sheet], one of the methods that only queue. *)
Definition delete_sheet (sheet_id : pyval) (self : t) : t :=
  set_requests (requests self ++ [PDict [("deleteSheet", PDict [("sheetId", sheet_id)])]])%list self.

(** [Spreadsheet.add_sheet]: the index is sent only when it is not
    negative. *)
Definition add_sheet (sheet_name : string) (hidden : bool) (index : Z) (self : t) : t :=
  let properties :=
    ([("title", PStr sheet_name); ("hidden", PBool hidden)]
     ++ (if 0 <=? index then [("index", PInt index)] else []))%list in
  set_requests
    (requests self ++ [PDict [("addSheet", PDict [("properties", PDict properties)])]])%list
    self.

(** [Spreadsheet.hidden_request] *)
Definition hidden_request (sheet_id : pyval) (hidden : bool) (self : t) : t :=
  set_requests
    (requests self
     ++ [PDict [("updateSheetProperties",
                 PDict [("properties",
                         PDict [("sheetId", sheet_id); ("hidden", PBool hidden)]);
                        ("fields", PStr "hidden")])]])%list
    self.

(** [Spreadsheet.rename_sheet] *)
Definition rename_sheet (sheet_id : pyval) (new_name : string) (self : t) : t :=
  set_requests
    (requests self
     ++ [PDict [("updateSheetProperties",
                 PDict [("properties",
                         PDict [("sheetId", sheet_id); ("title", PStr new_name)]);
                        ("fields", PStr "title")])]])%list
    self.

(** [Spreadsheet.move_sheet] *)
Definition move_sheet (sheet_id : pyval) (new_index : Z) (self : t) : t :=
  set_requests
    (requests self
     ++ [PDict [("updateSheetProperties",
                 PDict [("properties",
                         PDict [("sheetId", sheet_id); ("index", PInt new_index)]);
                        ("fields", PStr "index")])]])%list
    self.

(** The property [Spreadsheet.id_key]: the titles as keys, the ids as
    values. *)
Fixpoint id_key_from (items acc : list (pyval * pyval)) : result (list (pyval * pyval)) :=
  match items with
  | [] => Ok acc
  | (key, value) :: rest =>
      if hashable value then id_key_from rest (dict_set value key acc)
      else Raise TypeError
  end.

Definition id_key (self : t) : result (list (pyval * pyval)) :=
  id_key_from (title_key self) [].

End Spreadsheet.

(** ** tasks/google_docs.py *)

Module GoogleDocs.
Import GoogleApi.

(** [start_service().documents()], taken to return as for Sheets. *)
Definition start_service (w : world) : world := emit (StartService "docs") w.

(** [batch_update(service, documentId=..., body=...)] *)
Definition batch_update (documentId body : pyval) (w : world) : pyval * world :=
  batch_update_from "Google Docs batchUpdate API error: %s"
    (Z.to_nat RETRIES) 0 documentId body w.

Record Document : Type := {
  document_id : pyval;
  json : pyval;
  requests : list pyval
}.

(** [Document.__init__] *)
Definition init (preload : pyval) : result Document :=
  d <- getitem preload "documentId" ;;
  Ok {| document_id := d; json := preload; requests := [] |}.

(** The [body] argument of the call in [Document.commit_changes]. *)
Definition body (self : Document) : pyval :=
  PDict [("requests", PList (requests self))].

(** [Document.commit_changes] *)
Definition commit_changes (self : Document) (w : world)
  : result bool * Document * world :=
  if negb (truthy (PList (requests self))) then (Ok true, self, w)
  else
    let '(preload, w1) :=
      batch_update (document_id self) (body self) (start_service w) in
    if negb (truthy preload) then
      (Ok false, self,
       emit (Log ERROR "Could not commit changes to document %s due to API error.") w1)
    else
      (Ok true,
       {| document_id := document_id self; json := json self; requests := [] |},
       w1).

(** [Document.replace_all_text] *)
Definition replace_all_text (find replace : string) (self : Document) : Document :=
  let request :=
    PDict [("replaceAllText",
            PDict [("replaceText", PStr replace);
                   ("containsText",
                    PDict [("text", PStr find);
                           ("matchCase", PBool true);
                           ("searchByRegex", PBool false)])])] in
  {| document_id := document_id self; json := json self;
     requests := (requests self ++ [request])%list |}.

End GoogleDocs.

(** ** tasks/xero.py: journals *)

Module Xero.

(** [s[start:stop]] on a string, with Python's clamping of both ends. *)
Definition clamp_index (n i : Z) : Z :=
  if i <? 0 then Z.max 0 (i + n) else Z.min i n.

Definition str_slice (s : string) (start stop : Z) : string :=
  let n := Z.of_nat (String.length s) in
  let a := clamp_index n start in
  let b := clamp_index n stop in
  if a <? b then substring (Z.to_nat a) (Z.to_nat (b - a)) s else EmptyString.

(** [int(s)] on a string or on bytes: surrounding whitespace is dropped,
    then an optional sign and decimal digits, single underscores allowed
    between digits; anything else is a ValueError, and so is a numeral of
    more than 4300 digits, the limit of [sys.int_max_str_digits].  The
    whitespace [int] drops from bytes is tab, line feed, vertical tab,
    form feed, carriage return and space; from a string, whose characters
    are code points, also NEL (133) and the no-break space (160).  The
    separators 28 to 31, which [str.strip] drops, are not among them. *)
Definition whitespace : string :=
  string_of_list_ascii (map ascii_of_nat [9; 10; 11; 12; 13; 32]%nat).

Definition str_whitespace : string :=
  string_of_list_ascii (map ascii_of_nat [9; 10; 11; 12; 13; 32; 133; 160]%nat).

Definition digit_of (c : ascii) : option Z :=
  let n := Z.of_nat (nat_of_ascii c) in
  if (48 <=? n) && (n <=? 57) then Some (n - 48) else None.

Fixpoint parse_digits (s : string) (acc : Z) (after_digit : bool) : option Z :=
  match s with
  | EmptyString => if after_digit then Some acc else None
  | String c r =>
      if Ascii.eqb c "_" then
        if after_digit then parse_digits r acc false else None
      else
        match digit_of c with
        | Some d => parse_digits r (10 * acc + d) true
        | None => None
        end
  end.

(** The digits of a numeral, its underscores left out. *)
Fixpoint count_digits (s : string) : nat :=
  match s with
  | EmptyString => O
  | String c r => if Ascii.eqb c "_" then count_digits r else S (count_digits r)
  end.

Definition max_str_digits : nat := 4300.

Definition int_of (spaces : string) (s : string) : result Z :=
  let t := rstrip spaces (lstrip spaces s) in
  let '(negative, body) :=
    match t with
    | String c r =>
        if Ascii.eqb c "-" then (true, r)
        else if Ascii.eqb c "+" then (false, r)
        else (false, t)
    | EmptyString => (false, t)
    end in
  match parse_digits body 0 false with
  | Some z =>
      if (max_str_digits <? count_digits body)%nat then Raise ValueError
      else Ok (if negative then - z else z)
  | None => Raise ValueError
  end.

Definition int_of_str : string -> result Z := int_of str_whitespace.
Definition int_of_bytes : string -> result Z := int_of whitespace.

(** [date_to_seconds]: the milliseconds between ["/Date("] and the tail
    (["+0000)/"] with a time zone, [")/"] without), floor-divided by 1000.
    A string and bytes are sliced and read by [int] alike.  A slice of a
    list is a list, which [int] refuses with a TypeError; a number or a
    boolean cannot be sliced, a TypeError as well; a dict is asked for the
    slice as a key, which it does not hold: a KeyError (slices are
    hashable from Python 3.12 on, the version the f-strings of
    [api_client.py] need). *)
Definition date_to_seconds (xero_datetime : pyval) (timezone_present : bool) : result pyval :=
  match xero_datetime with
  | PNone => Ok PNone
  | PStr s | PBytes s =>
      let int := match xero_datetime with
                 | PBytes _ => int_of_bytes
                 | _ => int_of_str
                 end in
      epoch_time_ms <-
        (if timezone_present then int (str_slice s 6 (-7))
         else int (str_slice s 6 (-2))) ;;
      Ok (PInt (epoch_time_ms / 1000))
  | PDict _ => Raise KeyError
  | _ => Raise TypeError
  end.

(** The dict literal [new_line] of [simplify_journals]. *)
Definition new_line (journal : list (string * pyval)) (line : pyval) (extracted : pyval)
  : result pyval :=
  timestamp <- date_to_seconds (dict_get "JournalDate" (PStr EmptyString) journal) true ;;
  created <- date_to_seconds (dict_get "CreatedDateUTC" (PStr EmptyString) journal) true ;;
  journal_line_id <- Py.get line "JournalLineID" PNone ;;
  account_id <- Py.get line "AccountID" PNone ;;
  account_code <- Py.get line "AccountCode" PNone ;;
  account_type <- Py.get line "AccountType" PNone ;;
  account_name <- Py.get line "AccountName" PNone ;;
  description <- Py.get line "Description" PNone ;;
  net_amount <- Py.get line "NetAmount" PNone ;;
  gross_amount <- Py.get line "GrossAmount" PNone ;;
  tax_amount <- Py.get line "TaxAmount" PNone ;;
  tax_name <- Py.get line "TaxName" PNone ;;
  tracking <- Py.get line "TrackingCategories" PNone ;;
  Ok (PDict [("timestamp", timestamp);
             ("extracted", extracted);
             ("journal_id", dict_get "JournalID" PNone journal);
             ("journal_number", dict_get "JournalNumber" PNone journal);
             ("created_date_utc", created);
             ("journal_reference", dict_get "Reference" PNone journal);
             ("source_id", dict_get "SourceID" PNone journal);
             ("journal_type", dict_get "SourceType" PNone journal);
             ("journal_line_id", journal_line_id);
             ("account_id", account_id);
             ("account_code", account_code);
             ("account_type", account_type);
             ("account_name", account_name);
             ("description", description);
             ("net_amount", net_amount);
             ("gross_amount", gross_amount);
             ("tax_amount", tax_amount);
             ("tax_name", tax_name);
             ("tracking", tracking)]).

(** The inner loop [for line in raw_journal_lines]. *)
Fixpoint simplify_lines (journal : list (string * pyval)) (lines : list pyval)
    (extracted : pyval) : result (list pyval) :=
  match lines with
  | [] => Ok []
  | line :: rest =>
      l <- new_line journal line extracted ;;
      ls <- simplify_lines journal rest extracted ;;
      Ok (l :: ls)
  end.

(** The outer loop [for journal in journals_raw['Journals']]. *)
Fixpoint simplify_each (journals : list pyval) (extracted : pyval) : result (list pyval) :=
  match journals with
  | [] => Ok []
  | journal :: rest =>
      if negb (truthy journal) then simplify_each rest extracted
      else
        raw <- Py.get journal "JournalLines" (PList []) ;;
        lines <- iter raw ;;
        d <- keys journal ;;
        here <- simplify_lines d lines extracted ;;
        later <- simplify_each rest extracted ;;
        Ok (here ++ later)%list
  end.

(** [simplify_journals] *)
Definition simplify_journals (journals_raw : pyval) (extracted : pyval) : result (list pyval) :=
  js <- getitem journals_raw "Journals" ;;
  journals <- iter js ;;
  simplify_each journals extracted.

(** The outside world of [get_journals]: [pages n] is what the n-th
    [main_client.get] of the process returns (the decoded body, or [None]
    after a logged failure), [now n] what [datetime.now()] formats to just
    before it; [sent] lists the [params] of the calls made, oldest first. *)
Record world : Type := {
  pages : nat -> pyval;
  now : nat -> string;
  ncalls : nat;
  sent : list pyval;
  log : list event
}.

Definition fetch (params : pyval) (w : world) : (pyval * pyval) * world :=
  ((PStr (now w (ncalls w)), pages w (ncalls w)),
   {| pages := pages w; now := now w; ncalls := S (ncalls w);
      sent := (sent w ++ [params])%list; log := log w |}).

Definition log_error (msg : string) (w : world) : world :=
  {| pages := pages w; now := now w; ncalls := ncalls w; sent := sent w;
     log := (log w ++ [Log ERROR msg])%list |}.

(** [{'offset': new_lines[-1]['journal_number']}] *)
Definition next_params (new_lines : list pyval) : result pyval :=
  l <- list_index new_lines (-1) ;;
  n <- getitem l "journal_number" ;;
  Ok (PDict [("offset", n)]).

(** The [while True] loop of [get_journals].  [fuel] bounds the number of
    iterations the model unrolls; [None] means the bound was hit with the
    loop still running. *)
Fixpoint journals_loop (fuel : nat) (journal_lines : list pyval) (params : pyval)
    (w : world) : option (result pyval) * world :=
  match fuel with
  | O => (None, w)
  | S fuel' =>
      let '((extracted, journals_raw), w1) := fetch params w in
      if negb (truthy journals_raw) then
        (Some (Ok PNone), log_error "Get journals API request failed for %s." w1)
      else
        match simplify_journals journals_raw extracted with
        | Raise e => (Some (Raise e), w1)
        | Ok new_lines =>
            if Z.of_nat (List.length new_lines) =? 0 then
              (Some (Ok (PList journal_lines)), w1)
            else
              match next_params new_lines with
              | Raise e => (Some (Raise e), w1)
              | Ok params' =>
                  journals_loop fuel' (journal_lines ++ new_lines)%list params' w1
              end
        end
  end.

(** [get_journals].  [client] is what [XeroClient.get_by_id] found and
    [tokens] the pair [get_tokens] returned for it. *)
Definition get_journals (client : option unit) (tokens : pyval * pyval)
    (fuel : nat) (w : world) : option (result pyval) * world :=
  match client with
  | None =>
      (Some (Ok PNone),
       log_error "Could not get journals for %s as the client was not found" w)
  | Some _ =>
      let '(tenant_id, access_token) := tokens in
      match tenant_id, access_token with
      | PNone, _ =>
          (Some (Ok PNone),
           log_error "Could not get journals for %s as the client did not have a tenant ID." w)
      | _, PNone =>
          (Some (Ok PNone),
           log_error "Could not get journals for %s as the client did not have an access token." w)
      | _, _ => journals_loop fuel [] PNone w
      end
  end.

End Xero.

(** ** tasks/web_scrape.py: polling for a finished job *)

Module WebScrape.

(** How a call of a [get_...] function ends: it returns [None], the list
    of results or the bytes [base64.b64decode] made of the [content] of
    the response, or it raises what [base64.b64decode] raised. *)
Inductive fetched : Type :=
| NoResult
| Results (l : list pyval)
| Decoded (data : string)
| Raised (e : exn).

(** [return base64.b64decode(content)], for the library function
    [b64decode]: the bytes, or the exception (TypeError for what is
    neither bytes nor text, ValueError for text that is not ASCII,
    [binascii.Error] for bad padding). *)
Definition return_decoded (b64decode : pyval -> result string) (content : pyval)
  : fetched :=
  match b64decode content with
  | Ok data => Decoded data
  | Raise e => Raised e
  end.

(** What one pass of the loop body decides after [api_client.get]. *)
Inductive verdict : Type :=
| Return (r : fetched)
| Fail (msg : string)
| Pending
| Break.

(** The outside world of a poll: [responses n] is what the n-th
    [api_client.get] returns and [latency n] how many clock ticks it
    takes; [clock] is the reading of [time.time()] in ticks and [trace]
    the events so far, each with the clock reading at which it started. *)
Record world : Type := {
  responses : nat -> pyval;
  latency : nat -> N;
  ncalls : nat;
  clock : Z;
  trace : list (Z * event)
}.

Definition is_dict (v : pyval) : bool :=
  match v with PDict _ => true | _ => false end.

(** [results.get('status') == 'pending'] on a dict. *)
Definition status_pending (results : pyval) : bool :=
  match results with
  | PDict d =>
      match dict_get "status" PNone d with
      | PStr s => String.eqb s "pending"
      | _ => false
      end
  | _ => false
  end.

(** The loop body of [get_management_report] after the request. *)
Definition management_report_step (b64decode : pyval -> result string)
    (results : pyval) : verdict :=
  match results with
  | PDict d =>
      if status_pending results then Pending
      else match assoc "content" d with
           | Some content => Return (return_decoded b64decode content)
           | None => Break
           end
  | _ => Fail "Get management report failed due to API error."
  end.

(** The loop body of [get_uncoded_statement_lines] after the request. *)
Definition uncoded_statement_lines_step (results : pyval) : verdict :=
  match results with
  | PList l => Return (Results l)
  | PDict _ => if status_pending results then Pending else Break
  | _ => Fail "Get uncoded statement lines failed due to API error."
  end.

Section Clock.

(** Clock ticks per second. *)
Variable tps : positive.

Definition api_get_result (w : world) : pyval := responses w (ncalls w).

Definition after_get (w : world) : world :=
  {| responses := responses w; latency := latency w; ncalls := S (ncalls w);
     clock := clock w + Z.of_N (latency w (ncalls w));
     trace := (trace w ++ [(clock w, HttpCall "GET" "results")])%list |}.

(** [time.sleep(seconds)] *)
Definition sleep (seconds : Z) (w : world) : world :=
  {| responses := responses w; latency := latency w; ncalls := ncalls w;
     clock := clock w + seconds * Z.pos tps;
     trace := (trace w ++ [(clock w, Sleep seconds)])%list |}.

Definition log_error (msg : string) (w : world) : world :=
  {| responses := responses w; latency := latency w; ncalls := ncalls w;
     clock := clock w;
     trace := (trace w ++ [(clock w, Log ERROR msg)])%list |}.

(** [while time.time() - start_time < timeout: ...] followed by the
    timed-out exit.  [timeout] is in seconds.  The loop is total: a pass
    that goes round again has slept one second. *)
Equations? poll_loop (step : pyval -> verdict) (timeout_msg : string)
    (start_time timeout : Z) (w : world) : fetched * world
    by wf (Z.to_nat (start_time + timeout * Z.pos tps - clock w)) lt :=
  poll_loop step timeout_msg start_time timeout w
    with Z_lt_dec (clock w - start_time) (timeout * Z.pos tps) => {
    | right _ => (NoResult, log_error timeout_msg w)
    | left _ with step (api_get_result w) => {
        | Return r => (r, after_get w)
        | Fail msg => (NoResult, log_error msg (after_get w))
        | Pending => poll_loop step timeout_msg start_time timeout (sleep 1 (after_get w))
        | Break => (NoResult, log_error timeout_msg (after_get w)) } }.
Proof.
  simpl. lia.
Qed.

(** [base64.b64decode] *)
Variable b64decode : pyval -> result string.

(** [get_management_report(task_id, timeout)] *)
Definition get_management_report (timeout : Z) (w : world) : fetched * world :=
  poll_loop (management_report_step b64decode)
    "Get management report timed out after %d seconds"
    (clock w) timeout w.

(** [get_uncoded_statement_lines(task_id, timeout)] *)
Definition get_uncoded_statement_lines (timeout : Z) (w : world) : fetched * world :=
  poll_loop uncoded_statement_lines_step
    "Get uncoded statement lines timed out after %d seconds"
    (clock w) timeout w.

End Clock.

(** The other report fetchers: the loop of [get_management_report] with
    their own messages. *)

(** The loop body of [get_general_ledger_detail] after the request. *)
Definition general_ledger_detail_step (b64decode : pyval -> result string)
    (results : pyval) : verdict :=
  match results with
  | PDict d =>
      if status_pending results then Pending
      else match assoc "content" d with
           | Some content => Return (return_decoded b64decode content)
           | None => Break
           end
  | _ => Fail "Get general ledger detail failed due to API error."
  end.

(** [get_general_ledger_detail(task_id, timeout)] *)
Definition get_general_ledger_detail (tps : positive) (b64decode : pyval -> result string)
    (timeout : Z) (w : world) :
    fetched * world :=
  poll_loop tps (general_ledger_detail_step b64decode)
    "Get general ledger detail timed out after %d seconds"
    (clock w) timeout w.

(** The loop body of [get_general_ledger_summary] after the request. *)
Definition general_ledger_summary_step (b64decode : pyval -> result string)
    (results : pyval) : verdict :=
  match results with
  | PDict d =>
      if status_pending results then Pending
      else match assoc "content" d with
           | Some content => Return (return_decoded b64decode content)
           | None => Break
           end
  | _ => Fail "Get general ledger summary failed due to API error."
  end.

(** [get_general_ledger_summary(task_id, timeout)] *)
Definition get_general_ledger_summary (tps : positive) (b64decode : pyval -> result string)
    (timeout : Z) (w : world) :
    fetched * world :=
  poll_loop tps (general_ledger_summary_step b64decode)
    "Get general ledger summary timed out after %d seconds"
    (clock w) timeout w.

(** The loop body of [get_revenue_data] after the request. *)
Definition revenue_data_step (b64decode : pyval -> result string)
    (results : pyval) : verdict :=
  match results with
  | PDict d =>
      if status_pending results then Pending
      else match assoc "content" d with
           | Some content => Return (return_decoded b64decode content)
           | None => Break
           end
  | _ => Fail "Get revenue data failed due to API error."
  end.

(** [get_revenue_data(task_id, timeout)] *)
Definition get_revenue_data (tps : positive) (b64decode : pyval -> result string)
    (timeout : Z) (w : world) :
    fetched * world :=
  poll_loop tps (revenue_data_step b64decode)
    "Get revenue data timed out after %d seconds"
    (clock w) timeout w.

(** The loop body of [get_gst_rec] after the request. *)
Definition gst_rec_step (b64decode : pyval -> result string)
    (results : pyval) : verdict :=
  match results with
  | PDict d =>
      if status_pending results then Pending
      else match assoc "content" d with
           | Some content => Return (return_decoded b64decode content)
           | None => Break
           end
  | _ => Fail "Get GST rec failed due to API error."
  end.

(** [get_gst_rec(task_id, timeout)] *)
Definition get_gst_rec (tps : positive) (b64decode : pyval -> result string)
    (timeout : Z) (w : world) :
    fetched * world :=
  poll_loop tps (gst_rec_step b64decode)
    "Get GST rec timed out after %d seconds"
    (clock w) timeout w.

(** The loop body of [get_payable_invoice] after the request. *)
Definition payable_invoice_step (b64decode : pyval -> result string)
    (results : pyval) : verdict :=
  match results with
  | PDict d =>
      if status_pending results then Pending
      else match assoc "content" d with
           | Some content => Return (return_decoded b64decode content)
           | None => Break
           end
  | _ => Fail "Get payable invoice failed due to API error."
  end.

(** [get_payable_invoice(task_id, timeout)] *)
Definition get_payable_invoice (tps : positive) (b64decode : pyval -> result string)
    (timeout : Z) (w : world) :
    fetched * world :=
  poll_loop tps (payable_invoice_step b64decode)
    "Get payable invoice timed out after %d seconds"
    (clock w) timeout w.

End WebScrape.

(** ** models/xero_client.py: the token columns *)

Module XeroClient.

Section Fernet.

(** The [cryptography.fernet] and codec primitives the model calls:
    [fernet_encrypt key salt data] is [Fernet(key).encrypt(data)], where
    [salt] stands for the timestamp and IV drawn at that call;
    [fernet_decrypt key token] is [Fernet(key).decrypt(token)], [None] for
    InvalidToken; [utf8_encode] is [bytes(s, 'utf-8')], [None] for
    UnicodeEncodeError; [utf8_decode] is [b.decode('utf-8')]. *)
Variables key salt : Type.
Variable fernet_encrypt : key -> salt -> string -> string.
Variable fernet_decrypt : key -> string -> option string.
Variable utf8_encode : string -> option string.
Variable utf8_decode : string -> option string.

Inductive exn : Type :=
| ConfigKeyError | UnicodeEncodeError | UnicodeDecodeError | InvalidToken
| PendingRollbackError.

Inductive outcome (A : Type) : Type :=
| Returns (a : A)
| Raises (e : exn).
Arguments Returns {A} a.
Arguments Raises {A} e.

(** The columns of one [xero_clients] row. *)
Record row : Type := {
  id : Z;
  tenant_id : option string;
  access_token : option string;
  refresh_token : option string;
  access_token_expiry : option Z
}.

(** A loaded [XeroClient]: the attribute values the object shows and the
    row as last committed.  A commit that fails takes the transaction and
    the pending attribute changes with it: what is left to show is the
    committed row. *)
Record t : Type := {
  attrs : row;
  committed : row
}.

(** [current_app.config['DB_ENCRYPTION_KEY']]; [None] when unset. *)
Definition config : Type := option key.

Definition bytes_truthy (b : option string) : bool :=
  match b with
  | Some s => negb (String.eqb s EmptyString)
  | None => false
  end.

(** [XeroClient.set_tokens]; [commit_ok] tells whether
    [db.session.commit()] went through or raised SQLAlchemyError.  When
    it raised, the handler evaluates [self.id] for its log line on a
    session whose transaction the failed flush has rolled back, and that
    read raises PendingRollbackError: the exception leaves [set_tokens]
    with nothing logged and [db.session.rollback()] not reached. *)
Definition set_tokens (cfg : config) (salt1 salt2 : salt) (commit_ok : bool)
    (access refresh : string) (expiry : Z) (tenant : option string) (self : t)
  : outcome unit * t * list event :=
  match cfg with
  | None => (Raises ConfigKeyError, self, [])
  | Some k =>
      match utf8_encode access with
      | None => (Raises UnicodeEncodeError, self, [])
      | Some a =>
          let r1 := {| id := id (attrs self); tenant_id := tenant_id (attrs self);
                       access_token := Some (fernet_encrypt k salt1 a);
                       refresh_token := refresh_token (attrs self);
                       access_token_expiry := access_token_expiry (attrs self) |} in
          match utf8_encode refresh with
          | None =>
              (Raises UnicodeEncodeError,
               {| attrs := r1; committed := committed self |}, [])
          | Some r =>
              let r2 := {| id := id r1;
                           tenant_id := if ApiClient.str_truthy tenant then tenant
                                        else tenant_id r1;
                           access_token := access_token r1;
                           refresh_token := Some (fernet_encrypt k salt2 r);
                           access_token_expiry := Some expiry |} in
              if commit_ok then
                (Returns tt, {| attrs := r2; committed := r2 |}, [])
              else
                (Raises PendingRollbackError,
                 {| attrs := committed self; committed := committed self |}, [])
          end
      end
  end.

(** The body shared by the two getters, on the column [token]. *)
Definition read_token (cfg : config) (token : option string) : outcome (option string) :=
  if negb (bytes_truthy token) then Returns None
  else
    match cfg, token with
    | None, _ => Raises ConfigKeyError
    | Some k, Some tok =>
        match fernet_decrypt k tok with
        | None => Raises InvalidToken
        | Some b =>
            match utf8_decode b with
            | Some s => Returns (Some s)
            | None => Raises UnicodeDecodeError
            end
        end
    | Some _, None => Returns None
    end.

(** [XeroClient.get_access_token] *)
Definition get_access_token (cfg : config) (self : t) : outcome (option string) :=
  read_token cfg (access_token (attrs self)).

(** [XeroClient.get_xero_refresh_token] *)
Definition get_xero_refresh_token (cfg : config) (self : t) : outcome (option string) :=
  read_token cfg (refresh_token (attrs self)).

End Fernet.

Arguments Returns {A} a.
Arguments Raises {A} e.
Arguments set_tokens {key salt} fernet_encrypt utf8_encode cfg salt1 salt2
  commit_ok access refresh expiry tenant self.
Arguments read_token {key} fernet_decrypt utf8_decode cfg token.
Arguments get_access_token {key} fernet_decrypt utf8_decode cfg self.
Arguments get_xero_refresh_token {key} fernet_decrypt utf8_decode cfg self.

End XeroClient.

(** * Vocabulary of the statements *)

Definition starts_with_slash (s : string) : bool :=
  match s with
  | String c _ => Ascii.eqb c "/"
  | EmptyString => false
  end.

Fixpoint ends_with_slash (s : string) : bool :=
  match s with
  | EmptyString => false
  | String c EmptyString => Ascii.eqb c "/"
  | String _ r => ends_with_slash r
  end.

(** [n] slashes in a row. *)
Fixpoint slashes (n : nat) : string :=
  match n with
  | O => EmptyString
  | S n' => String "/" (slashes n')
  end.


(** The ways into [ApiClient.request]: itself, or one of its wrappers. *)
Inductive entry_point : Type :=
| ViaRequest (method : string)
| ViaGet | ViaPost | ViaPut | ViaDelete.

Definition invoke (ep : entry_point) (self : ApiClient.t) (net : ApiClient.send_outcome)
    (post_ok : bool) (endpoint : string) (destination : option string)
    (handle_400 raw : bool) : result pyval * list event :=
  match ep with
  | ViaRequest method =>
      ApiClient.request self net post_ok method endpoint destination handle_400 raw
  | ViaGet => ApiClient.get self net post_ok endpoint destination handle_400 raw
  | ViaPost => ApiClient.post self net post_ok endpoint destination handle_400 raw
  | ViaPut => ApiClient.put self net post_ok endpoint destination handle_400 raw
  | ViaDelete => ApiClient.delete self net post_ok endpoint destination handle_400 raw
  end.

(** The error body is not JSON, or is a JSON object whose [messages]
    entry, when there is one, is a list of JSON objects. *)
Definition error_envelope_ok (r : ApiClient.Response) : bool :=
  match ApiClient.json_body r with
  | None => true
  | Some (PDict d) =>
      match assoc "messages" d with
      | None => true
      | Some (PList l) => forallb WebScrape.is_dict l
      | Some _ => false
      end
  | Some _ => false
  end.

(** The error body is a JSON object with an empty [messages] list. *)
Definition empty_messages (net : ApiClient.send_outcome) : bool :=
  match net with
  | ApiClient.SendResponse r =>
      match ApiClient.json_body r with
      | Some (PDict d) =>
          match assoc "messages" d with
          | Some (PList []) => true
          | _ => false
          end
      | _ => false
      end
  | _ => false
  end.

(** The audit step of a call cannot fail on this response: no destination
    is given, or no audit sink is configured, or the body decodes. *)
Definition audit_safe (self : ApiClient.t) (destination : option string)
    (r : ApiClient.Response) : bool :=
  negb (ApiClient.str_truthy destination)
  || negb (ApiClient.splunk_configured self)
  || match ApiClient.decoded r with Some _ => true | None => false end.

(** The remote failures [request] absorbs: a timeout; a transport
    failure; an HTTPError without a response; a 4xx or 5xx response that
    [handle_400] does not claim and whose body is a well-formed error
    envelope; a body that is not JSON where JSON was asked for. *)
Inductive absorbed_failure (self : ApiClient.t) (destination : option string)
    (handle_400 raw : bool) : ApiClient.send_outcome -> Prop :=
| AbsorbedTimeout :
    absorbed_failure self destination handle_400 raw ApiClient.SendTimeout
| AbsorbedTransport :
    absorbed_failure self destination handle_400 raw ApiClient.SendRequestException
| AbsorbedNoResponse :
    absorbed_failure self destination handle_400 raw ApiClient.SendHTTPError
| AbsorbedHttpError (r : ApiClient.Response) :
    ApiClient.raise_for_status r = true ->
    handle_400 && (ApiClient.status_code r =? 400) = false ->
    error_envelope_ok r = true ->
    absorbed_failure self destination handle_400 raw (ApiClient.SendResponse r)
| AbsorbedDecode (r : ApiClient.Response) :
    ApiClient.raise_for_status r = false ->
    raw = false ->
    ApiClient.json_body r = None ->
    audit_safe self destination r = true ->
    absorbed_failure self destination handle_400 raw (ApiClient.SendResponse r).

Definition bad_request_400 : ApiClient.Response :=
  {| ApiClient.status_code := 400;
     ApiClient.content := "{}";
     ApiClient.text := "{}";
     ApiClient.json_body := Some (PDict []);
     ApiClient.decoded := Some "{}" |}.

Definition not_found_404 : ApiClient.Response :=
  {| ApiClient.status_code := 404;
     ApiClient.content := "{'messages': ['Not found']}";
     ApiClient.text := "{'messages': ['Not found']}";
     ApiClient.json_body := Some (PDict [("messages", PList [PStr "Not found"])]);
     ApiClient.decoded := Some "{'messages': ['Not found']}" |}.

(** A 404 with the JSON value [null] as its body. *)
Definition not_found_null : ApiClient.Response :=
  {| ApiClient.status_code := 404;
     ApiClient.content := "null";
     ApiClient.text := "null";
     ApiClient.json_body := Some PNone;
     ApiClient.decoded := Some "null" |}.


(** A service whose every [execute()] has the same outcome, in a
    working directory as checked out: without [logs/failed_sheets_calls]. *)
Definition always (o : GoogleApi.api_outcome) : GoogleApi.world :=
  {| GoogleApi.execute := fun _ => o; GoogleApi.ncalls := O; GoogleApi.trace := [];
     GoogleApi.logs_dir := false |}.

(** A one-tab spreadsheet whose grid is the single cell [5]. *)
Definition sample_preload : pyval :=
  PDict [("spreadsheetId", PStr "1BxiMVs0XRA5");
         ("sheets",
          PList [PDict [("properties",
                         PDict [("sheetId", PInt 0); ("title", PStr "Sheet1")]);
                        ("data",
                         PList [PDict [("rowData",
                           PList [PDict [("values",
                             PList [PDict [("userEnteredValue",
                                            PDict [("numberValue", PInt 5)]);
                                           ("formattedValue", PStr "5")]])]])]])]])].


Definition reply_plain : pyval :=
  PDict [("spreadsheetId", PStr "1BxiMVs0XRA5"); ("replies", PList [PDict []])].

(** The sample tab with one queued deletion of its first row. *)
Definition sample_sheet : GoogleSheets.Sheet :=
  match GoogleSheets.init sample_preload true with
  | Ok s => GoogleSheets.delete_rows 0 1 s
  | Raise _ => GoogleSheets.blank
  end.

Definition sample_document : GoogleDocs.Document :=
  match GoogleDocs.init (PDict [("documentId", PStr "doc-195j9e")]) with
  | Ok d => GoogleDocs.replace_all_text "{{name}}" "Kanoptima" d
  | Raise _ => {| GoogleDocs.document_id := PNone; GoogleDocs.json := PNone;
                  GoogleDocs.requests := [] |}
  end.

Definition sample_spreadsheet : Spreadsheet.t :=
  match Spreadsheet.reload sample_preload
          {| Spreadsheet.spreadsheet_id := PNone; Spreadsheet.json := PNone;
             Spreadsheet.requests := []; Spreadsheet.title_key := [] |} with
  | (_, s) => Spreadsheet.delete_sheet (PInt 0) s
  end.


Definition is_none_or_dict (v : pyval) : bool :=
  match v with
  | PNone | PDict _ => true
  | _ => false
  end.

(** A cell as the Sheets API sends it: a JSON object whose
    [userEnteredValue] and [effectiveValue], when present, are objects. *)
Definition cell_ok (c : pyval) : bool :=
  match c with
  | PDict d =>
      is_none_or_dict (dict_get "userEnteredValue" PNone d)
      && is_none_or_dict (dict_get "effectiveValue" PNone d)
  | _ => false
  end.

Definition grid_ok (cell_array : list (list pyval)) : bool :=
  forallb (forallb cell_ok) cell_array.

(** [i] is an index Python accepts on [l]: from [-len(l)] to [len(l) - 1]. *)
Definition python_in_range {A} (l : list A) (i : Z) : bool :=
  (- Z.of_nat (List.length l) <=? i) && (i <? Z.of_nat (List.length l)).

(** [row], [column] name a cell of the grid, counting from zero. *)
Definition in_grid (cell_array : list (list pyval)) (row column : Z) : bool :=
  (0 <=? row) && (0 <=? column)
  && match nth_error cell_array (Z.to_nat row) with
     | Some r => column <? Z.of_nat (List.length r)
     | None => false
     end.

(** A cell without value and without formatted value. *)
Definition empty_cell (c : pyval) : bool :=
  match c with
  | PDict d =>
      negb (has_key "userEnteredValue" d) && negb (has_key "effectiveValue" d)
      && negb (has_key "formattedValue" d)
  | _ => false
  end.


(** The [params] that follow a page normalised to [lines]: the journal
    number of its last line, as [offset]. *)
Definition offset_after (lines : list pyval) : pyval :=
  PDict [("offset",
          match last lines PNone with
          | PDict d => dict_get "journal_number" PNone d
          | _ => PNone
          end)].

(** The world of [get_journals] after [k + 1] more calls, the first one
    sent with [params]. *)
Definition after_pages (w : Xero.world) (params : pyval) (lines : nat -> list pyval)
    (k : nat) : Xero.world :=
  {| Xero.pages := Xero.pages w;
     Xero.now := Xero.now w;
     Xero.ncalls := S (Xero.ncalls w + k);
     Xero.sent := (Xero.sent w
                   ++ params :: map (fun i => offset_after (lines i)) (seq 0 k))%list;
     Xero.log := Xero.log w |}.

(** Three pages of journals: two lines, one line, none. *)
Definition journal (number : Z) (lines : list pyval) : pyval :=
  PDict [("JournalID", PStr "3f2a");
         ("JournalDate", PStr "/Date(1573755038314+0000)/");
         ("JournalNumber", PInt number);
         ("CreatedDateUTC", PStr "/Date(1573755038999+0000)/");
         ("JournalLines", PList lines)].

Definition journal_line (code : string) (net : Z) : pyval :=
  PDict [("JournalLineID", PStr "7be9"); ("AccountCode", PStr code);
         ("NetAmount", PInt net)].

Definition sample_pages (n : nat) : pyval :=
  match n with
  | O => PDict [("Journals",
                 PList [journal 1 [journal_line "200" 100; journal_line "610" (-100)];
                        PDict []])]
  | S O => PDict [("Journals", PList [journal 2 [journal_line "200" 40]])]
  | _ => PDict [("Journals", PList [])]
  end.

Definition sample_journal_world : Xero.world :=
  {| Xero.pages := sample_pages;
     Xero.now := fun _ => "03/11/2026 09:00:00";
     Xero.ncalls := O;
     Xero.sent := [];
     Xero.log := [] |}.

Definition sample_lines (n : nat) : list pyval :=
  match Xero.simplify_journals (sample_pages n) (PStr "03/11/2026 09:00:00") with
  | Ok l => l
  | Raise _ => []
  end.

(** A normalised line is a dict with a [journal_number] entry. *)
Definition is_line (v : pyval) : Prop :=
  exists d n, v = PDict d /\ assoc "journal_number" d = Some n.




(** A decoder that knows one text, for the examples: the base-64 text
    of the five bytes that open a zip archive. *)
Definition sample_b64decode (content : pyval) : result string :=
  match content with
  | PStr s =>
      if String.eqb s "UEsDBBQ="
      then Ok (string_of_list_ascii (map ascii_of_nat [80; 75; 3; 4; 20]%nat))
      else Raise BinasciiError
  | _ => Raise TypeError
  end.



(** A stand-in cipher and codec that meet the contracts assumed of Fernet
    and of UTF-8: the token is the data behind a version byte, and text
    is its own encoding. *)
Definition tag_encrypt (k : unit) (s : unit) (data : string) : string :=
  String "g" data.

Definition tag_decrypt (k : unit) (token : string) : option string :=
  match token with
  | String c data => if Ascii.eqb c "g" then Some data else None
  | EmptyString => None
  end.

Definition plain_encode (s : string) : option string := Some s.
Definition plain_decode (b : string) : option string := Some b.

(** A client row that has never held tokens. *)
Definition fresh_row : XeroClient.row :=
  {| XeroClient.id := 7;
     XeroClient.tenant_id := None;
     XeroClient.access_token := None;
     XeroClient.refresh_token := None;
     XeroClient.access_token_expiry := None |}.

Definition fresh_client : XeroClient.t :=
  {| XeroClient.attrs := fresh_row; XeroClient.committed := fresh_row |}.


(** ** Vocabulary of the further properties *)

(** The value of a column name read as a bijective base-26 numeral
    ([A] is 1, [Z] is 26, [AA] is 27), continuing from [acc]. *)
Fixpoint letters_value (s : string) (acc : Z) : Z :=
  match s with
  | EmptyString => acc
  | String c r => letters_value r (26 * acc + (Z.of_nat (nat_of_ascii c) - 64))
  end.

Fixpoint all_chars (p : ascii -> bool) (s : string) : bool :=
  match s with
  | EmptyString => true
  | String c r => p c && all_chars p r
  end.

Definition is_upper (c : ascii) : bool :=
  (65 <=? nat_of_ascii c)%nat && (nat_of_ascii c <=? 90)%nat.

(** The outcomes [batch_update] tries again on: a timeout, or an
    HttpError with status 500 or 503. *)
Definition retryable (o : GoogleApi.api_outcome) : bool :=
  match o with
  | GoogleApi.ApiTimeoutError => true
  | GoogleApi.ApiHttpError status => (status =? 500) || (status =? 503)
  | GoogleApi.ApiReturn _ => false
  end.

Definition is_api_error (o : GoogleApi.api_outcome) : bool :=
  match o with
  | GoogleApi.ApiReturn _ => false
  | _ => true
  end.

(** The world after [n] more attempts at the same batch update, followed
    by the events [tail]. *)
Definition after_attempts (w : GoogleApi.world) (document_id body : pyval) (n : nat)
    (tail : list event) : GoogleApi.world :=
  {| GoogleApi.execute := GoogleApi.execute w;
     GoogleApi.ncalls := (GoogleApi.ncalls w + n)%nat;
     GoogleApi.trace :=
       (GoogleApi.trace w ++ repeat (BatchUpdate document_id body) n ++ tail)%list;
     GoogleApi.logs_dir := GoogleApi.logs_dir w |}.

(** A range of two rows of one cell, from the top left corner. *)
Definition two_rows : GoogleSheets.CellRange :=
  {| GoogleSheets.start_row := 0; GoogleSheets.start_column := 0;
     GoogleSheets.depth := 2; GoogleSheets.range_width := 1 |}.

(** The staging methods of a Sheet, as one type of calls. *)
Inductive staging : Type :=
| InsertRows (start_index number : Z)
| DeleteRows (start_index number : Z)
| DeleteColumns (start_index number : Z)
| InsertColumn (start_index number : Z)
| SetRowHeight (start_row height number : Z)
| SetColumnWidth (start_column width number : Z)
| SetRowsHidden (start_row number : Z) (hidden : bool)
| SetColumnsHidden (start_column number : Z) (hidden : bool)
| MergeCells (cell_range : GoogleSheets.CellRange)
| SetValue (row column : Z) (value : pyval)
| SetValues (cell_range : GoogleSheets.CellRange) (value : pyval)
| MassSetValue (start_row start_column : Z) (values : list (list pyval))
| SetHorizontalAlignment (cell_range : GoogleSheets.CellRange) (alignment : string)
| SetVerticalAlignment (cell_range : GoogleSheets.CellRange) (alignment : string)
| SetBackgroundColour (cell_range : GoogleSheets.CellRange) (colour : pyval)
| SetWrapStrategy (cell_range : GoogleSheets.CellRange) (wrap_strategy : string)
| SetDataValidation (cell_range : GoogleSheets.CellRange) (data_validation : pyval)
| SetNumberFormat (cell_range : GoogleSheets.CellRange) (number_type : string)
    (pattern : pyval)
| AddHideBox (row column : Z) (formula : string)
| SetBorders (cell_range : GoogleSheets.CellRange) (sides : list string)
    (style : string) (colour : pyval)
| SetTextFormat (set_order : list string -> list string)
    (cell_range : GoogleSheets.CellRange) (kwargs : list (string * pyval))
| SetLinkSets (start_row start_column : Z) (link_set_array : pyval)
| ReplaceCells (cell_range : GoogleSheets.CellRange) (cell_definitions : list pyval).

Definition stage (call : staging) (self : GoogleSheets.Sheet) : GoogleSheets.Sheet :=
  match call with
  | InsertRows i n => GoogleSheets.insert_rows i n self
  | DeleteRows i n => GoogleSheets.delete_rows i n self
  | DeleteColumns i n => GoogleSheets.delete_columns i n self
  | InsertColumn i n => GoogleSheets.insert_column i n self
  | SetRowHeight r h n => GoogleSheets.set_row_height r h n self
  | SetColumnWidth c x n => GoogleSheets.set_column_width c x n self
  | SetRowsHidden r n h => GoogleSheets.set_rows_hidden r n h self
  | SetColumnsHidden c n h => GoogleSheets.set_columns_hidden c n h self
  | MergeCells r => GoogleSheets.merge_cells r self
  | SetValue r c v => GoogleSheets.set_value r c v self
  | SetValues r v => GoogleSheets.set_values r v self
  | MassSetValue r c vs => GoogleSheets.mass_set_value r c vs self
  | SetHorizontalAlignment r a => GoogleSheets.set_horizontal_alignment r a self
  | SetVerticalAlignment r a => GoogleSheets.set_vertical_alignment r a self
  | SetBackgroundColour r c => GoogleSheets.set_background_colour r c self
  | SetWrapStrategy r x => GoogleSheets.set_wrap_strategy r x self
  | SetDataValidation r d => GoogleSheets.set_data_validation r d self
  | SetNumberFormat r t x => GoogleSheets.set_number_format r t x self
  | AddHideBox r c f => GoogleSheets.add_hide_box r c f self
  | SetBorders r l x c => GoogleSheets.set_borders r l x c self
  | SetTextFormat o r k => GoogleSheets.set_text_format o r k self
  | SetLinkSets r c a => snd (GoogleSheets.set_link_sets r c a self)
  | ReplaceCells r d => snd (GoogleSheets.replace_cells r d self)
  end.

(** What a staging call returns: [None], unless it raises, which only
    [set_link_sets] and [replace_cells] can. *)
Definition stage_result (call : staging) (self : GoogleSheets.Sheet) : result unit :=
  match call with
  | SetLinkSets r c a => fst (GoogleSheets.set_link_sets r c a self)
  | ReplaceCells r d => fst (GoogleSheets.replace_cells r d self)
  | _ => Ok tt
  end.

(** The staging methods of a Spreadsheet. *)
Inductive tab_staging : Type :=
| AddSheet (sheet_name : string) (hidden : bool) (index : Z)
| DeleteSheet (sheet_id : pyval)
| HiddenRequest (sheet_id : pyval) (hidden : bool)
| RenameSheet (sheet_id : pyval) (new_name : string)
| MoveSheet (sheet_id : pyval) (new_index : Z).

Definition stage_tab (call : tab_staging) (self : Spreadsheet.t) : Spreadsheet.t :=
  match call with
  | AddSheet n h i => Spreadsheet.add_sheet n h i self
  | DeleteSheet i => Spreadsheet.delete_sheet i self
  | HiddenRequest i h => Spreadsheet.hidden_request i h self
  | RenameSheet i n => Spreadsheet.rename_sheet i n self
  | MoveSheet i n => Spreadsheet.move_sheet i n self
  end.

(** The staging calls that leave without staging: the row and column
    insertions and deletions asked for fewer than one row or column,
    [set_text_format] without keyword arguments, and the calls that
    raise. *)
Definition stages_nothing (call : staging) : bool :=
  match call with
  | InsertRows _ number | DeleteRows _ number
  | DeleteColumns _ number | InsertColumn _ number => number <? 1
  | SetTextFormat _ _ kwargs => match kwargs with [] => true | _ => false end
  | SetLinkSets _ _ link_set_array =>
      match GoogleSheets.link_rows link_set_array with
      | Ok _ => false
      | Raise _ => true
      end
  | ReplaceCells cell_range cell_definitions =>
      match GoogleSheets.replace_rows (Z.to_nat (GoogleSheets.depth cell_range)) 0
              cell_definitions with
      | Ok _ => false
      | Raise _ => true
      end
  | _ => false
  end.

Definition is_batch_update (e : event) : bool :=
  match e with BatchUpdate _ _ => true | _ => false end.

(** What one [rowData] entry becomes in the grid: the items of its
    [values], or a row of empty cells when it has none. *)
Definition row_loaded (row_object : pyval) (new_row : list pyval) : Prop :=
  match row_object with
  | PDict d =>
      match assoc "values" d with
      | Some v => iter v = Ok new_row
      | None => Forall (fun c => c = PDict []) new_row
      end
  | _ => False
  end.

(** The grid [cell_array] is the [rowData] of the first tab of [preload],
    row by row, and empty when there is no [rowData]. *)
Definition grid_loaded (preload : pyval) (cell_array : list (list pyval)) : Prop :=
  exists d,
    GoogleSheets.sheet0_data0 preload = Ok (PDict d)
    /\ match assoc "rowData" d with
       | None => cell_array = []
       | Some r => exists rows, iter r = Ok rows /\ Forall2 row_loaded rows cell_array
       end.

(** The rows are JSON objects whose [values], when present, are lists of
    cells as the Sheets API sends them. *)
Definition api_rows (rows : list pyval) : bool :=
  forallb (fun row =>
             match row with
             | PDict d =>
                 match assoc "values" d with
                 | Some (PList cells) => forallb cell_ok cells
                 | Some _ => false
                 | None => true
                 end
             | _ => false
             end) rows.

(** The [rowData] of the first tab of [preload], when it is a list. *)
Definition row_data (preload : pyval) : list pyval :=
  match GoogleSheets.sheet0_data0 preload with
  | Ok (PDict d) =>
      match assoc "rowData" d with
      | Some (PList rows) => rows
      | _ => []
      end
  | _ => []
  end.

(** The event is a call of the session (of the client, in the web
    scraper). *)
Definition is_session_call (e : event) : bool :=
  match e with HttpCall _ _ => true | _ => false end.

Definition is_audit (e : event) : bool :=
  match e with AuditResponse _ _ _ | AuditSuccess _ _ => true | _ => false end.

Definition is_log (e : event) : bool :=
  match e with Log _ _ => true | _ => false end.

(** The world after [k] rounds of the polling loop that found the task
    pending: a request, then a sleep of one second. *)
Fixpoint after_rounds (tps : positive) (k : nat) (w : WebScrape.world) :
    WebScrape.world :=
  match k with
  | O => w
  | S k' => after_rounds tps k' (WebScrape.sleep tps 1 (WebScrape.after_get w))
  end.

(** The next [k] responses all say [pending]. *)
Definition pending_for (k : nat) (w : WebScrape.world) : bool :=
  forallb (fun j => WebScrape.status_pending
                      (WebScrape.responses w (WebScrape.ncalls w + j)))
    (seq 0 k).

(** A fetcher of a report with the two lines it can log. *)
Record fetcher : Type := {
  run : positive -> (pyval -> result string) -> Z -> WebScrape.world ->
        WebScrape.fetched * WebScrape.world;
  api_error : string;
  gave_up : string
}.

Definition report_fetchers : list fetcher :=
  [ {| run := WebScrape.get_management_report;
       api_error := "Get management report failed due to API error.";
       gave_up := "Get management report timed out after %d seconds" |};
    {| run := WebScrape.get_general_ledger_detail;
       api_error := "Get general ledger detail failed due to API error.";
       gave_up := "Get general ledger detail timed out after %d seconds" |};
    {| run := WebScrape.get_general_ledger_summary;
       api_error := "Get general ledger summary failed due to API error.";
       gave_up := "Get general ledger summary timed out after %d seconds" |};
    {| run := WebScrape.get_revenue_data;
       api_error := "Get revenue data failed due to API error.";
       gave_up := "Get revenue data timed out after %d seconds" |};
    {| run := WebScrape.get_gst_rec;
       api_error := "Get GST rec failed due to API error.";
       gave_up := "Get GST rec timed out after %d seconds" |};
    {| run := WebScrape.get_payable_invoice;
       api_error := "Get payable invoice failed due to API error.";
       gave_up := "Get payable invoice timed out after %d seconds" |} ].

Definition statement_lines_fetcher : fetcher :=
  {| run := fun tps _ => WebScrape.get_uncoded_statement_lines tps;
     api_error := "Get uncoded statement lines failed due to API error.";
     gave_up := "Get uncoded statement lines timed out after %d seconds" |}.

Definition sample_poll_world (last : pyval) : WebScrape.world :=
  {| WebScrape.responses := fun n =>
       if (n <? 2)%nat then PDict [("status", PStr "pending")] else last;
     WebScrape.latency := fun _ => 250%N;
     WebScrape.ncalls := 0;
     WebScrape.clock := 1000;
     WebScrape.trace := [] |}.

(** The loop body the report fetchers share, up to the line logged on an
    API error. *)
Definition report_step (b64decode : pyval -> result string)
    (api_error_line : string) (results : pyval) : WebScrape.verdict :=
  match results with
  | PDict d =>
      if WebScrape.status_pending results then WebScrape.Pending
      else match assoc "content" d with
           | Some content =>
               WebScrape.Return (WebScrape.return_decoded b64decode content)
           | None => WebScrape.Break
           end
  | _ => WebScrape.Fail api_error_line
  end.

(** Decimal digits and the dates Xero sends: [/Date(ms+0000)/] with a
    time zone, [/Date(ms)/] without. *)
Definition digit_char (d : Z) : ascii := ascii_of_nat (Z.to_nat (48 + d)).

Fixpoint digits_string (ds : list Z) : string :=
  match ds with
  | [] => EmptyString
  | d :: r => String (digit_char d) (digits_string r)
  end.

Definition digits_value (ds : list Z) : Z :=
  fold_left (fun a d => 10 * a + d) ds 0.

Definition is_digits (ds : list Z) : bool :=
  match ds with
  | [] => false
  | _ => forallb (fun d => (0 <=? d) && (d <=? 9)) ds
  end.

Definition signed (negative : bool) (z : Z) : Z := if negative then - z else z.

(** A date as the text or as the bytes of it. *)
Definition text_or_bytes (as_bytes : bool) (s : string) : pyval :=
  if as_bytes then PBytes s else PStr s.

(** The whitespace [int] drops from it. *)
Definition int_spaces (as_bytes : bool) : string :=
  if as_bytes then Xero.whitespace else Xero.str_whitespace.

Definition xero_date (negative : bool) (ds : list Z) (timezone : bool) : string :=
  "/Date("
  ++ ((if negative then "-" else EmptyString)
      ++ digits_string ds)
  ++ (if timezone then "+0000)/" else ")/").

(** The journal lines of a journal that is not skipped, and a field of a
    dict. *)
Definition lines_of (journal : pyval) : list pyval :=
  match journal with
  | PDict d =>
      match dict_get "JournalLines" (PList []) d with
      | PList ls => ls
      | _ => []
      end
  | _ => []
  end.

Definition field (k : string) (v : pyval) : pyval :=
  match v with
  | PDict d => dict_get k PNone d
  | _ => PNone
  end.

(** Both dates of a journal are there and read as dates. *)
Definition dates_parse (d : list (string * pyval)) : bool :=
  match Xero.date_to_seconds (dict_get "JournalDate" (PStr EmptyString) d) true,
        Xero.date_to_seconds (dict_get "CreatedDateUTC" (PStr EmptyString) d) true with
  | Ok _, Ok _ => true
  | _, _ => false
  end.

(** A journal as Xero sends it: skipped when empty, otherwise a dict whose
    [JournalLines], if any, are a list of dicts, with dates that parse
    when there is a line. *)
Definition well_formed_journal (j : pyval) : bool :=
  negb (truthy j)
  || match j with
     | PDict d =>
         match assoc "JournalLines" d with
         | None => true
         | Some (PList ls) =>
             forallb WebScrape.is_dict ls
             && match ls with [] => true | _ => dates_parse d end
         | Some _ => false
         end
     | _ => false
     end.

(** One good page, then the API fails. *)
Definition failing_journal_world : Xero.world :=
  {| Xero.pages := fun n => match n with O => sample_pages O | _ => PNone end;
     Xero.now := fun _ => "03/11/2026 09:00:00";
     Xero.ncalls := O;
     Xero.sent := [];
     Xero.log := [] |}.

(** Id and title of a tab of a spreadsheet as the API describes it. *)
Definition tab_id (sheet : pyval) : result pyval :=
  p <- getitem sheet "properties" ;; getitem p "sheetId".

Definition tab_title (sheet : pyval) : result pyval :=
  p <- getitem sheet "properties" ;; getitem p "title".

Definition two_tabs : list pyval :=
  [PDict [("properties", PDict [("sheetId", PInt 0); ("title", PStr "Summary")])];
   PDict [("properties", PDict [("sheetId", PInt 1839); ("title", PStr "Ledger")])]].

Definition two_tab_preload : pyval :=
  PDict [("spreadsheetId", PStr "1BxiMVs0XRA5"); ("sheets", PList two_tabs)].

(** ** helpers/formatting.py *)

Module Formatting.

(** [s.split(sep)] for a one-character separator: every occurrence cuts,
    so that separators side by side give empty words. *)
Fixpoint split (sep : ascii) (s : string) : list string :=
  match s with
  | EmptyString => [EmptyString]
  | String c r =>
      if Ascii.eqb c sep then EmptyString :: split sep r
      else match split sep r with
           | w :: ws => String c w :: ws
           | [] => [String c EmptyString]
           end
  end.

(** [s.replace(c, '')] for a one-character [c]. *)
Fixpoint remove_char (c : ascii) (s : string) : string :=
  match s with
  | EmptyString => EmptyString
  | String x r => if Ascii.eqb x c then remove_char c r else String x (remove_char c r)
  end.

Definition bad_chars : list ascii :=
  ["\"; "/"; "."; "|"; ","; "-"; "&"]%char.

Section Case.

(** [str.lower] and [str.capitalize], which follow the Unicode tables. *)
Variables lower capitalize : string -> string.

(** The loop [for i, word in enumerate(title_words)] of [to_camel_case]. *)
Fixpoint camel_words (i : nat) (title_words : list string) (output : string) : string :=
  match title_words with
  | [] => output
  | word :: rest =>
      if (String.length word =? 0)%nat then camel_words (S i) rest output
      else if String.eqb word "and" then camel_words (S i) rest output
      else if (i =? 0)%nat then camel_words (S i) rest (output ++ lower word)
      else camel_words (S i) rest (output ++ capitalize word)
  end.

(** [to_camel_case] *)
Definition to_camel_case (title : string) : string :=
  fold_left (fun output bad_char => remove_char bad_char output) bad_chars
    (camel_words 0 (split " " title) EmptyString).

(** The loop of [to_snake_case]. *)
Fixpoint snake_words (i : nat) (title_words : list string) (output : string) : string :=
  match title_words with
  | [] => output
  | word :: rest =>
      if (String.length word =? 0)%nat then snake_words (S i) rest output
      else if String.eqb word "and" then snake_words (S i) rest output
      else if (i =? 0)%nat then snake_words (S i) rest (output ++ lower word)
      else snake_words (S i) rest (output ++ String "_" (lower word))
  end.

(** [to_snake_case] *)
Definition to_snake_case (title : string) : string :=
  fold_left (fun output bad_char => remove_char bad_char output) bad_chars
    (snake_words 0 (split " " title) EmptyString).

End Case.

End Formatting.

(** Upper and lower case of the ASCII letters, for the examples. *)
Definition ascii_lower (s : string) : string :=
  string_of_list_ascii
    (map (fun c => let n := nat_of_ascii c in
                   if ((65 <=? n) && (n <=? 90))%nat then ascii_of_nat (n + 32) else c)
       (list_ascii_of_string s)).

Definition ascii_capitalize (s : string) : string :=
  match ascii_lower s with
  | EmptyString => EmptyString
  | String c r =>
      let n := nat_of_ascii c in
      String (if ((97 <=? n) && (n <=? 122))%nat then ascii_of_nat (n - 32) else c) r
  end.

(** ** tasks/xero.py: keeping the tokens of a client fresh *)

Module XeroTokens.

(** What leaves these functions as an exception: one of the model of
    [XeroClient], or a Python one. *)
Inductive failure : Type :=
| ClientError (e : XeroClient.exn)
| PyError (e : Py.exn).

Inductive outcome (A : Type) : Type :=
| Returns (a : A)
| Raises (f : failure).
Arguments Returns {A} a.
Arguments Raises {A} f.

(** [auth_client = ApiClient('https://identity.xero.com', AUTH_HEADERS)] *)
Definition auth_client : ApiClient.t :=
  ApiClient.init (Some "https://identity.xero.com") 30.

Section Fernet.

Variables key salt : Type.
Variable fernet_encrypt : key -> salt -> string -> string.
Variable fernet_decrypt : key -> string -> option string.
Variable utf8_encode : string -> option string.
Variable utf8_decode : string -> option string.

(** [datetime.now() + timedelta(seconds=v)] for the reading [now] of the
    clock: the new reading, or what [timedelta] or the sum raises. *)
Variable expiry_after : Z -> pyval -> result Z.

(** The call [client.set_tokens(access, refresh, expiry)] on values taken
    from a response: [bytes(v, 'utf-8')] is a TypeError unless [v] is a
    string, and the second conversion comes after the access token has
    been assigned. *)
Definition set_tokens (cfg : XeroClient.config key) (salt1 salt2 : salt)
    (commit_ok : bool) (access refresh : pyval) (expiry : Z) (client : XeroClient.t)
  : outcome unit * XeroClient.t * list event :=
  match cfg, access, refresh with
  | None, _, _ => (Raises (ClientError XeroClient.ConfigKeyError), client, [])
  | Some k, PStr a, PStr r =>
      match XeroClient.set_tokens fernet_encrypt utf8_encode (Some k) salt1 salt2
              commit_ok a r expiry None client with
      | (XeroClient.Returns _, client', tr) => (Returns tt, client', tr)
      | (XeroClient.Raises e, client', tr) => (Raises (ClientError e), client', tr)
      end
  | Some k, PStr a, _ =>
      match utf8_encode a with
      | None => (Raises (ClientError XeroClient.UnicodeEncodeError), client, [])
      | Some b =>
          (Raises (PyError TypeError),
           {| XeroClient.attrs :=
                {| XeroClient.id := XeroClient.id (XeroClient.attrs client);
                   XeroClient.tenant_id := XeroClient.tenant_id (XeroClient.attrs client);
                   XeroClient.access_token := Some (fernet_encrypt k salt1 b);
                   XeroClient.refresh_token :=
                     XeroClient.refresh_token (XeroClient.attrs client);
                   XeroClient.access_token_expiry :=
                     XeroClient.access_token_expiry (XeroClient.attrs client) |};
              XeroClient.committed := XeroClient.committed client |},
           [])
      end
  | Some _, _, _ => (Raises (PyError TypeError), client, [])
  end.

(** The test ['access_token' not in tokens or 'refresh_token' not in
    tokens or 'refresh_token' not in tokens]. *)
Definition tokens_missing (tokens : pyval) : result bool :=
  a <- contains_str "access_token" tokens ;;
  if negb a then Ok true
  else
    r <- contains_str "refresh_token" tokens ;;
    if negb r then Ok true
    else
      r' <- contains_str "refresh_token" tokens ;;
      Ok (negb r').

(** [refresh_client_tokens]: [net] is what the session does for the one
    request made, [now] what [datetime.now()] reads after it. *)
Definition refresh_client_tokens (cfg : XeroClient.config key) (salt1 salt2 : salt)
    (commit_ok : bool) (net : ApiClient.send_outcome) (post_ok : bool) (now : Z)
    (client : XeroClient.t) : outcome bool * XeroClient.t * list event :=
  match XeroClient.get_xero_refresh_token fernet_decrypt utf8_decode cfg client with
  | XeroClient.Raises e => (Raises (ClientError e), client, [])
  | XeroClient.Returns refresh_token =>
      if negb (ApiClient.str_truthy refresh_token) then
        (Returns false, client,
         [Log ERROR "Could not refresh xero access token for %s as there was no refresh token in the database."])
      else
        match ApiClient.post auth_client net post_ok "connect/token" None false false with
        | (Raise e, tr) => (Raises (PyError e), client, tr)
        | (Ok tokens, tr) =>
            if negb (truthy tokens) then
              (Returns false, client,
               (tr ++ [Log ERROR "Refresh Xero access token failed for %s due to API error."])%list)
            else
              match tokens_missing tokens with
              | Raise e => (Raises (PyError e), client, tr)
              | Ok true =>
                  (Returns false, client,
                   (tr ++ [Log ERROR "Refresh Xero access token failed for %s due to missing tokens in response."])%list)
              | Ok false =>
                  match (v <- getitem tokens "expires_in" ;; expiry_after now v) with
                  | Raise e => (Raises (PyError e), client, tr)
                  | Ok expiry_time =>
                      match (a <- getitem tokens "access_token" ;;
                             r <- getitem tokens "refresh_token" ;;
                             Ok (a, r)) with
                      | Raise e => (Raises (PyError e), client, tr)
                      | Ok (a, r) =>
                          match set_tokens cfg salt1 salt2 commit_ok a r expiry_time
                                  client with
                          | (Returns _, client', tr') =>
                              (Returns true, client', (tr ++ tr')%list)
                          | (Raises f, client', tr') =>
                              (Raises f, client', (tr ++ tr')%list)
                          end
                      end
                  end
              end
        end
  end.

(** [client.tenant_id, client.get_access_token()] *)
Definition read_tokens (cfg : XeroClient.config key) (client : XeroClient.t)
  : outcome (option string * option string) :=
  match XeroClient.get_access_token fernet_decrypt utf8_decode cfg client with
  | XeroClient.Returns a =>
      Returns (XeroClient.tenant_id (XeroClient.attrs client), a)
  | XeroClient.Raises e => Raises (ClientError e)
  end.

(** [not client.access_token_expiry or datetime.now() > client.access_token_expiry] *)
Definition expired (now : Z) (client : XeroClient.t) : bool :=
  match XeroClient.access_token_expiry (XeroClient.attrs client) with
  | None => true
  | Some expiry => expiry <? now
  end.

(** [get_tokens]: [now] is what [datetime.now()] reads on entry, [later]
    what it reads in [refresh_client_tokens]. *)
Definition get_tokens (cfg : XeroClient.config key) (salt1 salt2 : salt)
    (commit_ok : bool) (net : ApiClient.send_outcome) (post_ok : bool) (now later : Z)
    (client : XeroClient.t)
  : outcome (option string * option string) * XeroClient.t * list event :=
  if expired now client then
    match refresh_client_tokens cfg salt1 salt2 commit_ok net post_ok later client with
    | (Returns _, client', tr) => (read_tokens cfg client', client', tr)
    | (Raises f, client', tr) => (Raises f, client', tr)
    end
  else (read_tokens cfg client, client, []).

End Fernet.

Arguments set_tokens {key salt} fernet_encrypt utf8_encode cfg salt1 salt2
  commit_ok access refresh expiry client.
Arguments refresh_client_tokens {key salt} fernet_encrypt fernet_decrypt utf8_encode
  utf8_decode expiry_after cfg salt1 salt2 commit_ok net post_ok now client.
Arguments read_tokens {key} fernet_decrypt utf8_decode cfg client.
Arguments get_tokens {key salt} fernet_encrypt fernet_decrypt utf8_encode utf8_decode
  expiry_after cfg salt1 salt2 commit_ok net post_ok now later client.

End XeroTokens.

(** The session came back without a response. *)
Definition no_response (net : ApiClient.send_outcome) : bool :=
  match net with
  | ApiClient.SendResponse _ => false
  | _ => true
  end.

(** The token endpoint answers 200 with the JSON object [d]. *)
Definition token_response (d : list (string * pyval)) : ApiClient.Response :=
  {| ApiClient.status_code := 200;
     ApiClient.content := "{...}";
     ApiClient.text := "{...}";
     ApiClient.json_body := Some (PDict d);
     ApiClient.decoded := Some "{...}" |}.

(** [timedelta] on whole seconds, for the examples. *)
Definition whole_seconds_after (now : Z) (v : pyval) : result Z :=
  match v with
  | PInt n => Ok (now + n)
  | _ => Raise TypeError
  end.

(** A client whose access token ran out, with a refresh token in store. *)
Definition lapsed_client : XeroClient.t :=
  {| XeroClient.attrs :=
       {| XeroClient.id := 7;
          XeroClient.tenant_id := Some "tenant-41";
          XeroClient.access_token := Some (tag_encrypt tt tt "old-access");
          XeroClient.refresh_token := Some (tag_encrypt tt tt "old-refresh");
          XeroClient.access_token_expiry := Some 1793700000 |};
     XeroClient.committed :=
       {| XeroClient.id := 7;
          XeroClient.tenant_id := Some "tenant-41";
          XeroClient.access_token := Some (tag_encrypt tt tt "old-access");
          XeroClient.refresh_token := Some (tag_encrypt tt tt "old-refresh");
          XeroClient.access_token_expiry := Some 1793700000 |} |}.


(** ** tasks/xero.py: payments and invoices *)

Module XeroPayments.

(** The dict literal [new_payment] of [simplify_payments]. *)
Definition new_payment (payment : pyval) (extracted : pyval) : result pyval :=
  date <- Py.get payment "Date" (PStr EmptyString) ;;
  timestamp <- Xero.date_to_seconds date true ;;
  payment_id <- Py.get payment "PaymentID" PNone ;;
  bank_amount <- Py.get payment "BankAmount" PNone ;;
  amount <- Py.get payment "Amount" PNone ;;
  currency_rate <- Py.get payment "CurrencyRate" PNone ;;
  payment_type <- Py.get payment "PaymentType" PNone ;;
  status <- Py.get payment "Status" PNone ;;
  updated <- Py.get payment "UpdatedDateUTC" (PStr EmptyString) ;;
  updated_date_utc <- Xero.date_to_seconds updated true ;;
  has_account <- Py.get payment "HasAccount" PNone ;;
  is_reconciled <- Py.get payment "IsReconciled" PNone ;;
  account <- Py.get payment "Account" PNone ;;
  account_id <- Py.get account "AccountID" PNone ;;
  account_code <- Py.get account "Code" PNone ;;
  invoice <- Py.get payment "Invoice" PNone ;;
  invoice_type <- Py.get invoice "Type" PNone ;;
  invoice_id <- getitem invoice "InvoiceID" ;;
  invoice_is_discounted <- getitem invoice "IsDiscounted" ;;
  invoice_has_errors <- getitem invoice "HasErrors" ;;
  contact_id <- (c <- getitem invoice "Contact" ;; getitem c "ContactID") ;;
  contact_name <- (c <- getitem invoice "Contact" ;; getitem c "Name") ;;
  contact_has_validation_errors <-
    (c <- getitem invoice "Contact" ;; getitem c "HasValidationErrors") ;;
  invoice_currency_code <- getitem invoice "CurrencyCode" ;;
  has_validation_errors <- Py.get payment "HasValidationErrors" PNone ;;
  Ok (PDict [("extracted", extracted);
             ("timestamp", timestamp);
             ("payment_id", payment_id);
             ("bank_amount", bank_amount);
             ("amount", amount);
             ("currency_rate", currency_rate);
             ("payment_type", payment_type);
             ("status", status);
             ("updated_date_utc", updated_date_utc);
             ("has_account", has_account);
             ("is_reconciled", is_reconciled);
             ("account_id", account_id);
             ("account_code", account_code);
             ("invoice_type", invoice_type);
             ("invoice_id", invoice_id);
             ("invoice_is_discounted", invoice_is_discounted);
             ("invoice_has_errors", invoice_has_errors);
             ("contact_id", contact_id);
             ("contact_name", contact_name);
             ("contact_has_validation_errors", contact_has_validation_errors);
             ("invoice_currency_code", invoice_currency_code);
             ("has_validation_errors", has_validation_errors)]).

(** The loop [for payment in payments_raw['Payments']]. *)
Fixpoint simplify_each_payment (payments : list pyval) (extracted : pyval)
  : result (list pyval) :=
  match payments with
  | [] => Ok []
  | payment :: rest =>
      p <- new_payment payment extracted ;;
      ps <- simplify_each_payment rest extracted ;;
      Ok (p :: ps)
  end.

(** [simplify_payments] *)
Definition simplify_payments (payments_raw : pyval) (extracted : pyval)
  : result (list pyval) :=
  ps <- getitem payments_raw "Payments" ;;
  payments <- iter ps ;;
  simplify_each_payment payments extracted.

(** The dict literal [new_invoice] of [simplify_invoice_payments]. *)
Definition new_invoice (invoice : pyval) (extracted : pyval) : result pyval :=
  date <- Py.get invoice "Date" (PStr EmptyString) ;;
  timestamp <- Xero.date_to_seconds date true ;;
  invoice_id <- Py.get invoice "InvoiceID" PNone ;;
  due <- Py.get invoice "DueDate" (PStr EmptyString) ;;
  due_date <- Xero.date_to_seconds due true ;;
  invoice_number <- Py.get invoice "InvoiceNumber" PNone ;;
  updated <- Py.get invoice "UpdatedDateUTC" (PStr EmptyString) ;;
  updated_date_utc <- Xero.date_to_seconds updated true ;;
  invoice_reference <- Py.get invoice "Reference" PNone ;;
  invoice_type <- Py.get invoice "Type" PNone ;;
  currency_rate <- Py.get invoice "CurrencyRate" PNone ;;
  contact <- Py.get invoice "Contact" (PDict []) ;;
  contact_name <- Py.get contact "Name" PNone ;;
  status <- Py.get invoice "Status" PNone ;;
  sub_total <- Py.get invoice "SubTotal" PNone ;;
  total_tax <- Py.get invoice "TotalTax" PNone ;;
  total <- Py.get invoice "Total" PNone ;;
  Ok (PDict [("extracted", extracted);
             ("timestamp", timestamp);
             ("invoice_id", invoice_id);
             ("due_date", due_date);
             ("invoice_number", invoice_number);
             ("updated_date_utc", updated_date_utc);
             ("invoice_reference", invoice_reference);
             ("invoice_type", invoice_type);
             ("currency_rate", currency_rate);
             ("contact_name", contact_name);
             ("status", status);
             ("sub_total", sub_total);
             ("total_tax", total_tax);
             ("total", total)]).

(** The dict literal [new_payment] of [simplify_invoice_payments]. *)
Definition new_invoice_payment (invoice payment : pyval) (extracted : pyval)
  : result pyval :=
  date <- Py.get invoice "Date" (PStr EmptyString) ;;
  timestamp <- Xero.date_to_seconds date true ;;
  invoice_id <- Py.get invoice "InvoiceID" PNone ;;
  paid <- Py.get payment "Date" (PStr EmptyString) ;;
  payment_date <- Xero.date_to_seconds paid true ;;
  payment_amount <- Py.get payment "Amount" PNone ;;
  currency_rate <- Py.get payment "CurrencyRate" PNone ;;
  Ok (PDict [("extracted", extracted);
             ("timestamp", timestamp);
             ("invoice_id", invoice_id);
             ("payment_date", payment_date);
             ("payment_amount", payment_amount);
             ("currency_rate", currency_rate)]).

(** The inner loop [for payment in raw_payments]. *)
Fixpoint simplify_invoice_lines (invoice : pyval) (payments : list pyval)
    (extracted : pyval) : result (list pyval) :=
  match payments with
  | [] => Ok []
  | payment :: rest =>
      p <- new_invoice_payment invoice payment extracted ;;
      ps <- simplify_invoice_lines invoice rest extracted ;;
      Ok (p :: ps)
  end.

(** The outer loop [for invoice in invoices_raw['Invoices']]. *)
Fixpoint simplify_each_invoice (invoices : list pyval) (extracted : pyval)
  : result (list pyval) :=
  match invoices with
  | [] => Ok []
  | invoice :: rest =>
      i <- new_invoice invoice extracted ;;
      raw <- Py.get invoice "Payments" (PList []) ;;
      raw_payments <- iter raw ;;
      ps <- simplify_invoice_lines invoice raw_payments extracted ;;
      later <- simplify_each_invoice rest extracted ;;
      Ok (i :: ps ++ later)%list
  end.

(** [simplify_invoice_payments] *)
Definition simplify_invoice_payments (invoices_raw : pyval) (extracted : pyval)
  : result (list pyval) :=
  listed <- getitem invoices_raw "Invoices" ;;
  invoices <- iter listed ;;
  simplify_each_invoice invoices extracted.

End XeroPayments.

(** A date of a record reads as a date. *)
Definition date_parses (k : string) (d : list (string * pyval)) : bool :=
  match Xero.date_to_seconds (dict_get k (PStr EmptyString) d) true with
  | Ok _ => true
  | Raise _ => false
  end.

(** The payments listed under an invoice. *)
Definition payments_of (invoice : pyval) : list pyval :=
  match invoice with
  | PDict d =>
      match dict_get "Payments" (PList []) d with
      | PList ps => ps
      | _ => []
      end
  | _ => []
  end.

(** An invoice as Xero sends it: a dict with three dates that parse, a
    contact that is a dict when there is one, and payments, if any, that
    are dicts with a date that parses. *)
Definition well_formed_invoice (invoice : pyval) : bool :=
  match invoice with
  | PDict d =>
      date_parses "Date" d && date_parses "DueDate" d && date_parses "UpdatedDateUTC" d
      && WebScrape.is_dict (dict_get "Contact" (PDict []) d)
      && match assoc "Payments" d with
         | None => true
         | Some (PList ps) =>
             forallb (fun p => match p with
                               | PDict pd => date_parses "Date" pd
                               | _ => false
                               end) ps
         | Some _ => false
         end
  | _ => false
  end.

(** A record of [simplify_invoice_payments] that stands for a payment. *)
Definition is_payment_record (v : pyval) : bool :=
  match v with
  | PDict d => has_key "payment_date" d
  | _ => false
  end.

(** The payment is simplified without an exception. *)
Definition payment_simplifies (payment : pyval) : bool :=
  match XeroPayments.new_payment payment PNone with
  | Ok _ => true
  | Raise _ => false
  end.

Definition sample_invoice (id : string) (payments : list pyval) : pyval :=
  PDict [("InvoiceID", PStr id);
         ("Date", PStr "/Date(1573755038314+0000)/");
         ("DueDate", PStr "/Date(1576347038314+0000)/");
         ("UpdatedDateUTC", PStr "/Date(1573755038999+0000)/");
         ("Contact", PDict [("Name", PStr "Basket Case")]);
         ("Payments", PList payments)].

Definition sample_payment (amount : Z) : pyval :=
  PDict [("Date", PStr "/Date(1574000000000+0000)/"); ("Amount", PInt amount)].

(** * The request client: joining base URL and endpoint *)

Section PrepareUrl.

Lemma append_empty_r (s : string) : s ++ EmptyString = s.
Proof. induction s as [|c s IH]; simpl; [reflexivity | now rewrite IH]. Qed.

Lemma append_assoc (a b c : string) : (a ++ b) ++ c = a ++ (b ++ c).
Proof. induction a as [|x a IH]; simpl; [reflexivity | now rewrite IH]. Qed.

Lemma lstrip_leading_slash (e : string) :
  lstrip "/" (String "/" e) = lstrip "/" e.
Proof. reflexivity. Qed.

Lemma lstrip_no_leading_slash (e : string) :
  starts_with_slash (lstrip "/" e) = false.
Proof.
  induction e as [|c e IH]; simpl; [reflexivity|].
  destruct (Ascii.eqb c "/") eqn:E; simpl.
  - exact IH.
  - exact E.
Qed.

Lemma lstrip_decompose (e : string) :
  exists m, e = slashes m ++ lstrip "/" e.
Proof.
  induction e as [|c e [m IH]]; simpl.
  - exists O. reflexivity.
  - destruct (Ascii.eqb c "/") eqn:E; simpl.
    + apply Ascii.eqb_eq in E. subst c.
      exists (S m). simpl. now rewrite <- IH.
    + exists O. reflexivity.
Qed.

Lemma rstrip_no_trailing_slash (b : string) :
  ends_with_slash (rstrip "/" b) = false.
Proof.
  induction b as [|c b IH]; simpl; [reflexivity|].
  destruct (rstrip "/" b) as [|c' r] eqn:R.
  - destruct (Ascii.eqb c "/") eqn:E; simpl; [reflexivity|].
    exact E.
  - simpl in IH |- *. exact IH.
Qed.

Lemma slashes_snoc (n : nat) : slashes n ++ "/" = String "/" (slashes n).
Proof. induction n as [|n IH]; simpl; [reflexivity | now rewrite IH]. Qed.

Lemma rstrip_decompose (b : string) :
  exists n, b = rstrip "/" b ++ slashes n.
Proof.
  induction b as [|c b [n IH]]; simpl.
  - exists O. reflexivity.
  - destruct (rstrip "/" b) as [|c' r] eqn:R.
    + destruct (Ascii.eqb c "/") eqn:E; simpl.
      * apply Ascii.eqb_eq in E. subst c. exists (S n). simpl.
        simpl in IH. now rewrite <- IH.
      * exists n. simpl in IH. now rewrite <- IH.
    + exists n. simpl. simpl in IH. now rewrite <- IH.
Qed.

Lemma rstrip_trailing_slash (b : string) :
  rstrip "/" (b ++ "/") = rstrip "/" b.
Proof.
  induction b as [|c b IH]; simpl; [reflexivity|].
  now rewrite IH.
Qed.

Lemma prepare_url_present (base endpoint : string) (timeout : Z) :
  rstrip "/" base <> EmptyString ->
  ApiClient._prepare_url (ApiClient.init (Some base) timeout) endpoint
  = rstrip "/" base ++ "/" ++ lstrip "/" endpoint.
Proof.
  intros H. unfold ApiClient._prepare_url, ApiClient.init; simpl.
  destruct (rstrip "/" base) as [|c r]; [contradiction|]. reflexivity.
Qed.

(** C9.  Whatever the base URL and the endpoint, an endpoint written with
    a leading slash resolves like the one without (also on a client
    without base URL), and a base written with a trailing slash like the
    one without; and when a base is present
    (something is left of it once trailing slashes are dropped) the
    resolved URL is the base without its trailing slashes, one slash, and
    the endpoint without its leading slashes, so that exactly one
    separator stands between them. *)
Theorem prepare_url_single_separator (base endpoint : string) (timeout : Z) :
  let client := ApiClient.init (Some base) timeout in
  ApiClient._prepare_url client (String "/" endpoint) = ApiClient._prepare_url client endpoint
  /\ ApiClient._prepare_url (ApiClient.init (Some (base ++ "/")) timeout) endpoint
     = ApiClient._prepare_url client endpoint
  /\ ApiClient._prepare_url (ApiClient.init None timeout) (String "/" endpoint)
     = ApiClient._prepare_url (ApiClient.init None timeout) endpoint
  /\ (rstrip "/" base <> EmptyString ->
      ApiClient._prepare_url client endpoint
      = rstrip "/" base ++ "/" ++ lstrip "/" endpoint
      /\ ends_with_slash (rstrip "/" base) = false
      /\ starts_with_slash (lstrip "/" endpoint) = false
      /\ (exists n, base = rstrip "/" base ++ slashes n)
      /\ (exists m, endpoint = slashes m ++ lstrip "/" endpoint)).
Proof.
  cbv zeta. split; [|split; [|split]].
  - unfold ApiClient._prepare_url. now rewrite lstrip_leading_slash.
  - unfold ApiClient._prepare_url, ApiClient.init; simpl.
    now rewrite rstrip_trailing_slash.
  - reflexivity.
  - intros H. repeat split.
    + now apply prepare_url_present.
    + apply rstrip_no_trailing_slash.
    + apply lstrip_no_leading_slash.
    + apply rstrip_decompose.
    + apply lstrip_decompose.
Qed.

Lemma prepare_url_single_separator_witness :
  rstrip "/" "https://api.xero.com/" <> EmptyString
  /\ ApiClient._prepare_url (ApiClient.init (Some "https://api.xero.com/") 30)
       "/api.xro/2.0/Journals"
     = "https://api.xero.com/api.xro/2.0/Journals".
Proof.
  assert (H : rstrip "/" "https://api.xero.com/" <> EmptyString)
    by (vm_compute; discriminate).
  split; [exact H|].
  destruct (prepare_url_single_separator "https://api.xero.com/"
              "/api.xro/2.0/Journals" 30) as (_ & _ & _ & K).
  destruct (K H) as (E & _). rewrite E. reflexivity.
Defined.

End PrepareUrl.

(** * Sheets: classifying a value for a cell *)

(** C4.  [value_to_object] returns for every input, with one result per
    input: a boolean gives a [boolValue] cell, an integer or a float a
    [numberValue] cell, a string whose first character is [=] a
    [formulaValue] cell, any other non-empty string a [stringValue] cell,
    the empty string [None]; and whatever the input, the result is [None]
    or one entry of these four kinds holding the input itself. *)
Theorem value_to_object_classifies :
  (forall b, GoogleSheets.value_to_object (PBool b) = PDict [("boolValue", PBool b)])
  /\ (forall z, GoogleSheets.value_to_object (PInt z) = PDict [("numberValue", PInt z)])
  /\ (forall f, GoogleSheets.value_to_object (PFloat f) = PDict [("numberValue", PFloat f)])
  /\ (forall s, GoogleSheets.value_to_object (PStr (String "=" s))
                = PDict [("formulaValue", PStr (String "=" s))])
  /\ (forall c s, GoogleSheets.value_to_object (PStr (String c s))
                  = PDict [(if Ascii.eqb c "=" then "formulaValue" else "stringValue",
                            PStr (String c s))])
  /\ GoogleSheets.value_to_object (PStr EmptyString) = PNone
  /\ (forall v, GoogleSheets.value_to_object v = PNone
                \/ exists k, In k ["boolValue"; "numberValue"; "formulaValue"; "stringValue"]
                             /\ GoogleSheets.value_to_object v = PDict [(k, v)]).
Proof.
  repeat split; try reflexivity.
  - intros c s. simpl. destruct (Ascii.eqb c "="); reflexivity.
  - intros v. destruct v as [| b | z | f | s | s | l | d]; simpl; auto.
    + right. exists "boolValue". simpl. tauto.
    + right. exists "numberValue". simpl. tauto.
    + right. exists "numberValue". simpl. tauto.
    + destruct s as [|c s]; simpl; [now left|]. right.
      destruct (Ascii.eqb c "=").
      * exists "formulaValue". simpl. tauto.
      * exists "stringValue". simpl. tauto.
Qed.

(** * The request client: remote failures *)

Section RequestFailures.

Lemma log_messages_objects (msgs : list pyval) :
  forallb WebScrape.is_dict msgs = true ->
  exists tr, ApiClient.log_messages msgs = (Ok tt, tr)
             /\ (msgs <> [] -> existsb is_error_log tr = true).
Proof.
  induction msgs as [|m msgs IH]; simpl; intros H.
  - exists []. split; [reflexivity | congruence].
  - apply andb_true_iff in H as [Hm Hr].
    destruct m; try discriminate. simpl.
    destruct (IH Hr) as (tr & E & _). rewrite E.
    eexists. split; [reflexivity|]. intros _. reflexivity.
Qed.

Lemma handle_http_error_absorbs (r : ApiClient.Response) (handle_400 : bool) :
  handle_400 && (ApiClient.status_code r =? 400) = false ->
  error_envelope_ok r = true ->
  exists tr, ApiClient.handle_http_error r handle_400 = (Ok PNone, tr)
             /\ (existsb is_error_log tr = true
                 \/ empty_messages (ApiClient.SendResponse r) = true).
Proof.
  intros H4 He. unfold ApiClient.handle_http_error. rewrite H4.
  unfold error_envelope_ok in He. unfold empty_messages.
  destruct (ApiClient.json_body r) as [j|].
  - destruct j; try discriminate. simpl. unfold has_key.
    destruct (assoc "messages" d) as [m|] eqn:A.
    + destruct m; try discriminate. simpl.
      destruct (log_messages_objects l He) as (tr & E & L). rewrite E.
      exists tr. split; [reflexivity|].
      destruct l as [|x l]; [now right|]. left. apply L. discriminate.
    + eexists. split; [reflexivity|]. now left.
  - eexists. split; [reflexivity|]. now left.
Qed.

Lemma log_success_returns (self : ApiClient.t) (post_ok success : bool) (dest : string) :
  fst (ApiClient.log_success self post_ok success dest) = Ok tt.
Proof.
  unfold ApiClient.log_success.
  destruct (negb (ApiClient.splunk_configured self)); [reflexivity|].
  destruct post_ok; reflexivity.
Qed.

Lemma finally_without_response (self : ApiClient.t) (post_ok : bool)
    (response : option ApiClient.Response) (destination : option string) :
  ApiClient.response_truthy response = false ->
  fst (ApiClient.request_finally self post_ok response destination) = Ok tt.
Proof.
  intros H. unfold ApiClient.request_finally.
  destruct (ApiClient.str_truthy destination); [|reflexivity].
  destruct destination as [dest|]; [|reflexivity].
  rewrite H, andb_false_r. apply log_success_returns.
Qed.

Lemma finally_audit_safe (self : ApiClient.t) (post_ok : bool)
    (r : ApiClient.Response) (destination : option string) :
  audit_safe self destination r = true ->
  fst (ApiClient.request_finally self post_ok (Some r) destination) = Ok tt.
Proof.
  intros H. unfold ApiClient.request_finally.
  destruct (ApiClient.str_truthy destination) eqn:D; [|reflexivity].
  destruct destination as [dest|]; [|reflexivity].
  destruct (_ && _ && _); [|apply log_success_returns].
  unfold ApiClient.log_response.
  unfold audit_safe in H. rewrite D in H. simpl in H.
  destruct (negb (ApiClient.splunk_configured self)); [reflexivity|].
  simpl in H. destruct (ApiClient.decoded r); [|discriminate].
  destruct post_ok; reflexivity.
Qed.

Lemma existsb_error_app (a b : list event) :
  existsb is_error_log a = true -> existsb is_error_log (a ++ b)%list = true.
Proof. intros H. rewrite existsb_app, H. reflexivity. Qed.

(** What [request] does absorb: a timeout, a transport failure, an
    HTTPError without a response, a 4xx or 5xx response that [handle_400]
    does not claim and whose body is not JSON or is a JSON object (with
    [messages], when present, a list of objects), and a body that is not
    JSON where JSON was asked for, the audit step being unable to fail.
    The call then returns [None]. *)
Lemma request_absorbs (self : ApiClient.t) (net : ApiClient.send_outcome)
    (post_ok : bool) (method endpoint : string) (destination : option string)
    (handle_400 raw : bool) :
  absorbed_failure self destination handle_400 raw net ->
  let out := ApiClient.request self net post_ok method endpoint destination handle_400 raw in
  fst out = Ok PNone
  /\ (existsb is_error_log (snd out) = true \/ empty_messages net = true).
Proof.
  intros H. cbv zeta. unfold ApiClient.request.
  destruct H as [ | | | r Hs H4 He | r Hs Hraw Hj Ha ]; simpl.
  - pose proof (finally_without_response self post_ok None destination eq_refl) as F.
    destruct (ApiClient.request_finally self post_ok None destination) as [f tr'].
    simpl in F. subst f. simpl. auto.
  - pose proof (finally_without_response self post_ok None destination eq_refl) as F.
    destruct (ApiClient.request_finally self post_ok None destination) as [f tr'].
    simpl in F. subst f. simpl. auto.
  - pose proof (finally_without_response self post_ok None destination eq_refl) as F.
    destruct (ApiClient.request_finally self post_ok None destination) as [f tr'].
    simpl in F. subst f. simpl. auto.
  - rewrite Hs.
    destruct (handle_http_error_absorbs r handle_400 H4 He) as (tr & E & L).
    rewrite E.
    assert (T : ApiClient.response_truthy (Some r) = false)
      by (simpl; now rewrite Hs).
    pose proof (finally_without_response self post_ok (Some r) destination T) as F.
    destruct (ApiClient.request_finally self post_ok (Some r) destination) as [f tr'].
    simpl in F. subst f. simpl. split; [reflexivity|].
    destruct L as [L|L]; [left | now right].
    now apply existsb_error_app.
  - rewrite Hs. subst raw. rewrite Hj.
    pose proof (finally_audit_safe self post_ok r destination Ha) as F.
    destruct (ApiClient.request_finally self post_ok (Some r) destination) as [f tr'].
    simpl in F. subst f. simpl. auto.
Qed.

(** C2.  The claim fails on an error body that is JSON of another shape
    than the handler expects.  A 404 whose body is the JSON value [null]
    makes the test ["messages" in error_json] raise TypeError, and a 404
    whose [messages] are plain strings makes [msg.get] raise
    AttributeError; the handler catches JSONDecodeError only, so either
    exception leaves [request], and [get] with it, where the claim and the
    docstring of [request] promise [None].  No audit destination is
    involved and [handle_400] is off. *)
Theorem request_error_body_raises :
  ApiClient.raise_for_status not_found_null = true
  /\ ApiClient.request (ApiClient.init (Some "https://api.xero.com") 30)
       (ApiClient.SendResponse not_found_null) true "GET" "api.xro/2.0/Journals"
       None false false
     = (Raise TypeError, [HttpCall "GET" "https://api.xero.com/api.xro/2.0/Journals"])
  /\ invoke ViaGet (ApiClient.init (Some "https://api.xero.com") 30)
       (ApiClient.SendResponse not_found_404) true "api.xro/2.0/Journals"
       None false false
     = (Raise AttributeError,
        [HttpCall "GET" "https://api.xero.com/api.xro/2.0/Journals"]).
Proof. repeat split; reflexivity. Qed.

End RequestFailures.

(** * The document proxies: committing the queue *)

Section Commit.

Import GoogleApi.

Lemma load_rows_keeps_requests (tw : bool) (rows : list pyval) :
  forall s r s', GoogleSheets.load_rows tw rows s = (r, s') ->
                 GoogleSheets.requests s' = GoogleSheets.requests s.
Proof.
  induction rows as [|row rows IH]; intros s r s' H.
  - inversion H. reflexivity.
  - simpl in H. unfold st_bind, st_eval, st_read, st_assign, st_ret in H.
    destruct (keys row) as [ks|e]; [|now inversion H].
    destruct (negb (has_key "values" ks)).
    + apply IH in H. exact H.
    + destruct tw.
      * destruct (v <- getitem row "values";; GoogleSheets.len v) as [n|e];
          [|now inversion H].
        destruct (v <- getitem row "values";; iter v) as [nr|e];
          [|now inversion H].
        apply IH in H. exact H.
      * destruct (v <- getitem row "values";; iter v) as [nr|e];
          [|now inversion H].
        apply IH in H. exact H.
Qed.

Lemma load_grid_keeps_requests (tw : bool) :
  forall s r s', GoogleSheets.load_grid tw s = (r, s') ->
                 GoogleSheets.requests s' = GoogleSheets.requests s.
Proof.
  intros s r s' H. unfold GoogleSheets.load_grid in H.
  unfold st_bind, st_eval, st_read, st_ret in H.
  destruct (d0 <- GoogleSheets.sheet0_data0 (GoogleSheets.json s);; keys d0)
    as [d|e]; [|now inversion H].
  destruct (negb (has_key "rowData" d)); [now inversion H|].
  destruct (d0 <- GoogleSheets.sheet0_data0 (GoogleSheets.json s);;
            r0 <- getitem d0 "rowData";; iter r0) as [rows|e];
    [|now inversion H].
  now apply load_rows_keeps_requests in H.
Qed.





Lemma queue_length_pos (l : list pyval) :
  l <> [] -> (Z.of_nat (List.length l) =? 0) = false.
Proof. destruct l; [congruence | reflexivity]. Qed.

Lemma error_logged_emit (e : event) (w : world) :
  existsb is_error_log (trace w) = true ->
  existsb is_error_log (trace (emit e w)) = true.
Proof. intros H. simpl. rewrite existsb_app, H. reflexivity. Qed.

Lemma error_logged_now (msg : string) (w : world) :
  existsb is_error_log (trace (emit (Log ERROR msg) w)) = true.
Proof. simpl. rewrite existsb_app. simpl. apply orb_true_r. Qed.

(** C7.  With nothing queued, [commit_changes] of a Sheet, a Spreadsheet
    and a Document returns [True] and hands back the proxy and the outside
    world as they were: the service was not started, no [execute()] was
    spent and nothing was sent. *)
Theorem commit_empty_queue_is_noop :
  (forall update self w,
      GoogleSheets.requests self = [] ->
      GoogleSheets.commit_changes update self w = (Ok true, self, w))
  /\ (forall update self w,
      Spreadsheet.requests self = [] ->
      Spreadsheet.commit_changes update self w = (Ok true, self, w))
  /\ (forall self w,
      GoogleDocs.requests self = [] ->
      GoogleDocs.commit_changes self w = (Ok true, self, w)).
Proof.
  repeat split.
  - intros update self w H. unfold GoogleSheets.commit_changes. now rewrite H.
  - intros update self w H. unfold Spreadsheet.commit_changes. now rewrite H.
  - intros self w H. unfold GoogleDocs.commit_changes. now rewrite H.
Qed.

Lemma commit_empty_queue_is_noop_witness :
  GoogleSheets.requests GoogleSheets.blank = []
  /\ GoogleSheets.commit_changes false GoogleSheets.blank (always ApiTimeoutError)
     = (Ok true, GoogleSheets.blank, always ApiTimeoutError).
Proof.
  split; [reflexivity|].
  exact (proj1 commit_empty_queue_is_noop false GoogleSheets.blank
           (always ApiTimeoutError) eq_refl).
Defined.

Lemma batch_update_keeps_logs_dir (msg : string) (remaining : nat) :
  forall (i : Z) (document_id body : pyval) (w : world),
    logs_dir (snd (batch_update_from msg remaining i document_id body w)) = logs_dir w.
Proof.
  induction remaining as [|n IH]; intros i document_id body w; [reflexivity|].
  cbn [batch_update_from]. unfold call, emit. cbn [execute ncalls trace logs_dir].
  destruct (execute w (ncalls w)) as [data | status |]; [reflexivity | |].
  - destruct ((i <? RETRIES - 1) && ((status =? 500) || (status =? 503)));
      [now rewrite IH | reflexivity].
  - destruct (i <? RETRIES - 1); [now rewrite IH | reflexivity].
Qed.

(** What a commit does when the batch update comes back with nothing
    (any falsy value, [None] included), the queue not being empty.  A
    Spreadsheet and a Document return [False].  A Sheet goes on to write
    the requests to a file: it returns [False] when the directory is
    there and the requests are JSON, and otherwise raises what [log_json]
    raises, FileNotFoundError for the missing directory.  In every case
    the proxy is left as it was, queue included, and an error is logged. *)
Lemma commit_failure_outcomes :
  (forall update self w,
      GoogleSheets.requests self <> [] ->
      truthy (fst (GoogleSheets.batch_update (GoogleSheets.spreadsheet_id self)
                     (GoogleSheets.request_object update self)
                     (GoogleSheets.start_service w))) = false ->
      let out := GoogleSheets.commit_changes update self w in
      fst (fst out)
      = (if negb (logs_dir w) then Raise FileNotFoundError
         else if Files.json_serializable (PList (GoogleSheets.requests self))
              then Ok false
              else Raise TypeError)
      /\ snd (fst out) = self
      /\ existsb is_error_log (trace (snd out)) = true)
  /\ (forall update self w,
      Spreadsheet.requests self <> [] ->
      truthy (fst (GoogleSheets.batch_update (Spreadsheet.spreadsheet_id self)
                     (Spreadsheet.request_object update self)
                     (GoogleSheets.start_service w))) = false ->
      let out := Spreadsheet.commit_changes update self w in
      fst (fst out) = Ok false
      /\ snd (fst out) = self
      /\ existsb is_error_log (trace (snd out)) = true)
  /\ (forall self w,
      GoogleDocs.requests self <> [] ->
      truthy (fst (GoogleDocs.batch_update (GoogleDocs.document_id self)
                     (GoogleDocs.body self) (GoogleDocs.start_service w))) = false ->
      let out := GoogleDocs.commit_changes self w in
      fst (fst out) = Ok false
      /\ snd (fst out) = self
      /\ existsb is_error_log (trace (snd out)) = true).
Proof.
  split; [|split].
  - intros update self w Hq Hf. cbv zeta. unfold GoogleSheets.commit_changes.
    rewrite (queue_length_pos _ Hq).
    pose proof (batch_update_keeps_logs_dir
                  "Google sheets batch update request API error: %s"
                  (Z.to_nat RETRIES) 0 (GoogleSheets.spreadsheet_id self)
                  (GoogleSheets.request_object update self)
                  (GoogleSheets.start_service w)) as D.
    fold (GoogleSheets.batch_update (GoogleSheets.spreadsheet_id self)
            (GoogleSheets.request_object update self)
            (GoogleSheets.start_service w)) in D.
    destruct (GoogleSheets.batch_update _ _ _) as [preload w1].
    simpl in Hf, D. rewrite Hf. cbn [negb]. unfold Files.log_json.
    cbn [logs_dir emit]. rewrite D.
    destruct (logs_dir w); cbn [negb].
    + destruct (Files.json_serializable (PList (GoogleSheets.requests self)));
        (repeat split; [apply error_logged_emit, error_logged_now]).
    + repeat split. apply error_logged_now.
  - intros update self w Hq Hf. cbv zeta. unfold Spreadsheet.commit_changes.
    rewrite (queue_length_pos _ Hq).
    destruct (GoogleSheets.batch_update _ _ _) as [preload w1].
    simpl in Hf. rewrite Hf. simpl fst. simpl snd. repeat split.
    apply error_logged_now.
  - intros self w Hq Hf. cbv zeta. unfold GoogleDocs.commit_changes.
    assert (T : negb (truthy (PList (GoogleDocs.requests self))) = false)
      by (destruct (GoogleDocs.requests self); [congruence | reflexivity]).
    rewrite T.
    destruct (GoogleDocs.batch_update _ _ _) as [preload w1].
    simpl in Hf. rewrite Hf. simpl fst. simpl snd. repeat split.
    apply error_logged_now.
Qed.

(** C3.  The claim fails on a Sheet.  With one request queued, every
    [execute()] timing out and the working directory as checked out
    (nothing creates [logs/failed_sheets_calls]), the batch update comes
    back with nothing and [Sheet.commit_changes], having logged the
    error, does not return [False]: the [log_json] call before its
    [return False] raises FileNotFoundError, which leaves the method.  The
    queue is as it was.  A Document, which writes no file, returns
    [False] at the same input. *)
Theorem sheet_commit_failure_raises :
  GoogleSheets.requests sample_sheet <> []
  /\ fst (GoogleSheets.batch_update (GoogleSheets.spreadsheet_id sample_sheet)
            (GoogleSheets.request_object false sample_sheet)
            (GoogleSheets.start_service (always ApiTimeoutError)))
     = PNone
  /\ fst (GoogleSheets.commit_changes false sample_sheet (always ApiTimeoutError))
     = (Raise FileNotFoundError, sample_sheet)
  /\ fst (GoogleDocs.commit_changes sample_document (always ApiTimeoutError))
     = (Ok false, sample_document).
Proof.
  split; [vm_compute; discriminate|]. repeat split; vm_compute; reflexivity.
Qed.




End Commit.

(** * Sheets: reading the snapshot *)

Section ReadAccessors.

Lemma list_index_range {A} (l : list A) (i : Z) :
  python_in_range l i = false -> list_index l i = Raise IndexError.
Proof.
  unfold python_in_range, list_index. intros H.
  apply andb_false_iff in H.
  destruct (i <? 0) eqn:Neg.
  - destruct ((i + Z.of_nat (List.length l) <? 0)
              || (Z.of_nat (List.length l) <=? i + Z.of_nat (List.length l))) eqn:B;
      [reflexivity|].
    apply orb_false_iff in B. lia.
  - destruct ((i <? 0) || (Z.of_nat (List.length l) <=? i)) eqn:B; [reflexivity|].
    apply orb_false_iff in B. lia.
Qed.

Lemma list_index_cases {A} (l : list A) (i : Z) :
  list_index l i = Raise IndexError
  \/ exists x, list_index l i = Ok x /\ In x l.
Proof.
  unfold list_index.
  destruct (_ || _); [now left|].
  destruct (nth_error l _) as [x|] eqn:N; [|now left].
  right. exists x. split; [reflexivity|]. eapply nth_error_In, N.
Qed.

Lemma cell_at_cases (self : GoogleSheets.Sheet) (row column : Z) :
  GoogleSheets.cell_at self row column = Raise IndexError
  \/ exists r c, In r (GoogleSheets.cell_array self) /\ In c r
                 /\ GoogleSheets.cell_at self row column = Ok c.
Proof.
  unfold GoogleSheets.cell_at.
  destruct (list_index_cases (GoogleSheets.cell_array self) row) as [E|(r & E & Hr)];
    rewrite E; simpl; [now left|].
  destruct (list_index_cases r column) as [E'|(c & E' & Hc)]; rewrite E';
    [now left|].
  right. exists r, c. auto.
Qed.

Lemma grid_ok_cell (ca : list (list pyval)) (r : list pyval) (c : pyval) :
  grid_ok ca = true -> In r ca -> In c r -> cell_ok c = true.
Proof.
  unfold grid_ok. intros G Hr Hc.
  rewrite forallb_forall in G. specialize (G r Hr).
  rewrite forallb_forall in G. exact (G c Hc).
Qed.

Lemma cell_value_shape (d : list (string * pyval)) :
  cell_ok (PDict d) = true ->
  is_none_or_dict
    (dict_get "userEnteredValue" (dict_get "effectiveValue" PNone d) d) = true.
Proof.
  simpl. intros H. apply andb_true_iff in H as [Hu He].
  unfold dict_get at 1. unfold dict_get at 1 in Hu.
  destruct (assoc "userEnteredValue" d); assumption.
Qed.

Lemma get_value_returns (self : GoogleSheets.Sheet) (row column : Z) :
  grid_ok (GoogleSheets.cell_array self) = true ->
  exists v, GoogleSheets.get_value self row column = Ok v.
Proof.
  intros G. unfold GoogleSheets.get_value.
  destruct (cell_at_cases self row column) as [E|(r & c & Hr & Hc & E)]; rewrite E; simpl.
  - eauto.
  - pose proof (grid_ok_cell _ _ _ G Hr Hc) as K.
    destruct c; try discriminate. simpl.
    pose proof (cell_value_shape d K) as V.
    destruct (dict_get "userEnteredValue" (dict_get "effectiveValue" PNone d) d);
      try discriminate; simpl; eauto.
Qed.

Lemma get_formatted_value_returns (self : GoogleSheets.Sheet) (row column : Z) :
  grid_ok (GoogleSheets.cell_array self) = true ->
  exists v, GoogleSheets.get_formatted_value self row column = Ok v.
Proof.
  intros G. unfold GoogleSheets.get_formatted_value.
  destruct (cell_at_cases self row column) as [E|(r & c & Hr & Hc & E)]; rewrite E; simpl.
  - eauto.
  - pose proof (grid_ok_cell _ _ _ G Hr Hc) as K.
    destruct c; try discriminate. simpl. unfold has_key.
    destruct (assoc "formattedValue" d) as [f|] eqn:F; simpl.
    + eauto.
    + destruct (get_value_returns self row column G) as [v V]. rewrite V. simpl. eauto.
Qed.

Lemma accessors_out_of_range (self : GoogleSheets.Sheet) (row column : Z) :
  GoogleSheets.cell_at self row column = Raise IndexError ->
  GoogleSheets.get_value self row column = Ok PNone
  /\ GoogleSheets.get_formatted_value self row column = Ok PNone.
Proof.
  intros E. unfold GoogleSheets.get_formatted_value, GoogleSheets.get_value.
  rewrite E. split; reflexivity.
Qed.

Lemma accessors_empty_cell (self : GoogleSheets.Sheet) (row column : Z) (c : pyval) :
  GoogleSheets.cell_at self row column = Ok c ->
  empty_cell c = true ->
  GoogleSheets.get_value self row column = Ok PNone
  /\ GoogleSheets.get_formatted_value self row column = Ok PNone.
Proof.
  intros E H. destruct c; try discriminate. simpl in H.
  apply andb_true_iff in H as [H Hf]. apply andb_true_iff in H as [Hu He].
  unfold has_key in Hu, He, Hf.
  assert (V : GoogleSheets.get_value self row column = Ok PNone).
  { unfold GoogleSheets.get_value. rewrite E. simpl. unfold dict_get.
    destruct (assoc "userEnteredValue" d); [discriminate|].
    destruct (assoc "effectiveValue" d); [discriminate|]. reflexivity. }
  split; [exact V|].
  unfold GoogleSheets.get_formatted_value. rewrite E. simpl. unfold has_key.
  destruct (assoc "formattedValue" d); [discriminate|]. simpl.
  rewrite V. reflexivity.
Qed.

(** C6.  The claim fails at a negative index.  Row [-1] names no cell of
    the one-row grid, as row [1] does not; the snapshot is well formed.
    For row [1] the accessors catch the IndexError and return [None], as
    the docstring of [get_value] promises for any out of bounds cell; for
    row [-1] the list indexing wraps around, no IndexError is raised, and
    both accessors answer with the content of the last row. *)
Theorem accessors_wrap_negative_index :
  grid_ok (GoogleSheets.cell_array sample_sheet) = true
  /\ in_grid (GoogleSheets.cell_array sample_sheet) (-1) 0 = false
  /\ in_grid (GoogleSheets.cell_array sample_sheet) 1 0 = false
  /\ GoogleSheets.get_value sample_sheet 1 0 = Ok PNone
  /\ GoogleSheets.get_formatted_value sample_sheet 1 0 = Ok PNone
  /\ GoogleSheets.get_value sample_sheet (-1) 0 = Ok (PInt 5)
  /\ GoogleSheets.get_formatted_value sample_sheet (-1) 0 = Ok (PStr "5").
Proof. repeat split; vm_compute; reflexivity. Qed.

End ReadAccessors.

(** * Xero: paging through the journals *)

Section Journals.

Ltac bind_step H :=
  match type of H with
  | Py.bind ?c _ = Ok _ =>
      let E := fresh "E" in
      destruct c eqn:E; [simpl in H | discriminate H]
  end.

Lemma new_line_is_line (j : list (string * pyval)) (l e v : pyval) :
  Xero.new_line j l e = Ok v -> is_line v.
Proof.
  unfold Xero.new_line. intros H.
  repeat bind_step H.
  inversion H. eexists. eexists. split; reflexivity.
Qed.

Lemma simplify_lines_are_lines (j : list (string * pyval)) (e : pyval) (ls : list pyval) :
  forall out, Xero.simplify_lines j ls e = Ok out -> Forall is_line out.
Proof.
  induction ls as [|l ls IH]; simpl; intros out H.
  - inversion H. constructor.
  - repeat bind_step H. inversion H. constructor.
    + eapply new_line_is_line; eassumption.
    + now apply IH.
Qed.

Lemma simplify_each_are_lines (e : pyval) (js : list pyval) :
  forall out, Xero.simplify_each js e = Ok out -> Forall is_line out.
Proof.
  induction js as [|j js IH]; simpl; intros out H.
  - inversion H. constructor.
  - destruct (negb (truthy j)); [now apply IH|].
    repeat bind_step H. inversion H. apply Forall_app. split.
    + eapply simplify_lines_are_lines; eassumption.
    + now apply IH.
Qed.

Lemma simplify_journals_are_lines (page e : pyval) (out : list pyval) :
  Xero.simplify_journals page e = Ok out -> Forall is_line out.
Proof.
  unfold Xero.simplify_journals. intros H. repeat bind_step H.
  eapply simplify_each_are_lines; eassumption.
Qed.

Lemma list_index_last {A} (l : list A) (d : A) :
  l <> [] -> list_index l (-1) = Ok (last l d).
Proof.
  intros H. destruct (exists_last H) as (l' & a & ->).
  rewrite last_last. unfold list_index. rewrite length_app. simpl List.length.
  replace (-1 <? 0) with true by reflexivity.
  destruct ((-1 + Z.of_nat (List.length l' + 1) <? 0)
            || (Z.of_nat (List.length l' + 1) <=? -1 + Z.of_nat (List.length l' + 1)))
    eqn:B.
  - apply orb_true_iff in B.
    destruct B as [B|B]; [apply Z.ltb_lt in B | apply Z.leb_le in B]; lia.
  - replace (Z.to_nat (-1 + Z.of_nat (List.length l' + 1))) with (List.length l') by lia.
    rewrite nth_error_app2 by lia. now rewrite Nat.sub_diag.
Qed.

Lemma next_params_offset (ls : list pyval) :
  Forall is_line ls -> ls <> [] -> Xero.next_params ls = Ok (offset_after ls).
Proof.
  intros F N. unfold Xero.next_params, offset_after.
  rewrite (list_index_last ls PNone N). simpl.
  assert (I : In (last ls PNone) ls).
  { destruct (exists_last N) as (l' & a & ->). rewrite last_last.
    apply in_or_app. right. now left. }
  rewrite Forall_forall in F. destruct (F _ I) as (d & n & -> & A).
  simpl. unfold dict_get. rewrite A. reflexivity.
Qed.

Lemma map_seq_succ {A} (f : nat -> A) (k : nat) :
  map f (seq 0 (S k)) = f O :: map (fun i => f (S i)) (seq 0 k).
Proof. simpl. f_equal. now rewrite <- seq_shift, map_map. Qed.

Lemma journals_loop_pages (k : nat) :
  forall (lines : nat -> list pyval) (acc : list pyval) (params : pyval)
         (w : Xero.world) (fuel : nat),
    (forall i, (i <= k)%nat ->
       truthy (Xero.pages w (Xero.ncalls w + i)) = true
       /\ Xero.simplify_journals (Xero.pages w (Xero.ncalls w + i))
            (PStr (Xero.now w (Xero.ncalls w + i))) = Ok (lines i)) ->
    (forall i, (i < k)%nat -> lines i <> []) ->
    lines k = [] ->
    (k < fuel)%nat ->
    Xero.journals_loop fuel acc params w
    = (Some (Ok (PList (acc ++ List.concat (map lines (seq 0 k)))%list)),
       after_pages w params lines k).
Proof.
  induction k as [|k IH]; intros lines acc params w fuel Hp Hne Hk Hf;
    (destruct fuel as [|fuel]; [lia|]); simpl Xero.journals_loop;
    destruct (Hp O ltac:(lia)) as [T S0]; rewrite Nat.add_0_r in T, S0;
    rewrite T, S0; simpl negb; cbv iota.
  - rewrite Hk. simpl. rewrite app_nil_r. unfold after_pages. simpl.
    now rewrite Nat.add_0_r.
  - pose proof (Hne O ltac:(lia)) as N0.
    rewrite (queue_length_pos _ N0).
    rewrite (next_params_offset _ (simplify_journals_are_lines _ _ _ S0) N0).
    rewrite (IH (fun i => lines (S i))); try lia.
    + f_equal.
      * rewrite map_seq_succ. simpl. now rewrite <- app_assoc.
      * unfold after_pages. cbn [Xero.pages Xero.now Xero.ncalls Xero.sent Xero.log].
        rewrite (map_seq_succ (fun i => offset_after (lines i))), <- app_assoc.
        simpl. f_equal. lia.
    + intros i Hi. simpl. rewrite <- Nat.add_succ_r. apply Hp. lia.
    + intros i Hi. apply Hne. lia.
    + exact Hk.
Qed.

(** C5.  Let the pages the endpoint returns from now on be non-empty
    responses that normalise to [lines 0], [lines 1], ..., with [lines k]
    the first empty one.  Then [get_journals] terminates (any bound above
    [k] on the iterations unrolled gives the same answer): it returns the
    lines of pages [0] to [k - 1] concatenated in fetch order, after
    exactly [k + 1] requests, the first without parameters and each later
    one with the journal number of the last line of the page before it as
    [offset]. *)
Theorem get_journals_paginates (w : Xero.world) (tenant_id access_token : pyval)
    (lines : nat -> list pyval) (k fuel : nat) :
  tenant_id <> PNone ->
  access_token <> PNone ->
  (forall i, (i <= k)%nat ->
     truthy (Xero.pages w (Xero.ncalls w + i)) = true
     /\ Xero.simplify_journals (Xero.pages w (Xero.ncalls w + i))
          (PStr (Xero.now w (Xero.ncalls w + i))) = Ok (lines i)) ->
  (forall i, (i < k)%nat -> lines i <> []) ->
  lines k = [] ->
  (k < fuel)%nat ->
  Xero.get_journals (Some tt) (tenant_id, access_token) fuel w
  = (Some (Ok (PList (List.concat (map lines (seq 0 k))))),
     after_pages w PNone lines k).
Proof.
  intros Ht Ha Hp Hne Hk Hf. unfold Xero.get_journals.
  pose proof (journals_loop_pages k lines [] PNone w fuel Hp Hne Hk Hf) as L.
  destruct tenant_id; try congruence; destruct access_token; try congruence; exact L.
Qed.

Lemma get_journals_paginates_witness :
  (forall i, (i <= 2)%nat ->
     truthy (sample_pages i) = true
     /\ Xero.simplify_journals (sample_pages i) (PStr "03/11/2026 09:00:00")
        = Ok (sample_lines i))
  /\ List.length (sample_lines 0) = 2%nat
  /\ List.length (sample_lines 1) = 1%nat
  /\ sample_lines 2 = []
  /\ Xero.get_journals (Some tt) (PStr "tenant-41", PStr "eyJhbGciOi") 7
       sample_journal_world
     = (Some (Ok (PList (sample_lines 0 ++ sample_lines 1)%list)),
        after_pages sample_journal_world PNone sample_lines 2).
Proof.
  assert (Hp : forall i, (i <= 2)%nat ->
     truthy (sample_pages i) = true
     /\ Xero.simplify_journals (sample_pages i) (PStr "03/11/2026 09:00:00")
        = Ok (sample_lines i)).
  { intros [|[|[|i]]] Hi; try lia; split; vm_compute; reflexivity. }
  split; [exact Hp|]. do 3 (split; [vm_compute; reflexivity|]).
  rewrite (get_journals_paginates sample_journal_world (PStr "tenant-41")
             (PStr "eyJhbGciOi") sample_lines 2 7).
  - cbn [List.concat map seq]. now rewrite app_nil_r.
  - discriminate.
  - discriminate.
  - exact Hp.
  - intros [|[|i]] Hi; try lia; vm_compute; discriminate.
  - vm_compute; reflexivity.
  - lia.
Defined.

End Journals.

(** * The web scraper: polling until the timeout *)

Section Polling.

Import WebScrape.

Variable tps : positive.
Variable b64decode : pyval -> result string.



Lemma pending_uncoded_statement_lines (results : pyval) :
  status_pending results = true -> uncoded_statement_lines_step results = Pending.
Proof.
  destruct results; try discriminate. intros H. simpl.
  simpl in H. now rewrite H.
Qed.



End Polling.


(** * The Xero client row: storing and reading tokens *)

Section TokenRoundTrip.

Variables key salt : Type.
Variable fernet_encrypt : key -> salt -> string -> string.
Variable fernet_decrypt : key -> string -> option string.
Variable utf8_encode : string -> option string.
Variable utf8_decode : string -> option string.

(** What the libraries promise: a token decrypts under its key to the
    data it was made from; a token is never the empty byte string; text
    that encodes decodes back to itself. *)
Hypothesis decrypt_encrypt :
  forall k s data, fernet_decrypt k (fernet_encrypt k s data) = Some data.
Hypothesis token_not_empty :
  forall k s data, fernet_encrypt k s data <> EmptyString.
Hypothesis decode_encode :
  forall s b, utf8_encode s = Some b -> utf8_decode b = Some s.

Let set_tokens := XeroClient.set_tokens fernet_encrypt utf8_encode.
Let get_access_token := XeroClient.get_access_token fernet_decrypt utf8_decode.
Let get_xero_refresh_token := XeroClient.get_xero_refresh_token fernet_decrypt utf8_decode.

Lemma read_token_of_encrypted (k : key) (s : salt) (text bytes : string) :
  utf8_encode text = Some bytes ->
  XeroClient.read_token fernet_decrypt utf8_decode (Some k)
    (Some (fernet_encrypt k s bytes))
  = XeroClient.Returns (Some text).
Proof.
  intros E. unfold XeroClient.read_token, XeroClient.bytes_truthy.
  destruct (String.eqb (fernet_encrypt k s bytes) EmptyString) eqn:Z.
  - apply String.eqb_eq in Z. now apply token_not_empty in Z.
  - simpl. rewrite decrypt_encrypt, (decode_encode _ _ E). reflexivity.
Qed.

(** C10.  With the encryption key configured, tokens that encode as
    UTF-8 and a commit that goes through, [set_tokens] returns and the
    client then reads back, under the same key, exactly the access token
    and the refresh token it was given; and on a client whose column
    holds nothing the getter returns [None]. *)
Theorem tokens_round_trip (k : key) (salt1 salt2 : salt) (access refresh : string)
    (a r : string) (expiry : Z) (tenant : option string) (self : XeroClient.t) :
  utf8_encode access = Some a ->
  utf8_encode refresh = Some r ->
  (let '(out, self', _) :=
     set_tokens (Some k) salt1 salt2 true access refresh expiry tenant self in
   out = XeroClient.Returns tt
   /\ get_access_token (Some k) self' = XeroClient.Returns (Some access)
   /\ get_xero_refresh_token (Some k) self' = XeroClient.Returns (Some refresh))
  /\ (forall cfg client,
        XeroClient.access_token (XeroClient.attrs client) = None ->
        get_access_token cfg client = XeroClient.Returns None)
  /\ (forall cfg client,
        XeroClient.refresh_token (XeroClient.attrs client) = None ->
        get_xero_refresh_token cfg client = XeroClient.Returns None).
Proof.
  intros Ea Er. split; [|split].
  - unfold set_tokens, XeroClient.set_tokens. rewrite Ea, Er.
    split; [reflexivity|]. split.
    + unfold get_access_token, XeroClient.get_access_token. simpl.
      now apply read_token_of_encrypted.
    + unfold get_xero_refresh_token, XeroClient.get_xero_refresh_token. simpl.
      now apply read_token_of_encrypted.
  - intros cfg client H. unfold get_access_token, XeroClient.get_access_token.
    now rewrite H.
  - intros cfg client H.
    unfold get_xero_refresh_token, XeroClient.get_xero_refresh_token.
    now rewrite H.
Qed.

End TokenRoundTrip.

Lemma tag_decrypt_encrypt (k s : unit) (data : string) :
  tag_decrypt k (tag_encrypt k s data) = Some data.
Proof. reflexivity. Qed.

Lemma tag_token_not_empty (k s : unit) (data : string) :
  tag_encrypt k s data <> EmptyString.
Proof. discriminate. Qed.

Lemma plain_decode_encode (s b : string) :
  plain_encode s = Some b -> plain_decode b = Some s.
Proof. unfold plain_encode, plain_decode. congruence. Qed.

Lemma tokens_round_trip_witness :
  plain_encode "eyJhbGciOiJSUzI1NiIs" = Some "eyJhbGciOiJSUzI1NiIs"
  /\ plain_encode "b2f1c0de9a" = Some "b2f1c0de9a"
  /\ XeroClient.get_access_token tag_decrypt plain_decode (Some tt)
       (snd (fst (XeroClient.set_tokens tag_encrypt plain_encode (Some tt) tt tt true
                    "eyJhbGciOiJSUzI1NiIs" "b2f1c0de9a" 1793700000 None fresh_client)))
     = XeroClient.Returns (Some "eyJhbGciOiJSUzI1NiIs").
Proof.
  split; [reflexivity|]. split; [reflexivity|].
  pose proof (tokens_round_trip unit unit tag_encrypt tag_decrypt plain_encode plain_decode
                tag_decrypt_encrypt tag_token_not_empty plain_decode_encode
                tt tt tt "eyJhbGciOiJSUzI1NiIs" "b2f1c0de9a"
                "eyJhbGciOiJSUzI1NiIs" "b2f1c0de9a" 1793700000 None fresh_client
                eq_refl eq_refl) as [T _].
  destruct (XeroClient.set_tokens tag_encrypt plain_encode (Some tt) tt tt true
              "eyJhbGciOiJSUzI1NiIs" "b2f1c0de9a" 1793700000 None fresh_client)
    as [[out self'] log].
  exact (proj1 (proj2 T)).
Defined.

(** * Further properties: column names *)

Section ColumnLetters.

Lemma col_to_letter_loop_unfold (n : Z) (res : string) :
  GoogleSheets.col_to_letter_loop n res
  = if 0 <? n
    then GoogleSheets.col_to_letter_loop ((n - 1) / 26)
           (String (ascii_of_nat (Z.to_nat (65 + (n - 1) mod 26))) res)
    else res.
Proof.
  funelim (GoogleSheets.col_to_letter_loop n res).
  - replace (0 <? col_num) with true by (symmetry; apply Z.ltb_lt; lia).
    reflexivity.
  - replace (0 <? col_num) with false by (symmetry; apply Z.ltb_ge; lia).
    reflexivity.
Qed.

Lemma letter_code (n : Z) :
  0 < n ->
  Z.of_nat (nat_of_ascii (ascii_of_nat (Z.to_nat (65 + (n - 1) mod 26))))
  = 65 + (n - 1) mod 26.
Proof.
  intros H. pose proof (Z.mod_pos_bound (n - 1) 26 ltac:(lia)) as B.
  rewrite nat_ascii_embedding by lia. lia.
Qed.

Lemma col_to_letter_loop_value (m : nat) :
  forall n res, (Z.to_nat n <= m)%nat ->
    letters_value (GoogleSheets.col_to_letter_loop n res) 0
    = letters_value res (Z.max 0 n).
Proof.
  induction m as [|m IH]; intros n res Hm;
    rewrite col_to_letter_loop_unfold; destruct (0 <? n) eqn:P.
  - apply Z.ltb_lt in P. lia.
  - apply Z.ltb_ge in P. now replace (Z.max 0 n) with 0 by lia.
  - apply Z.ltb_lt in P.
    pose proof (Z.mod_pos_bound (n - 1) 26 ltac:(lia)) as B.
    pose proof (Z.div_mod (n - 1) 26 ltac:(lia)) as D.
    assert (Q : 0 <= (n - 1) / 26) by (apply Z.div_pos; lia).
    assert (L : (n - 1) / 26 <= n - 1) by (apply Z.div_le_upper_bound; lia).
    rewrite IH by lia. cbn [letters_value]. rewrite letter_code by lia.
    f_equal. lia.
  - apply Z.ltb_ge in P. now replace (Z.max 0 n) with 0 by lia.
Qed.

Lemma col_to_letter_loop_upper (m : nat) :
  forall n res, (Z.to_nat n <= m)%nat ->
    all_chars is_upper (GoogleSheets.col_to_letter_loop n res)
    = all_chars is_upper res.
Proof.
  induction m as [|m IH]; intros n res Hm;
    rewrite col_to_letter_loop_unfold; destruct (0 <? n) eqn:P; try reflexivity.
  - apply Z.ltb_lt in P. lia.
  - apply Z.ltb_lt in P.
    pose proof (Z.mod_pos_bound (n - 1) 26 ltac:(lia)) as B.
    assert (L : (n - 1) / 26 <= n - 1) by (apply Z.div_le_upper_bound; lia).
    rewrite IH by lia. cbn [all_chars]. unfold is_upper.
    rewrite nat_ascii_embedding by lia.
    replace (65 <=? Z.to_nat (65 + (n - 1) mod 26))%nat with true
      by (symmetry; apply Nat.leb_le; lia).
    replace (Z.to_nat (65 + (n - 1) mod 26) <=? 90)%nat with true
      by (symmetry; apply Nat.leb_le; lia).
    reflexivity.
Qed.

(** X1.  [CellRange._col_to_letter] writes a column number as a bijective
    base-26 numeral: reading the letters back ([A] as 1 up to [Z] as 26)
    gives the number again for every column from 1 on, every letter is an
    upper-case one, and a column number of zero or less gives the empty
    name. *)
Theorem col_to_letter_round_trip (col_num : Z) :
  letters_value (GoogleSheets._col_to_letter col_num) 0 = Z.max 0 col_num
  /\ all_chars is_upper (GoogleSheets._col_to_letter col_num) = true
  /\ GoogleSheets._col_to_letter (Z.min 0 col_num) = EmptyString.
Proof.
  unfold GoogleSheets._col_to_letter. split; [|split].
  - now rewrite (col_to_letter_loop_value (Z.to_nat col_num)).
  - now rewrite (col_to_letter_loop_upper (Z.to_nat col_num)).
  - rewrite col_to_letter_loop_unfold.
    replace (0 <? Z.min 0 col_num) with false by (symmetry; apply Z.ltb_ge; lia).
    reflexivity.
Qed.

End ColumnLetters.

(** * Further properties: the retry loop of [batch_update] *)

Section Retries.

Import GoogleApi.

Lemma after_one_attempt (w : world) (document_id body : pyval) (n : nat)
    (tail : list event) :
  after_attempts (snd (call (emit (BatchUpdate document_id body) w)))
    document_id body n tail
  = after_attempts w document_id body (S n) tail.
Proof.
  unfold after_attempts, emit, call. simpl.
  f_equal; first [lia | now rewrite <- app_assoc | reflexivity].
Qed.

Lemma first_attempt (w : world) (document_id body : pyval) :
  snd (call (emit (BatchUpdate document_id body) w))
  = after_attempts w document_id body 1 [].
Proof.
  unfold after_attempts, emit, call. simpl.
  f_equal; first [lia | now rewrite <- app_assoc | reflexivity].
Qed.

Lemma first_attempt_logged (w : world) (document_id body : pyval) (msg : string) :
  emit (Log ERROR msg) (snd (call (emit (BatchUpdate document_id body) w)))
  = after_attempts w document_id body 1 [Log ERROR msg].
Proof.
  unfold after_attempts, emit, call. simpl.
  f_equal; first [lia | now rewrite <- app_assoc | reflexivity].
Qed.

Lemma batch_update_from_bounded (msg : string) (document_id body : pyval)
    (remaining : nat) :
  forall i w,
  exists n tail,
    (n <= remaining)%nat
    /\ (0 < remaining -> 0 < n)%nat
    /\ snd (batch_update_from msg remaining i document_id body w)
       = after_attempts w document_id body n tail
    /\ (tail = [] \/ (tail = [Log ERROR msg]
                      /\ fst (batch_update_from msg remaining i document_id body w)
                         = PNone)).
Proof.
  induction remaining as [|rem IH]; intros i w.
  - exists O, []. simpl. repeat split; try lia.
    + unfold after_attempts. destruct w. simpl.
      now rewrite Nat.add_0_r, app_nil_r.
    + now left.
  - cbn [batch_update_from].
    set (w1 := snd (call (emit (BatchUpdate document_id body) w))).
    change (call (emit (BatchUpdate document_id body) w))
      with (execute w (ncalls w), w1).
    cbv iota beta.
    assert (Stop : exists n tail,
               (n <= S rem)%nat /\ (0 < S rem -> 0 < n)%nat
               /\ emit (Log ERROR msg) w1 = after_attempts w document_id body n tail
               /\ tail = [Log ERROR msg]).
    { exists 1%nat, [Log ERROR msg]. repeat split; try lia.
      apply first_attempt_logged. }
    assert (Go : exists n tail,
               (n <= S rem)%nat /\ (0 < S rem -> 0 < n)%nat
               /\ snd (batch_update_from msg rem (i + 1) document_id body w1)
                  = after_attempts w document_id body n tail
               /\ (tail = [] \/ (tail = [Log ERROR msg]
                     /\ fst (batch_update_from msg rem (i + 1) document_id body w1)
                        = PNone))).
    { destruct (IH (i + 1) w1) as (n & tail & Hn & _ & Hw & Ht).
      exists (S n), tail. repeat split; try lia.
      - rewrite Hw. apply after_one_attempt.
      - exact Ht. }
    destruct (execute w (ncalls w)) as [data|status|].
    + exists 1%nat, []. cbn [fst snd]. repeat split; try lia.
      * apply first_attempt.
      * now left.
    + destruct ((i <? RETRIES - 1) && ((status =? 500) || (status =? 503))).
      * exact Go.
      * destruct Stop as (n & tail & H1 & H2 & H3 & H4).
        exists n, tail. simpl. repeat split; auto.
    + destruct (i <? RETRIES - 1).
      * exact Go.
      * destruct Stop as (n & tail & H1 & H2 & H3 & H4).
        exists n, tail. simpl. repeat split; auto.
Qed.

(** X2.  A batch update, for Sheets as for Docs, makes at least one and
    at most five attempts, every one of them with the same document and
    the same body, and leaves at most one error line behind, which it
    does only when it returns nothing. *)
Theorem batch_update_attempts_bounded (document_id body : pyval) (w : world) :
  (exists n tail,
     (1 <= n <= 5)%nat
     /\ snd (GoogleSheets.batch_update document_id body w)
        = after_attempts w document_id body n tail
     /\ (tail = []
         \/ (tail = [Log ERROR "Google sheets batch update request API error: %s"]
             /\ fst (GoogleSheets.batch_update document_id body w) = PNone)))
  /\ (exists n tail,
     (1 <= n <= 5)%nat
     /\ snd (GoogleDocs.batch_update document_id body w)
        = after_attempts w document_id body n tail
     /\ (tail = []
         \/ (tail = [Log ERROR "Google Docs batchUpdate API error: %s"]
             /\ fst (GoogleDocs.batch_update document_id body w) = PNone))).
Proof.
  split.
  - destruct (batch_update_from_bounded
                "Google sheets batch update request API error: %s"
                document_id body 5 0 w) as (n & tail & H1 & H2 & H3 & H4).
    exists n, tail. repeat split; try lia; assumption.
  - destruct (batch_update_from_bounded "Google Docs batchUpdate API error: %s"
                document_id body 5 0 w) as (n & tail & H1 & H2 & H3 & H4).
    exists n, tail. repeat split; try lia; assumption.
Qed.

Lemma batch_update_from_ends (msg : string) (document_id body : pyval) (k : nat) :
  forall remaining i w,
    (k < remaining)%nat ->
    i + Z.of_nat remaining = RETRIES ->
    (forall j, (j < k)%nat -> retryable (execute w (ncalls w + j)) = true) ->
    retryable (execute w (ncalls w + k)) = false \/ S k = remaining ->
    batch_update_from msg remaining i document_id body w
    = match execute w (ncalls w + k) with
      | ApiReturn data => (data, after_attempts w document_id body (S k) [])
      | _ => (PNone, after_attempts w document_id body (S k) [Log ERROR msg])
      end.
Proof.
  unfold RETRIES.
  induction k as [|k IH]; intros remaining i w Hk Hi Hr Hs;
    (destruct remaining as [|rem]; [lia|]); cbn [batch_update_from];
    set (w1 := snd (call (emit (BatchUpdate document_id body) w)));
    change (call (emit (BatchUpdate document_id body) w))
      with (execute w (ncalls w), w1); cbv iota beta.
  - rewrite Nat.add_0_r in Hs |- *.
    assert (E : emit (Log ERROR msg) w1
                = after_attempts w document_id body 1 [Log ERROR msg])
      by apply first_attempt_logged.
    destruct (execute w (ncalls w)) as [data|status|] eqn:O.
    + f_equal. apply first_attempt.
    + simpl in Hs. destruct Hs as [Hs|Hs].
      * rewrite Hs, andb_false_r. now rewrite E.
      * replace (i <? RETRIES - 1) with false
          by (symmetry; apply Z.ltb_ge; unfold RETRIES; lia).
        simpl. now rewrite E.
    + simpl in Hs. destruct Hs as [Hs|Hs]; [discriminate|].
      replace (i <? RETRIES - 1) with false
        by (symmetry; apply Z.ltb_ge; unfold RETRIES; lia).
      now rewrite E.
  - pose proof (Hr O ltac:(lia)) as R0. rewrite Nat.add_0_r in R0.
    assert (Lt : (i <? RETRIES - 1) = true)
      by (apply Z.ltb_lt; unfold RETRIES; lia).
    assert (Next : batch_update_from msg rem (i + 1) document_id body w1
                   = match execute w (ncalls w + S k) with
                     | ApiReturn data =>
                         (data, after_attempts w document_id body (S (S k)) [])
                     | _ => (PNone, after_attempts w document_id body (S (S k))
                                      [Log ERROR msg])
                     end).
    { assert (Ix : forall j, execute w1 (ncalls w1 + j) = execute w (ncalls w + S j))
        by (intros j; unfold w1; simpl; now rewrite Nat.add_succ_r).
      rewrite (IH rem (i + 1) w1); try lia.
      - rewrite Ix. unfold w1. rewrite !after_one_attempt. reflexivity.
      - intros j Hj. rewrite Ix. apply Hr. lia.
      - rewrite Ix. destruct Hs as [Hs|Hs]; [now left | right; lia]. }
    destruct (execute w (ncalls w)) as [data|status|]; try discriminate.
    + simpl in R0. rewrite Lt, R0. exact Next.
    + rewrite Lt. exact Next.
Qed.

(** X3.  When the first [k] attempts of a batch update (with [k] at most
    four) fail with a timeout or an HttpError 500 or 503 and the next one
    returns, the batch update returns that response after exactly [k + 1]
    attempts and logs nothing. *)
Theorem batch_update_retries_until_success (document_id body data : pyval)
    (w : world) (k : nat) :
  (k < 5)%nat ->
  (forall j, (j < k)%nat -> retryable (execute w (ncalls w + j)) = true) ->
  execute w (ncalls w + k) = ApiReturn data ->
  GoogleSheets.batch_update document_id body w
  = (data, after_attempts w document_id body (S k) [])
  /\ GoogleDocs.batch_update document_id body w
     = (data, after_attempts w document_id body (S k) []).
Proof.
  intros Hk Hr Hd. unfold GoogleSheets.batch_update, GoogleDocs.batch_update.
  change (Z.to_nat RETRIES) with 5%nat.
  assert (Hs : retryable (execute w (ncalls w + k)) = false \/ S k = 5%nat)
    by (left; now rewrite Hd).
  split.
  - rewrite (batch_update_from_ends _ document_id body k 5 0 w Hk eq_refl Hr Hs).
    now rewrite Hd.
  - rewrite (batch_update_from_ends _ document_id body k 5 0 w Hk eq_refl Hr Hs).
    now rewrite Hd.
Qed.

Lemma batch_update_retries_until_success_witness :
  (forall j, (j < 2)%nat ->
     retryable (match j with
                | O => ApiTimeoutError
                | S O => ApiHttpError 503
                | _ => ApiReturn reply_plain
                end) = true)
  /\ fst (GoogleSheets.batch_update (PStr "1BxiMVs0XRA5") (PDict [])
            {| execute := fun j => match j with
                                   | O => ApiTimeoutError
                                   | S O => ApiHttpError 503
                                   | _ => ApiReturn reply_plain
                                   end;
               ncalls := O; trace := []; logs_dir := false |})
     = reply_plain.
Proof.
  assert (H : forall j, (j < 2)%nat ->
     retryable (match j with
                | O => ApiTimeoutError
                | S O => ApiHttpError 503
                | _ => ApiReturn reply_plain
                end) = true)
    by (intros [|[|j]] Hj; [reflexivity | reflexivity | lia]).
  split; [exact H|].
  rewrite (proj1 (batch_update_retries_until_success (PStr "1BxiMVs0XRA5") (PDict [])
                    reply_plain
                    {| execute := fun j => match j with
                                           | O => ApiTimeoutError
                                           | S O => ApiHttpError 503
                                           | _ => ApiReturn reply_plain
                                           end;
                       ncalls := O; trace := []; logs_dir := false |} 2 ltac:(lia) H eq_refl)).
  reflexivity.
Defined.

(** X4.  A batch update gives up at the first error that is neither a
    timeout nor an HttpError 500 or 503, and at the fifth error whatever
    it is: it then returns nothing, having made no further attempt, and
    logs one error line. *)
Theorem batch_update_gives_up (document_id body : pyval) (w : world) (k : nat) :
  (k < 5)%nat ->
  (forall j, (j < k)%nat -> retryable (execute w (ncalls w + j)) = true) ->
  is_api_error (execute w (ncalls w + k)) = true ->
  retryable (execute w (ncalls w + k)) = false \/ k = 4%nat ->
  GoogleSheets.batch_update document_id body w
  = (PNone, after_attempts w document_id body (S k)
              [Log ERROR "Google sheets batch update request API error: %s"])
  /\ GoogleDocs.batch_update document_id body w
     = (PNone, after_attempts w document_id body (S k)
                 [Log ERROR "Google Docs batchUpdate API error: %s"]).
Proof.
  intros Hk Hr He Hs. unfold GoogleSheets.batch_update, GoogleDocs.batch_update.
  change (Z.to_nat RETRIES) with 5%nat.
  assert (Hs' : retryable (execute w (ncalls w + k)) = false \/ S k = 5%nat)
    by (destruct Hs as [Hs|Hs]; [now left | right; subst k; reflexivity]).
  split.
  - rewrite (batch_update_from_ends _ document_id body k 5 0 w Hk eq_refl Hr Hs').
    destruct (execute w (ncalls w + k)); [discriminate | reflexivity | reflexivity].
  - rewrite (batch_update_from_ends _ document_id body k 5 0 w Hk eq_refl Hr Hs').
    destruct (execute w (ncalls w + k)); [discriminate | reflexivity | reflexivity].
Qed.

Lemma batch_update_gives_up_witness :
  (forall j, (j < 1)%nat ->
     retryable (match j with O => ApiHttpError 500 | _ => ApiHttpError 404 end) = true)
  /\ GoogleDocs.batch_update (PStr "doc-195j9e") (PDict [])
       {| execute := fun j => match j with
                              | O => ApiHttpError 500
                              | _ => ApiHttpError 404
                              end;
          ncalls := O; trace := []; logs_dir := false |}
     = (PNone,
        {| execute := fun j => match j with
                               | O => ApiHttpError 500
                               | _ => ApiHttpError 404
                               end;
           ncalls := 2;
           trace := [BatchUpdate (PStr "doc-195j9e") (PDict []);
                     BatchUpdate (PStr "doc-195j9e") (PDict []);
                     Log ERROR "Google Docs batchUpdate API error: %s"];
           logs_dir := false |}).
Proof.
  assert (H : forall j, (j < 1)%nat ->
     retryable (match j with O => ApiHttpError 500 | _ => ApiHttpError 404 end) = true)
    by (intros [|j] Hj; [reflexivity | lia]).
  split; [exact H|].
  rewrite (proj2 (batch_update_gives_up (PStr "doc-195j9e") (PDict [])
                    {| execute := fun j => match j with
                                           | O => ApiHttpError 500
                                           | _ => ApiHttpError 404
                                           end;
                       ncalls := O; trace := []; logs_dir := false |} 1 ltac:(lia) H eq_refl
                    (or_introl eq_refl))).
  reflexivity.
Defined.

End Retries.

(** * Further properties: staging and committing *)

Section Staging.

Import GoogleApi.

Lemma sheet_set_requests_same (self : GoogleSheets.Sheet) :
  GoogleSheets.set_requests (GoogleSheets.requests self ++ [])%list self = self.
Proof. destruct self. unfold GoogleSheets.set_requests. simpl. now rewrite app_nil_r. Qed.

Ltac stages_none :=
  exists []; split; [reflexivity | symmetry; apply sheet_set_requests_same].

Lemma stage_appends (call : staging) (self : GoogleSheets.Sheet) :
  exists q,
    List.length q = (if stages_nothing call then 0 else 1)%nat
    /\ stage call self
       = GoogleSheets.set_requests (GoogleSheets.requests self ++ q)%list self.
Proof.
  destruct call; cbn [stage stages_nothing];
    unfold GoogleSheets.insert_rows, GoogleSheets.delete_rows,
      GoogleSheets.delete_columns, GoogleSheets.insert_column,
      GoogleSheets.set_row_height, GoogleSheets.set_column_width,
      GoogleSheets.set_rows_hidden, GoogleSheets.set_columns_hidden,
      GoogleSheets.merge_cells, GoogleSheets.set_value, GoogleSheets.set_values,
      GoogleSheets.mass_set_value, GoogleSheets.set_horizontal_alignment,
      GoogleSheets.set_vertical_alignment, GoogleSheets.set_background_colour,
      GoogleSheets.set_wrap_strategy, GoogleSheets.set_data_validation,
      GoogleSheets.set_number_format, GoogleSheets.add_hide_box,
      GoogleSheets.set_borders, GoogleSheets.set_text_format,
      GoogleSheets.set_link_sets, GoogleSheets.replace_cells,
      GoogleSheets._dimension_properties_request, GoogleSheets._cells_request,
      GoogleSheets.append_request;
    try (destruct (number <? 1); [stages_none|]);
    try (destruct kwargs; [stages_none|]);
    try (destruct (GoogleSheets.link_rows link_set_array); cbn [snd]; [|stages_none]);
    try (destruct (GoogleSheets.replace_rows _ _ _); cbn [snd]; [|stages_none]);
    eexists [_]; split; reflexivity.
Qed.

Lemma stage_raise_keeps (call : staging) (self : GoogleSheets.Sheet) (e : exn) :
  stage_result call self = Raise e ->
  stages_nothing call = true /\ stage call self = self.
Proof.
  destruct call; cbn [stage_result stage stages_nothing]; try discriminate;
    unfold GoogleSheets.set_link_sets, GoogleSheets.replace_cells.
  - destruct (GoogleSheets.link_rows link_set_array); cbn [fst snd];
      [discriminate | split; reflexivity].
  - destruct (GoogleSheets.replace_rows _ _ _); cbn [fst snd];
      [discriminate | split; reflexivity].
Qed.

(** X5.  The staging methods of a Sheet (all twenty-three), of a
    Spreadsheet and of a Document touch nothing but the queue, and only
    its end: each puts exactly one request behind those already staged,
    except that an insertion or deletion of fewer than one row or column
    and [set_text_format] without keyword arguments stage none, and that
    [set_link_sets] and [replace_cells], the two that can raise, leave
    the proxy as it was when they do.  They take no part of the outside
    world and so send nothing. *)
Theorem staging_only_queues :
  (forall call self,
      exists q,
        List.length q = (if stages_nothing call then 0 else 1)%nat
        /\ stage call self
           = GoogleSheets.set_requests (GoogleSheets.requests self ++ q)%list self)
  /\ (forall call self e,
      stage_result call self = Raise e ->
      stages_nothing call = true /\ stage call self = self)
  /\ (forall call self,
      exists r,
        stage_tab call self
        = Spreadsheet.set_requests (Spreadsheet.requests self ++ [r])%list self)
  /\ (forall find replace self,
      exists r,
        GoogleDocs.replace_all_text find replace self
        = {| GoogleDocs.document_id := GoogleDocs.document_id self;
             GoogleDocs.json := GoogleDocs.json self;
             GoogleDocs.requests := (GoogleDocs.requests self ++ [r])%list |}).
Proof.
  split; [exact stage_appends|split; [exact stage_raise_keeps|split]].
  - intros call self. destruct call; cbn [stage_tab]; eexists; reflexivity.
  - intros find replace self. eexists. reflexivity.
Qed.

Lemma staging_only_queues_witness :
  stage_result (ReplaceCells two_rows [PList [PDict []]]) sample_sheet = Raise IndexError
  /\ stages_nothing (ReplaceCells two_rows [PList [PDict []]]) = true
  /\ stage (ReplaceCells two_rows [PList [PDict []]]) sample_sheet = sample_sheet.
Proof.
  split; [reflexivity|].
  exact (proj1 (proj2 staging_only_queues)
           (ReplaceCells two_rows [PList [PDict []]]) sample_sheet IndexError eq_refl).
Defined.

Lemma stages_extend (calls : list staging) :
  forall self, exists qs,
    GoogleSheets.requests (fold_left (fun s c => stage c s) calls self)
    = (GoogleSheets.requests self ++ qs)%list.
Proof.
  induction calls as [|c calls IH]; intros self; simpl.
  - exists []. now rewrite app_nil_r.
  - destruct (IH (stage c self)) as (qs & E).
    destruct (stage_appends c self) as (q & _ & Eq).
    exists (q ++ qs)%list. rewrite E, Eq. simpl. now rewrite app_assoc.
Qed.

Lemma no_batch_app (a b : list event) :
  existsb is_batch_update (a ++ b)%list
  = existsb is_batch_update a || existsb is_batch_update b.
Proof. apply existsb_app. Qed.

Lemma sheets_attempts (document_id body : pyval) (w : world) :
  exists n tail,
    (1 <= n <= 5)%nat
    /\ snd (GoogleSheets.batch_update document_id body w)
       = after_attempts w document_id body n tail
    /\ existsb is_batch_update tail = false.
Proof.
  destruct (batch_update_from_bounded
              "Google sheets batch update request API error: %s"
              document_id body 5 0 w) as (n & tail & H1 & H2 & H3 & H4).
  exists n, tail. repeat split; try lia; [exact H3|].
  destruct H4 as [->|[-> _]]; reflexivity.
Qed.

Lemma docs_attempts (document_id body : pyval) (w : world) :
  exists n tail,
    (1 <= n <= 5)%nat
    /\ snd (GoogleDocs.batch_update document_id body w)
       = after_attempts w document_id body n tail
    /\ existsb is_batch_update tail = false.
Proof.
  destruct (batch_update_from_bounded "Google Docs batchUpdate API error: %s"
              document_id body 5 0 w) as (n & tail & H1 & H2 & H3 & H4).
  exists n, tail. repeat split; try lia; [exact H3|].
  destruct H4 as [->|[-> _]]; reflexivity.
Qed.

(** X6.  A commit with a non-empty queue starts the service and then
    sends, between one and five times, one and the same batch update
    whose [requests] entry is the queue as it stands, in staging order;
    nothing else it leaves behind is a batch update.  Staging more calls
    never moves or drops a request already in the queue. *)
Theorem commit_sends_queue_in_order :
  (forall update self w,
      GoogleSheets.requests self <> [] ->
      exists n tail,
        (1 <= n <= 5)%nat
        /\ trace (snd (GoogleSheets.commit_changes update self w))
           = (trace w
              ++ StartService "sheets"
                 :: repeat (BatchUpdate (GoogleSheets.spreadsheet_id self)
                              (GoogleSheets.request_object update self)) n
              ++ tail)%list
        /\ existsb is_batch_update tail = false
        /\ getitem (GoogleSheets.request_object update self) "requests"
           = Ok (PList (GoogleSheets.requests self)))
  /\ (forall self w,
      GoogleDocs.requests self <> [] ->
      exists n tail,
        (1 <= n <= 5)%nat
        /\ trace (snd (GoogleDocs.commit_changes self w))
           = (trace w
              ++ StartService "docs"
                 :: repeat (BatchUpdate (GoogleDocs.document_id self)
                              (GoogleDocs.body self)) n
              ++ tail)%list
        /\ existsb is_batch_update tail = false
        /\ getitem (GoogleDocs.body self) "requests"
           = Ok (PList (GoogleDocs.requests self)))
  /\ (forall calls self,
      exists qs,
        GoogleSheets.requests (fold_left (fun s c => stage c s) calls self)
        = (GoogleSheets.requests self ++ qs)%list).
Proof.
  split; [|split].
  - intros update self w Hq. unfold GoogleSheets.commit_changes.
    rewrite (queue_length_pos _ Hq).
    destruct (sheets_attempts (GoogleSheets.spreadsheet_id self)
                (GoogleSheets.request_object update self)
                (GoogleSheets.start_service w)) as (n & tail & Hn & Hw & Ht).
    destruct (GoogleSheets.batch_update _ _ _) as [preload w1]. simpl in Hw. subst w1.
    destruct (negb (truthy preload)).
    + unfold Files.log_json. destruct (negb (logs_dir _)).
      * exists n, (tail ++ [Log ERROR
                              "Could not commit changes to %s due to API error."])%list.
        split; [exact Hn|]. split; [|split; [|reflexivity]].
        -- simpl. repeat rewrite <- app_assoc. simpl. repeat rewrite <- app_assoc.
           reflexivity.
        -- rewrite no_batch_app, Ht. reflexivity.
      * exists n, (tail ++ [Log ERROR "Could not commit changes to %s due to API error.";
                            FileWrite "failed_sheets_calls/"
                              (PList (GoogleSheets.requests self))])%list.
        split; [exact Hn|]. split; [|split; [|reflexivity]].
        -- destruct (Files.json_serializable _); simpl; repeat rewrite <- app_assoc;
             simpl; repeat rewrite <- app_assoc; reflexivity.
        -- rewrite no_batch_app, Ht. reflexivity.
    + assert (K : trace (after_attempts (GoogleSheets.start_service w)
                           (GoogleSheets.spreadsheet_id self)
                           (GoogleSheets.request_object update self) n tail)
                  = (trace w
                     ++ StartService "sheets"
                        :: repeat (BatchUpdate (GoogleSheets.spreadsheet_id self)
                                     (GoogleSheets.request_object update self)) n
                     ++ tail)%list)
        by (simpl; now rewrite <- app_assoc).
      exists n, tail. split; [exact Hn|]. split; [|split; [exact Ht | reflexivity]].
      destruct update; [|exact K].
      destruct ((p <~ st_eval (getitem preload "updatedSpreadsheet");;
                 GoogleSheets.reload p) self) as [[u|e] self']; exact K.
  - intros self w Hq. unfold GoogleDocs.commit_changes.
    assert (T : negb (truthy (PList (GoogleDocs.requests self))) = false)
      by (destruct (GoogleDocs.requests self); [congruence | reflexivity]).
    rewrite T.
    destruct (docs_attempts (GoogleDocs.document_id self) (GoogleDocs.body self)
                (GoogleDocs.start_service w)) as (n & tail & Hn & Hw & Ht).
    destruct (GoogleDocs.batch_update _ _ _) as [preload w1]. simpl in Hw. subst w1.
    destruct (negb (truthy preload)).
    + exists n, (tail ++ [Log ERROR
                            "Could not commit changes to document %s due to API error."])%list.
      split; [exact Hn|]. split; [|split; [|reflexivity]].
      * simpl. repeat rewrite <- app_assoc. simpl. repeat rewrite <- app_assoc.
        reflexivity.
      * rewrite no_batch_app, Ht. reflexivity.
    + exists n, tail. split; [exact Hn|]. split; [|split; [exact Ht | reflexivity]].
      simpl. now rewrite <- app_assoc.
  - exact stages_extend.
Qed.

Lemma commit_sends_queue_in_order_witness :
  GoogleSheets.requests
    (stage (SetValue 0 0 (PStr "=SUM(B:B)")) (stage (InsertRows 0 2) sample_sheet))
  <> []
  /\ exists n tail,
       (1 <= n <= 5)%nat
       /\ trace (snd (GoogleSheets.commit_changes false
                        (stage (SetValue 0 0 (PStr "=SUM(B:B)"))
                           (stage (InsertRows 0 2) sample_sheet))
                        (always (ApiReturn reply_plain))))
          = (StartService "sheets"
             :: repeat (BatchUpdate (PStr "1BxiMVs0XRA5")
                          (GoogleSheets.request_object false
                             (stage (SetValue 0 0 (PStr "=SUM(B:B)"))
                                (stage (InsertRows 0 2) sample_sheet)))) n
             ++ tail)%list.
Proof.
  assert (Q : GoogleSheets.requests
                (stage (SetValue 0 0 (PStr "=SUM(B:B)"))
                   (stage (InsertRows 0 2) sample_sheet)) <> [])
    by (vm_compute; discriminate).
  split; [exact Q|].
  destruct (proj1 commit_sends_queue_in_order false _ (always (ApiReturn reply_plain)) Q)
    as (n & tail & Hn & Ht & _).
  exists n, tail. split; [exact Hn | exact Ht].
Defined.

End Staging.

(** * Further properties: values written and read, snapshots loaded *)

Section Snapshots.

(** X7.  What [set_value] writes is what [get_value] reads.
    [set_value(row, column, value)] puts one [updateCells] request at the
    end of the queue: it starts at [(row, column)] of this tab, has the
    field mask [userEnteredValue], and its one cell holds the object
    [value_to_object] makes of the value.  On any snapshot whose cell at
    [(row, column)] carries that object as [userEnteredValue] (the
    service that applies the request is outside the program),
    [get_value] returns that very value, be it a boolean, a number, a
    formula or a plain string, and [None] when the value has no
    classification (the empty string among them). *)
Theorem written_value_reads_back (self snapshot : GoogleSheets.Sheet) (row column : Z)
    (value : pyval) (d : list (string * pyval)) :
  GoogleSheets.cell_at snapshot row column = Ok (PDict d) ->
  assoc "userEnteredValue" d = Some (GoogleSheets.value_to_object value) ->
  GoogleSheets.set_value row column value self
  = GoogleSheets.set_requests
      (GoogleSheets.requests self ++
       [PDict
          [("updateCells",
            PDict
              [("rows",
                PList
                  [PDict
                     [("values",
                       PList
                         [PDict [("userEnteredValue",
                                  GoogleSheets.value_to_object value)]])]]);
               ("fields", PStr "userEnteredValue");
               ("start",
                PDict [("sheetId", GoogleSheets.sheet_id self);
                       ("rowIndex", PInt row);
                       ("columnIndex", PInt column)])])]])%list
      self
  /\ GoogleSheets.get_value snapshot row column
     = Ok (match GoogleSheets.value_to_object value with
           | PNone => PNone
           | _ => value
           end).
Proof.
  intros C A. split; [reflexivity|].
  assert (V : dict_get "userEnteredValue" (dict_get "effectiveValue" PNone d) d
              = GoogleSheets.value_to_object value)
    by (unfold dict_get at 1; now rewrite A).
  unfold GoogleSheets.get_value. rewrite C. cbn [Py.bind Py.get].
  rewrite V. unfold GoogleSheets.catch_IndexError.
  destruct value as [| b | z | f | s | s | l | x]; try reflexivity.
  destruct s as [|c s]; [reflexivity|]. simpl.
  destruct (Ascii.eqb c "="); reflexivity.
Qed.

Lemma written_value_reads_back_witness :
  GoogleSheets.cell_at sample_sheet 0 0
  = Ok (PDict [("userEnteredValue", GoogleSheets.value_to_object (PInt 5));
               ("formattedValue", PStr "5")])
  /\ GoogleSheets.requests (GoogleSheets.set_value 0 0 (PInt 5) sample_sheet)
     = (GoogleSheets.requests sample_sheet ++
        [PDict
           [("updateCells",
             PDict
               [("rows",
                 PList
                   [PDict
                      [("values",
                        PList [PDict [("userEnteredValue",
                                       PDict [("numberValue", PInt 5)])]])]]);
                ("fields", PStr "userEnteredValue");
                ("start",
                 PDict [("sheetId", GoogleSheets.sheet_id sample_sheet);
                        ("rowIndex", PInt 0);
                        ("columnIndex", PInt 0)])])]])%list
  /\ GoogleSheets.get_value sample_sheet 0 0 = Ok (PInt 5).
Proof.
  assert (C : GoogleSheets.cell_at sample_sheet 0 0
              = Ok (PDict [("userEnteredValue", GoogleSheets.value_to_object (PInt 5));
                           ("formattedValue", PStr "5")]))
    by (vm_compute; reflexivity).
  split; [exact C|].
  split.
  - exact (f_equal GoogleSheets.requests
             (proj1 (written_value_reads_back sample_sheet sample_sheet 0 0 (PInt 5)
                       _ C eq_refl))).
  - exact (proj2 (written_value_reads_back sample_sheet sample_sheet 0 0 (PInt 5)
                    _ C eq_refl)).
Defined.

Lemma list_index_nth {A} (l : list A) (p : nat) (x : A) :
  nth_error l p = Some x -> list_index l (Z.of_nat p) = Ok x.
Proof.
  intros H. unfold list_index.
  assert (L : (p < List.length l)%nat) by (apply nth_error_Some; congruence).
  replace (Z.of_nat p <? 0) with false by (symmetry; apply Z.ltb_ge; lia).
  replace ((Z.of_nat p <? 0) || (Z.of_nat (List.length l) <=? Z.of_nat p)) with false.
  - now rewrite Nat2Z.id, H.
  - symmetry. apply orb_false_iff. split; [apply Z.ltb_ge | apply Z.leb_gt]; lia.
Qed.

Lemma list_index_past {A} (l : list A) (p : nat) :
  (List.length l <= p)%nat -> list_index l (Z.of_nat p) = Raise IndexError.
Proof.
  intros H. apply list_index_range. unfold python_in_range.
  apply andb_false_iff. right. apply Z.ltb_ge. lia.
Qed.

Lemma replace_rows_within (count : nat) :
  forall p defs,
    (p + count <= List.length defs)%nat ->
    GoogleSheets.replace_rows count (Z.of_nat p) defs
    = Ok (map (fun d => PDict [("values", d)]) (firstn count (skipn p defs))).
Proof.
  induction count as [|count IH]; intros p defs H; simpl; [reflexivity|].
  destruct (nth_error defs p) as [x|] eqn:N;
    [|apply nth_error_None in N; lia].
  rewrite (list_index_nth _ _ _ N). simpl.
  replace (Z.of_nat p + 1) with (Z.of_nat (S p)) by lia.
  rewrite IH by lia. simpl.
  assert (S : skipn p defs = x :: skipn (S p) defs).
  { clear - N. revert defs N. induction p as [|p IHp]; intros [|y defs] N;
      try discriminate; simpl in *.
    - now inversion N.
    - now apply IHp. }
  now rewrite S.
Qed.

Lemma replace_rows_past (count : nat) :
  forall p defs,
    (p <= List.length defs)%nat ->
    (List.length defs < p + count)%nat ->
    GoogleSheets.replace_rows count (Z.of_nat p) defs = Raise IndexError.
Proof.
  induction count as [|count IH]; intros p defs Hp H; simpl; [lia|].
  destruct (nth_error defs p) as [x|] eqn:N.
  - rewrite (list_index_nth _ _ _ N). simpl.
    replace (Z.of_nat p + 1) with (Z.of_nat (S p)) by lia.
    assert (L : (p < List.length defs)%nat) by (apply nth_error_Some; congruence).
    rewrite IH by lia. reflexivity.
  - apply nth_error_None in N. now rewrite list_index_past.
Qed.

(** X8.  [replace_cells] stages one row per row of the range, taken from
    the front of [cell_definitions], when there are enough of them; when
    the range is deeper than [cell_definitions] is long it raises
    IndexError and stages nothing. *)
Theorem replace_cells_bounds (cell_range : GoogleSheets.CellRange)
    (cell_definitions : list pyval) (self : GoogleSheets.Sheet) :
  ((Z.to_nat (GoogleSheets.depth cell_range) <= List.length cell_definitions)%nat ->
   GoogleSheets.replace_cells cell_range cell_definitions self
   = (Ok tt,
      GoogleSheets._cells_request (GoogleSheets.start_row cell_range)
        (GoogleSheets.start_column cell_range)
        (map (fun d => PDict [("values", d)])
           (firstn (Z.to_nat (GoogleSheets.depth cell_range)) cell_definitions))
        "*" self))
  /\ ((List.length cell_definitions < Z.to_nat (GoogleSheets.depth cell_range))%nat ->
      GoogleSheets.replace_cells cell_range cell_definitions self
      = (Raise IndexError, self)).
Proof.
  unfold GoogleSheets.replace_cells. split; intros H.
  - pose proof (replace_rows_within _ O cell_definitions H) as E.
    change (Z.of_nat 0) with 0 in E. now rewrite E.
  - pose proof (replace_rows_past _ O cell_definitions (Nat.le_0_l _) H) as E.
    change (Z.of_nat 0) with 0 in E. now rewrite E.
Qed.

Lemma replace_cells_bounds_witness :
  (List.length [PList [PDict []]] < Z.to_nat 2)%nat
  /\ GoogleSheets.replace_cells
       {| GoogleSheets.start_row := 0; GoogleSheets.start_column := 0;
          GoogleSheets.depth := 2; GoogleSheets.range_width := 1 |}
       [PList [PDict []]] sample_sheet
     = (Raise IndexError, sample_sheet).
Proof.
  assert (H : (List.length [PList [PDict []]] < Z.to_nat 2)%nat) by (simpl; lia).
  split; [exact H|].
  exact (proj2 (replace_cells_bounds
                  {| GoogleSheets.start_row := 0; GoogleSheets.start_column := 0;
                     GoogleSheets.depth := 2; GoogleSheets.range_width := 1 |}
                  [PList [PDict []]] sample_sheet) H).
Defined.

Lemma blank_row_empty_cells (ca : list (list pyval)) :
  Forall (fun c => c = PDict []) (GoogleSheets.blank_row ca).
Proof.
  unfold GoogleSheets.blank_row. destruct ca as [|first ca].
  - repeat constructor.
  - apply Forall_forall. intros c H. now apply repeat_spec in H.
Qed.

Lemma load_rows_shape (tw : bool) (rows : list pyval) :
  forall s s',
    GoogleSheets.load_rows tw rows s = (Ok tt, s') ->
    exists new,
      GoogleSheets.cell_array s' = (GoogleSheets.cell_array s ++ new)%list
      /\ Forall2 row_loaded rows new
      /\ GoogleSheets.json s' = GoogleSheets.json s
      /\ (tw = false -> GoogleSheets.width s' = GoogleSheets.width s).
Proof.
  induction rows as [|row rows IH]; intros s s' H.
  - inversion H. exists []. rewrite app_nil_r. repeat split. constructor.
  - simpl in H. unfold st_bind, st_eval, st_read, st_assign, st_ret in H.
    destruct row as [| b | z | f | x | x | l | d]; try discriminate H.
    cbn [keys] in H. unfold has_key in H.
    destruct (assoc "values" d) as [v|] eqn:V; cbn [negb] in H.
    + cbn [getitem Py.bind] in H. rewrite V in H. cbn [Py.bind] in H.
      destruct tw.
      * destruct (GoogleSheets.len v) as [n|e]; [|discriminate H].
        destruct (iter v) as [nr|e] eqn:I; [|discriminate H].
        apply IH in H. destruct H as (new & Hc & Hf & Hj & Hw).
        exists (nr :: new). simpl in Hc, Hj. rewrite Hc, <- app_assoc.
        repeat split; auto; try discriminate.
        constructor; [|exact Hf]. simpl. now rewrite V.
      * destruct (iter v) as [nr|e] eqn:I; [|discriminate H].
        apply IH in H. destruct H as (new & Hc & Hf & Hj & Hw).
        exists (nr :: new). simpl in Hc, Hj, Hw. rewrite Hc, <- app_assoc.
        repeat split; auto.
        constructor; [|exact Hf]. simpl. now rewrite V.
    + apply IH in H. destruct H as (new & Hc & Hf & Hj & Hw).
      exists (GoogleSheets.blank_row (GoogleSheets.cell_array s) :: new).
      simpl in Hc, Hj, Hw. rewrite Hc, <- app_assoc.
      repeat split; auto.
      constructor; [|exact Hf]. simpl. rewrite V. apply blank_row_empty_cells.
Qed.

Lemma load_grid_shape (tw : bool) (s s' : GoogleSheets.Sheet) :
  GoogleSheets.load_grid tw s = (Ok tt, s') ->
  GoogleSheets.cell_array s = [] ->
  grid_loaded (GoogleSheets.json s) (GoogleSheets.cell_array s')
  /\ GoogleSheets.json s' = GoogleSheets.json s
  /\ (tw = false -> GoogleSheets.width s' = GoogleSheets.width s).
Proof.
  intros H E. unfold GoogleSheets.load_grid in H.
  unfold st_bind, st_eval, st_read, st_ret in H.
  destruct (GoogleSheets.sheet0_data0 (GoogleSheets.json s)) as [d0|e] eqn:D;
    [|discriminate H].
  destruct d0 as [| b | z | f | x | x | l | d]; try discriminate H.
  cbn [Py.bind keys getitem] in H. unfold has_key in H.
  destruct (assoc "rowData" d) as [r|] eqn:R; cbn [negb] in H.
  - cbn [Py.bind] in H. destruct (iter r) as [rows|e] eqn:I; [|discriminate H].
    apply load_rows_shape in H. destruct H as (new & Hc & Hf & Hj & Hw).
    rewrite E in Hc. simpl in Hc.
    split; [|split; assumption].
    exists d. split; [exact D|]. rewrite R. exists rows. rewrite Hc. auto.
  - inversion H; subst s'. split; [|split; auto].
    exists d. split; [exact D|]. now rewrite R.
Qed.

(** X9.  A snapshot is the [rowData] of the first tab, row by row.  When
    [Sheet.__init__] (asked for the data) or [Sheet.reload] returns, the
    queue is empty, [json] is the payload given, and the grid has one row
    per [rowData] entry in order: the items of its [values], or a row of
    empty cells where it has none (no rows at all where [rowData] is
    absent).  [reload] leaves [width] as it was. *)
Theorem snapshot_is_row_data :
  (forall preload self,
      GoogleSheets.init preload true = Ok self ->
      GoogleSheets.requests self = []
      /\ GoogleSheets.json self = preload
      /\ grid_loaded preload (GoogleSheets.cell_array self))
  /\ (forall preload before self,
      GoogleSheets.reload preload before = (Ok tt, self) ->
      GoogleSheets.requests self = []
      /\ GoogleSheets.json self = preload
      /\ GoogleSheets.width self = GoogleSheets.width before
      /\ grid_loaded preload (GoogleSheets.cell_array self)).
Proof.
  split.
  - intros preload self H. unfold GoogleSheets.init in H.
    destruct (GoogleSheets.init_body preload true GoogleSheets.blank)
      as [[u|e] s1] eqn:B; [|discriminate H].
    inversion H; subst s1. clear H. destruct u.
    unfold GoogleSheets.init_body, st_bind, st_eval, st_assign in B.
    destruct (getitem preload "spreadsheetId") as [sid|e]; [|discriminate B].
    destruct (GoogleSheets.sheet0_property preload "sheetId") as [i|e];
      [|discriminate B].
    destruct (GoogleSheets.sheet0_property preload "title") as [n|e];
      [|discriminate B].
    pose proof (load_grid_keeps_requests _ _ _ _ B) as Q.
    apply load_grid_shape in B; [|reflexivity].
    destruct B as (G & J & _). simpl in G, J, Q. auto.
  - intros preload before self H.
    unfold GoogleSheets.reload, st_bind, st_eval, st_assign in H.
    destruct (getitem preload "spreadsheetId") as [sid|e]; [|discriminate H].
    destruct (GoogleSheets.sheet0_property preload "sheetId") as [i|e];
      [|discriminate H].
    destruct (GoogleSheets.sheet0_property preload "title") as [n|e];
      [|discriminate H].
    pose proof (load_grid_keeps_requests _ _ _ _ H) as Q.
    apply load_grid_shape in H; [|reflexivity].
    destruct H as (G & J & W). simpl in G, J, Q, W. auto.
Qed.

Lemma snapshot_is_row_data_witness :
  GoogleSheets.init sample_preload true
  = Ok (GoogleSheets.set_requests [] sample_sheet)
  /\ grid_loaded sample_preload
       (GoogleSheets.cell_array (GoogleSheets.set_requests [] sample_sheet)).
Proof.
  assert (H : GoogleSheets.init sample_preload true
              = Ok (GoogleSheets.set_requests [] sample_sheet))
    by (vm_compute; reflexivity).
  split; [exact H|].
  exact (proj2 (proj2 (proj1 snapshot_is_row_data _ _ H))).
Defined.

Lemma empty_cell_ok : cell_ok (PDict []) = true.
Proof. reflexivity. Qed.

Lemma loaded_rows_ok (rows : list pyval) :
  forall ca,
    Forall2 row_loaded rows ca -> api_rows rows = true -> grid_ok ca = true.
Proof.
  induction rows as [|row rows IH]; intros ca F A; inversion F; subst;
    [reflexivity|].
  simpl in A. apply andb_true_iff in A as [Ar Arest].
  unfold grid_ok. simpl. apply andb_true_iff. split; [|now apply IH].
  destruct row as [| b | z | f | x | x | l0 | d]; try discriminate Ar.
  match goal with H : row_loaded _ _ |- _ => simpl in H; rename H into R end.
  destruct (assoc "values" d) as [v|].
  - destruct v; try discriminate Ar. simpl in R. inversion R; subst. exact Ar.
  - apply forallb_forall. intros c Hc.
    rewrite Forall_forall in R. rewrite (R c Hc). reflexivity.
Qed.

Lemma loaded_grid_ok (preload : pyval) (ca : list (list pyval)) :
  grid_loaded preload ca -> api_rows (row_data preload) = true -> grid_ok ca = true.
Proof.
  intros (d & D & G) A. unfold row_data in A. rewrite D in A.
  destruct (assoc "rowData" d) as [r|]; [|now subst ca].
  destruct G as (rows & I & F).
  destruct r as [| b | z | f | x | x | l | d0]; try discriminate I;
    simpl in I; inversion I; subst rows.
  - destruct x as [|c x]; inversion F; subst; [reflexivity|].
    match goal with H : row_loaded _ _ |- _ => now simpl in H end.
  - destruct x as [|c x]; inversion F; subst; [reflexivity|].
    match goal with H : row_loaded _ _ |- _ => now simpl in H end.
  - now apply (loaded_rows_ok l).
  - destruct d0 as [|[k v] d0]; inversion F; subst; [reflexivity|].
    match goal with H : row_loaded _ _ |- _ => now simpl in H end.
Qed.

(** X10.  A snapshot loaded from rows of API cells can be read anywhere:
    when [Sheet.__init__] returns on a payload whose [rowData] entries
    are objects with lists of cell objects as [values], [get_value] and
    [get_formatted_value] return (a value or [None]) for every row and
    column, never raising. *)
Theorem loaded_snapshot_is_readable (preload : pyval) (self : GoogleSheets.Sheet)
    (row column : Z) :
  GoogleSheets.init preload true = Ok self ->
  api_rows (row_data preload) = true ->
  (exists v, GoogleSheets.get_value self row column = Ok v)
  /\ (exists v, GoogleSheets.get_formatted_value self row column = Ok v).
Proof.
  intros H A.
  assert (G : grid_ok (GoogleSheets.cell_array self) = true).
  { apply (loaded_grid_ok preload); [|exact A].
    unfold GoogleSheets.init in H.
    destruct (GoogleSheets.init_body preload true GoogleSheets.blank)
      as [[u|e] s1] eqn:B; [|discriminate H].
    inversion H; subst s1. clear H. destruct u.
    unfold GoogleSheets.init_body, st_bind, st_eval, st_assign in B.
    destruct (getitem preload "spreadsheetId") as [sid|e]; [|discriminate B].
    destruct (GoogleSheets.sheet0_property preload "sheetId") as [i|e];
      [|discriminate B].
    destruct (GoogleSheets.sheet0_property preload "title") as [n|e];
      [|discriminate B].
    apply load_grid_shape in B; [|reflexivity]. now destruct B as (G & _). }
  split; [now apply get_value_returns | now apply get_formatted_value_returns].
Qed.

Lemma loaded_snapshot_is_readable_witness :
  GoogleSheets.init sample_preload true
  = Ok (GoogleSheets.set_requests [] sample_sheet)
  /\ api_rows (row_data sample_preload) = true
  /\ exists v, GoogleSheets.get_value (GoogleSheets.set_requests [] sample_sheet) 7 (-3)
              = Ok v.
Proof.
  assert (H : GoogleSheets.init sample_preload true
              = Ok (GoogleSheets.set_requests [] sample_sheet))
    by (vm_compute; reflexivity).
  assert (A : api_rows (row_data sample_preload) = true) by (vm_compute; reflexivity).
  split; [exact H|]. split; [exact A|].
  exact (proj1 (loaded_snapshot_is_readable _ _ 7 (-3) H A)).
Defined.

End Snapshots.

(** * Further properties: what a request sends and returns *)

Section RequestEvents.

Lemma log_messages_only_logs (msgs : list pyval) :
  forallb is_log (snd (ApiClient.log_messages msgs)) = true.
Proof.
  induction msgs as [|m msgs IH]; simpl; [reflexivity|].
  destruct (Py.get m "type" PNone); [|reflexivity].
  destruct (Py.get m "text" PNone); [|reflexivity].
  destruct (ApiClient.log_messages msgs) as [r tr]. simpl in *. exact IH.
Qed.

Lemma handle_http_error_only_logs (r : ApiClient.Response) (handle_400 : bool) :
  forallb is_log (snd (ApiClient.handle_http_error r handle_400)) = true.
Proof.
  unfold ApiClient.handle_http_error.
  destruct (handle_400 && (ApiClient.status_code r =? 400)); [reflexivity|].
  destruct (ApiClient.json_body r) as [j|]; [|reflexivity].
  destruct (contains_str "messages" j) as [[|]|e]; try reflexivity.
  destruct (m <- getitem j "messages";; iter m) as [msgs|e]; [|reflexivity].
  pose proof (log_messages_only_logs msgs) as L.
  destruct (ApiClient.log_messages msgs) as [x tr]. exact L.
Qed.

Lemma logs_hold_no_call (tr : list event) :
  forallb is_log tr = true ->
  filter is_session_call tr = [] /\ filter is_audit tr = [].
Proof.
  induction tr as [|e tr IH]; simpl; intros H; [auto|].
  apply andb_true_iff in H as [He Ht]. destruct e; try discriminate He.
  simpl. now apply IH.
Qed.

Lemma request_try_events (url method : string) (net : ApiClient.send_outcome)
    (handle_400 raw : bool) :
  filter is_session_call (snd (fst (ApiClient.request_try url method net handle_400 raw)))
  = [HttpCall method url]
  /\ filter is_audit (snd (fst (ApiClient.request_try url method net handle_400 raw)))
     = [].
Proof.
  unfold ApiClient.request_try.
  destruct net as [ | | | r]; try (split; reflexivity).
  destruct (ApiClient.raise_for_status r).
  - pose proof (handle_http_error_only_logs r handle_400) as L.
    destruct (ApiClient.handle_http_error r handle_400) as [x tr].
    destruct (logs_hold_no_call _ L) as [A B]. simpl in A, B |- *.
    now rewrite A, B.
  - destruct raw; [split; reflexivity|].
    destruct (ApiClient.json_body r); split; reflexivity.
Qed.

Lemma request_finally_events (self : ApiClient.t) (post_ok : bool)
    (response : option ApiClient.Response) (destination : option string) :
  filter is_session_call (snd (ApiClient.request_finally self post_ok response destination))
  = []
  /\ (List.length
        (filter is_audit
           (snd (ApiClient.request_finally self post_ok response destination))) <= 1)%nat
  /\ (ApiClient.str_truthy destination && ApiClient.splunk_configured self = false ->
      filter is_audit (snd (ApiClient.request_finally self post_ok response destination))
      = []).
Proof.
  unfold ApiClient.request_finally, ApiClient.log_response, ApiClient.log_success.
  destruct (ApiClient.str_truthy destination); [|simpl; auto].
  destruct destination as [dest|]; [|simpl; auto].
  destruct (ApiClient.headers_truthy (ApiClient.splunk_log_headers self)
            && ApiClient.str_truthy (ApiClient.splunk_log_url self)
            && ApiClient.response_truthy response).
  - destruct response as [r|]; [|simpl; auto].
    destruct (ApiClient.splunk_configured self); simpl.
    + destruct (ApiClient.decoded r); [destruct post_ok|]; simpl;
        repeat split; auto; discriminate.
    + auto.
  - destruct (ApiClient.splunk_configured self); simpl.
    + destruct post_ok; simpl; repeat split; auto; discriminate.
    + auto.
Qed.

(** X11.  [request] does not loop: whatever the outcome, one call of it
    makes exactly one call of [session.request], with the prepared URL
    and the method given (how often the mounted adapter sends that call
    over the wire is the adapter's matter, bounded by its retry budget,
    and is not counted here), and at most one post to the audit sink,
    none at all when no destination is given or the sink is not
    configured. *)
Theorem request_sends_once (self : ApiClient.t) (net : ApiClient.send_outcome)
    (post_ok : bool) (method endpoint : string) (destination : option string)
    (handle_400 raw : bool) :
  let events :=
    snd (ApiClient.request self net post_ok method endpoint destination handle_400 raw) in
  filter is_session_call events = [HttpCall method (ApiClient._prepare_url self endpoint)]
  /\ (List.length (filter is_audit events) <= 1)%nat
  /\ (ApiClient.str_truthy destination && ApiClient.splunk_configured self = false ->
      filter is_audit events = []).
Proof.
  cbv zeta. unfold ApiClient.request.
  destruct (request_try_events (ApiClient._prepare_url self endpoint) method net
              handle_400 raw) as [T1 T2].
  destruct (ApiClient.request_try (ApiClient._prepare_url self endpoint) method net
              handle_400 raw) as [[r tr] response].
  destruct (request_finally_events self post_ok response destination) as (F1 & F2 & F3).
  destruct (ApiClient.request_finally self post_ok response destination) as [f tr'].
  simpl in T1, T2, F1, F2, F3.
  assert (E : forall x : result pyval * list event,
             snd x = (tr ++ tr')%list ->
             filter is_session_call (snd x)
             = [HttpCall method (ApiClient._prepare_url self endpoint)]
             /\ (List.length (filter is_audit (snd x)) <= 1)%nat
             /\ (ApiClient.str_truthy destination && ApiClient.splunk_configured self
                 = false -> filter is_audit (snd x) = [])).
  { intros x ->. rewrite !filter_app, T1, T2, F1. simpl. auto. }
  destruct f; apply E; reflexivity.
Qed.

Lemma request_sends_once_witness :
  filter is_audit
    (snd (ApiClient.request (ApiClient.init (Some "https://api.xero.com") 30)
            ApiClient.SendTimeout true "GET" "files/1" None false false))
  = [].
Proof.
  apply (proj2 (proj2 (request_sends_once
                         (ApiClient.init (Some "https://api.xero.com") 30)
                         ApiClient.SendTimeout true "GET" "files/1" None false false))).
  reflexivity.
Defined.

(** X12.  On a response that is not a 4xx or 5xx, with the audit step
    unable to fail, [request] returns the body: the raw bytes when [raw]
    is set, otherwise the decoded JSON, or [None] when the body does not
    decode as JSON; [handle_400] plays no part. *)
Theorem request_returns_body (self : ApiClient.t) (r : ApiClient.Response)
    (post_ok : bool) (method endpoint : string) (destination : option string)
    (handle_400 raw : bool) :
  ApiClient.raise_for_status r = false ->
  audit_safe self destination r = true ->
  fst (ApiClient.request self (ApiClient.SendResponse r) post_ok method endpoint
         destination handle_400 raw)
  = Ok (if raw then PBytes (ApiClient.content r)
        else match ApiClient.json_body r with
             | Some v => v
             | None => PNone
             end).
Proof.
  intros Hs Ha. unfold ApiClient.request, ApiClient.request_try. rewrite Hs.
  pose proof (finally_audit_safe self post_ok r destination Ha) as F.
  destruct raw.
  - destruct (ApiClient.request_finally self post_ok (Some r) destination) as [f tr'].
    simpl in F. subst f. reflexivity.
  - destruct (ApiClient.json_body r);
      destruct (ApiClient.request_finally self post_ok (Some r) destination)
        as [f tr']; simpl in F; subst f; reflexivity.
Qed.

Lemma request_returns_body_witness :
  ApiClient.raise_for_status
    {| ApiClient.status_code := 200; ApiClient.content := "%PDF-1.7";
       ApiClient.text := "%PDF-1.7"; ApiClient.json_body := None;
       ApiClient.decoded := Some "%PDF-1.7" |} = false
  /\ fst (ApiClient.request (ApiClient.init (Some "https://api.xero.com") 30)
            (ApiClient.SendResponse
               {| ApiClient.status_code := 200; ApiClient.content := "%PDF-1.7";
                  ApiClient.text := "%PDF-1.7"; ApiClient.json_body := None;
                  ApiClient.decoded := Some "%PDF-1.7" |})
            true "GET" "files/1" None false true)
     = Ok (PBytes "%PDF-1.7").
Proof.
  split; [reflexivity|].
  exact (request_returns_body (ApiClient.init (Some "https://api.xero.com") 30)
           {| ApiClient.status_code := 200; ApiClient.content := "%PDF-1.7";
              ApiClient.text := "%PDF-1.7"; ApiClient.json_body := None;
              ApiClient.decoded := Some "%PDF-1.7" |}
           true "GET" "files/1" None false true eq_refl eq_refl).
Defined.

(** X13.  [handle_400] concerns the status 400 alone.  On a 400 with
    [handle_400] set, [request] returns the sentinel payload whatever the
    body, logs no error as long as the audit post goes through, and an
    audit sink that is configured is still told of a failure; on any
    other outcome of the session the flag changes nothing. *)
Theorem handle_400_only_for_400 (self : ApiClient.t) (post_ok : bool)
    (method endpoint : string) (destination : option string) (raw : bool) :
  (forall r,
      ApiClient.status_code r = 400 ->
      let out := ApiClient.request self (ApiClient.SendResponse r) post_ok method
                   endpoint destination true raw in
      fst out = Ok (PDict [("message", PStr "Bad request")])
      /\ (post_ok = true -> existsb is_error_log (snd out) = false)
      /\ (forall dest,
            destination = Some dest ->
            ApiClient.str_truthy destination && ApiClient.splunk_configured self = true ->
            In (AuditSuccess dest false) (snd out)))
  /\ (forall net,
      (forall r, net = ApiClient.SendResponse r -> ApiClient.status_code r <> 400) ->
      ApiClient.request self net post_ok method endpoint destination true raw
      = ApiClient.request self net post_ok method endpoint destination false raw).
Proof.
  split.
  - intros r H4. cbv zeta. unfold ApiClient.request, ApiClient.request_try,
      ApiClient.raise_for_status, ApiClient.handle_http_error.
    rewrite H4. simpl.
    unfold ApiClient.request_finally, ApiClient.response_truthy,
      ApiClient.raise_for_status. rewrite H4. simpl. rewrite andb_false_r.
    unfold ApiClient.log_success.
    destruct (ApiClient.str_truthy destination) eqn:D.
    + destruct destination as [dest|]; [|discriminate D].
      destruct (ApiClient.splunk_configured self) eqn:S; simpl.
      * destruct post_ok; simpl; repeat split; try discriminate; try reflexivity;
          intros d0 E _; inversion E; subst; auto.
      * repeat split; try reflexivity. intros d0 _ C. discriminate C.
    + simpl. repeat split; try reflexivity. intros d0 _ C. discriminate C.
  - intros net Hn. unfold ApiClient.request, ApiClient.request_try.
    destruct net as [ | | | r]; try reflexivity.
    unfold ApiClient.handle_http_error.
    replace (ApiClient.status_code r =? 400) with false
      by (symmetry; apply Z.eqb_neq, (Hn r eq_refl)).
    reflexivity.
Qed.

Lemma handle_400_only_for_400_witness :
  ApiClient.status_code bad_request_400 = 400
  /\ fst (ApiClient.request (ApiClient.init None 30)
            (ApiClient.SendResponse bad_request_400) true "GET" "envelopes/1"
            (Some "annature") true false)
     = Ok (PDict [("message", PStr "Bad request")]).
Proof.
  split; [reflexivity|].
  exact (proj1 (proj1 (handle_400_only_for_400 (ApiClient.init None 30) true "GET"
                         "envelopes/1" (Some "annature") false)
                  bad_request_400 eq_refl)).
Defined.

End RequestEvents.

(** * Further properties: what a poll returns and when *)

Section PollOutcomes.

Import WebScrape.

Variable tps : positive.
Variable b64decode : pyval -> result string.

Lemma poll_loop_unfold (step : pyval -> verdict) (msg : string) (start timeout : Z)
    (w : world) :
  poll_loop tps step msg start timeout w
  = if Z_lt_dec (clock w - start) (timeout * Z.pos tps)
    then match step (api_get_result w) with
         | Return r => (r, after_get w)
         | Fail m => (NoResult, log_error m (after_get w))
         | Pending => poll_loop tps step msg start timeout (sleep tps 1 (after_get w))
         | Break => (NoResult, log_error msg (after_get w))
         end
    else (NoResult, log_error msg w).
Proof.
  funelim (poll_loop tps step msg start timeout w);
    destruct (Z_lt_dec (clock w - start_time) (timeout * Z.pos tps)); try lia;
    try reflexivity; rewrite Heq; reflexivity.
Qed.

Lemma after_rounds_calls (k : nat) :
  forall w,
    ncalls (after_rounds tps k w) = (ncalls w + k)%nat
    /\ responses (after_rounds tps k w) = responses w
    /\ clock w <= clock (after_rounds tps k w).
Proof.
  induction k as [|k IH]; intros w; simpl.
  - repeat split; [lia | lia].
  - destruct (IH (sleep tps 1 (after_get w))) as (A & B & C).
    simpl in A, B, C. repeat split; [lia | exact B | lia].
Qed.

Lemma pending_for_spec (k : nat) (w : world) :
  pending_for k w = true ->
  forall j, (j < k)%nat -> status_pending (responses w (ncalls w + j)) = true.
Proof.
  unfold pending_for. rewrite forallb_forall. intros H j Hj.
  apply H, in_seq. lia.
Qed.

Lemma poll_loop_rounds (step : pyval -> verdict) (msg : string) (start timeout : Z)
    (k : nat) :
  forall w,
    (forall j, (j < k)%nat -> step (responses w (ncalls w + j)) = Pending) ->
    clock (after_rounds tps k w) - start < timeout * Z.pos tps ->
    poll_loop tps step msg start timeout w
    = poll_loop tps step msg start timeout (after_rounds tps k w).
Proof.
  induction k as [|k IH]; intros w Hp Hc; [reflexivity|].
  simpl in Hc |- *.
  destruct (after_rounds_calls k (sleep tps 1 (after_get w))) as (_ & _ & C).
  simpl in C.
  rewrite poll_loop_unfold.
  destruct (Z_lt_dec (clock w - start) (timeout * Z.pos tps)) as [_|N];
    [|exfalso; lia].
  unfold api_get_result.
  replace (step (responses w (ncalls w))) with Pending
    by (symmetry; rewrite <- (Nat.add_0_r (ncalls w)); apply Hp; lia).
  apply IH; [|exact Hc].
  intros j Hj. simpl. rewrite <- Nat.add_succ_r. apply Hp. lia.
Qed.

(** The poll that follows [k] pending ones, taken before the deadline,
    decides the call. *)
Lemma poll_loop_decides (step : pyval -> verdict) (msg : string) (timeout : Z)
    (k : nat) (w : world) :
  (forall results, status_pending results = true -> step results = Pending) ->
  pending_for k w = true ->
  clock (after_rounds tps k w) - clock w < timeout * Z.pos tps ->
  poll_loop tps step msg (clock w) timeout w
  = match step (responses w (ncalls w + k)) with
    | Return r => (r, after_get (after_rounds tps k w))
    | Fail m => (NoResult, log_error m (after_get (after_rounds tps k w)))
    | Pending =>
        poll_loop tps step msg (clock w) timeout
          (sleep tps 1 (after_get (after_rounds tps k w)))
    | Break => (NoResult, log_error msg (after_get (after_rounds tps k w)))
    end.
Proof.
  intros Hs Hp Hc.
  rewrite (poll_loop_rounds step msg (clock w) timeout k w)
    by (try exact Hc; intros j Hj; apply Hs, (pending_for_spec k w Hp j Hj)).
  rewrite poll_loop_unfold.
  destruct (Z_lt_dec (clock (after_rounds tps k w) - clock w) (timeout * Z.pos tps))
    as [_|N]; [|exfalso; lia].
  unfold api_get_result.
  destruct (after_rounds_calls k w) as (A & B & _). now rewrite A, B.
Qed.

Lemma report_step_pending (line : string) (results : pyval) :
  status_pending results = true -> report_step b64decode line results = Pending.
Proof.
  destruct results; try discriminate. intros H. unfold report_step. now rewrite H.
Qed.

Lemma report_fetchers_loop (f : fetcher) :
  In f report_fetchers ->
  forall timeout w,
    run f tps b64decode timeout w
    = poll_loop tps (report_step b64decode (api_error f)) (gave_up f) (clock w) timeout w.
Proof.
  intros H. repeat (destruct H as [<-|H]; [reflexivity|]). destruct H.
Qed.

(** X14.  A report fetcher ends as soon as the task is done: when the
    first [k] polls say [pending] and the next one, begun before the
    deadline, is a finished task with a [content] field, the call hands
    that content to [base64.b64decode] and returns the bytes it makes, or
    raises what it raises (on a content that is not text, or not valid
    base 64), having called [api_client.get] exactly [k + 1] times and
    slept one second after each of the [k] pending answers.
    [get_uncoded_statement_lines] returns the list the same way, with
    nothing to decode. *)
Theorem fetch_returns_when_ready (timeout : Z) (k : nat) (w : world) :
  pending_for k w = true ->
  clock (after_rounds tps k w) - clock w < timeout * Z.pos tps ->
  (forall f d content,
      In f report_fetchers ->
      responses w (ncalls w + k) = PDict d ->
      status_pending (PDict d) = false ->
      assoc "content" d = Some content ->
      run f tps b64decode timeout w
      = (match b64decode content with
         | Ok data => Decoded data
         | Raise e => Raised e
         end,
         after_get (after_rounds tps k w)))
  /\ (forall l,
      responses w (ncalls w + k) = PList l ->
      get_uncoded_statement_lines tps timeout w
      = (Results l, after_get (after_rounds tps k w)))
  /\ ncalls (after_get (after_rounds tps k w)) = S (ncalls w + k)
  /\ List.length (filter (fun e => is_session_call (snd e))
                    (trace (after_get (after_rounds tps k w))))
     = (List.length (filter (fun e => is_session_call (snd e)) (trace w)) + S k)%nat.
Proof.
  intros Hp Hc. split; [|split; [|split]].
  - intros f d content Hf Hr Hn Hco. rewrite (report_fetchers_loop f Hf).
    rewrite (poll_loop_decides _ _ timeout k w (report_step_pending _) Hp Hc).
    rewrite Hr. unfold report_step. now rewrite Hn, Hco.
  - intros l Hr. unfold get_uncoded_statement_lines.
    rewrite (poll_loop_decides _ _ timeout k w pending_uncoded_statement_lines Hp Hc).
    now rewrite Hr.
  - simpl. destruct (after_rounds_calls k w) as (A & _ & _). now rewrite A.
  - clear Hp Hc. revert w. induction k as [|k IH]; intros w.
    + simpl. rewrite filter_app, length_app. reflexivity.
    + change (after_rounds tps (S k) w)
        with (after_rounds tps k (sleep tps 1 (after_get w))).
      rewrite IH. simpl. rewrite !filter_app, !length_app. simpl. lia.
Qed.

(** X15.  A fetcher gives up at the first response that is not what the
    service sends: when the first [k] polls say [pending] and the next
    one, begun before the deadline, is not a JSON object (nor, for the
    statement lines, a list), the call returns [None] after [k + 1]
    requests, and the last thing it does is log its API-error line. *)
Theorem fetch_stops_on_api_error (timeout : Z) (k : nat) (w : world) :
  pending_for k w = true ->
  clock (after_rounds tps k w) - clock w < timeout * Z.pos tps ->
  is_dict (responses w (ncalls w + k)) = false ->
  (forall f,
      In f report_fetchers ->
      run f tps b64decode timeout w
      = (NoResult, log_error (api_error f) (after_get (after_rounds tps k w))))
  /\ ((forall l, responses w (ncalls w + k) <> PList l) ->
      get_uncoded_statement_lines tps timeout w
      = (NoResult,
         log_error (api_error statement_lines_fetcher)
           (after_get (after_rounds tps k w)))).
Proof.
  intros Hp Hc Hd. split.
  - intros f Hf. rewrite (report_fetchers_loop f Hf).
    rewrite (poll_loop_decides _ _ timeout k w (report_step_pending _) Hp Hc).
    destruct (responses w (ncalls w + k)); try reflexivity. discriminate Hd.
  - intros Hl. unfold get_uncoded_statement_lines.
    rewrite (poll_loop_decides _ _ timeout k w pending_uncoded_statement_lines Hp Hc).
    destruct (responses w (ncalls w + k)) as [| b | z | f | x | x | l | d];
      try reflexivity; [now destruct (Hl l) | discriminate Hd].
Qed.

(** X16.  A finished task without a report is reported as a timeout:
    when the first [k] polls say [pending] and the next one, begun before
    the deadline, is a JSON object that is neither pending nor holds a
    [content] field, a report fetcher returns [None] after [k + 1]
    requests and logs its timed-out line although the deadline has not
    passed; [get_uncoded_statement_lines] does so for every JSON object
    that is not pending, whatever it holds. *)
Theorem fetch_reports_timeout_before_deadline (timeout : Z) (k : nat) (w : world)
    (d : list (string * pyval)) :
  pending_for k w = true ->
  clock (after_rounds tps k w) - clock w < timeout * Z.pos tps ->
  responses w (ncalls w + k) = PDict d ->
  status_pending (PDict d) = false ->
  (forall f,
      In f report_fetchers ->
      assoc "content" d = None ->
      run f tps b64decode timeout w
      = (NoResult, log_error (gave_up f) (after_get (after_rounds tps k w))))
  /\ get_uncoded_statement_lines tps timeout w
     = (NoResult,
        log_error (gave_up statement_lines_fetcher)
          (after_get (after_rounds tps k w)))
  /\ clock (after_get (after_rounds tps k w)) - clock w
     = clock (after_rounds tps k w) - clock w
       + Z.of_N (latency w (ncalls w + k)).
Proof.
  intros Hp Hc Hr Hn. split; [|split].
  - intros f Hf Hco. rewrite (report_fetchers_loop f Hf).
    rewrite (poll_loop_decides _ _ timeout k w (report_step_pending _) Hp Hc).
    rewrite Hr. unfold report_step. now rewrite Hn, Hco.
  - unfold get_uncoded_statement_lines.
    rewrite (poll_loop_decides _ _ timeout k w pending_uncoded_statement_lines Hp Hc).
    rewrite Hr. unfold uncoded_statement_lines_step. now rewrite Hn.
  - simpl. destruct (after_rounds_calls k w) as (A & _ & _). rewrite A.
    assert (L : forall k0 w0, latency (after_rounds tps k0 w0) = latency w0).
    { induction k0 as [|k0 IH]; intros w0; [reflexivity|]. simpl. now rewrite IH. }
    rewrite L. lia.
Qed.

End PollOutcomes.

Section PollSamples.

Import WebScrape.

Lemma fetch_returns_when_ready_witness :
  pending_for 2 (sample_poll_world (PDict [("status", PStr "done");
                                           ("content", PStr "UEsDBBQ=")])) = true
  /\ get_payable_invoice 1000 sample_b64decode 1200
       (sample_poll_world (PDict [("status", PStr "done");
                                  ("content", PStr "UEsDBBQ=")]))
     = (Decoded (string_of_list_ascii (map ascii_of_nat [80; 75; 3; 4; 20]%nat)),
        after_get (after_rounds 1000 2
                     (sample_poll_world (PDict [("status", PStr "done");
                                                ("content", PStr "UEsDBBQ=")]))))
  /\ fst (get_payable_invoice 1000 sample_b64decode 1200
            (sample_poll_world (PDict [("status", PStr "done"); ("content", PNone)])))
     = Raised TypeError.
Proof.
  split; [reflexivity|]. split.
  - refine (proj1 (fetch_returns_when_ready 1000 sample_b64decode 1200 2
                     (sample_poll_world (PDict [("status", PStr "done");
                                                ("content", PStr "UEsDBBQ=")]))
                     eq_refl _)
              {| run := get_payable_invoice;
                 api_error := "Get payable invoice failed due to API error.";
                 gave_up := "Get payable invoice timed out after %d seconds" |}
              [("status", PStr "done"); ("content", PStr "UEsDBBQ=")]
              (PStr "UEsDBBQ=") _ eq_refl eq_refl eq_refl).
    + vm_compute. reflexivity.
    + simpl. tauto.
  - exact (f_equal fst
             (proj1 (fetch_returns_when_ready 1000 sample_b64decode 1200 2
                       (sample_poll_world (PDict [("status", PStr "done");
                                                  ("content", PNone)]))
                       eq_refl ltac:(vm_compute; reflexivity))
                {| run := get_payable_invoice;
                   api_error := "Get payable invoice failed due to API error.";
                   gave_up := "Get payable invoice timed out after %d seconds" |}
                [("status", PStr "done"); ("content", PNone)]
                PNone ltac:(simpl; tauto) eq_refl eq_refl eq_refl)).
Defined.

Lemma fetch_stops_on_api_error_witness :
  pending_for 2 (sample_poll_world (PBool false)) = true
  /\ get_gst_rec 1000 sample_b64decode 480 (sample_poll_world (PBool false))
     = (NoResult,
        log_error "Get GST rec failed due to API error."
          (after_get (after_rounds 1000 2 (sample_poll_world (PBool false))))).
Proof.
  split; [reflexivity|].
  refine (proj1 (fetch_stops_on_api_error 1000 sample_b64decode 480 2 (sample_poll_world (PBool false))
                   eq_refl _ eq_refl)
            {| run := get_gst_rec;
               api_error := "Get GST rec failed due to API error.";
               gave_up := "Get GST rec timed out after %d seconds" |} _).
  - vm_compute. reflexivity.
  - simpl. tauto.
Defined.

Lemma fetch_reports_timeout_before_deadline_witness :
  pending_for 2 (sample_poll_world (PDict [("status", PStr "failed")])) = true
  /\ get_uncoded_statement_lines 1000 480
       (sample_poll_world (PDict [("status", PStr "failed")]))
     = (NoResult,
        log_error "Get uncoded statement lines timed out after %d seconds"
          (after_get (after_rounds 1000 2
                        (sample_poll_world (PDict [("status", PStr "failed")]))))).
Proof.
  split; [reflexivity|].
  refine (proj1 (proj2 (fetch_reports_timeout_before_deadline 1000 sample_b64decode 480 2
                          (sample_poll_world (PDict [("status", PStr "failed")]))
                          [("status", PStr "failed")] eq_refl _ eq_refl eq_refl))).
  vm_compute. reflexivity.
Defined.

End PollSamples.

(** * Further properties: Xero dates and journal pages *)

Section XeroDates.

Lemma digit_char_facts (d : Z) :
  0 <= d <= 9 ->
  Xero.digit_of (digit_char d) = Some d
  /\ Ascii.eqb (digit_char d) "_" = false
  /\ Ascii.eqb (digit_char d) "-" = false
  /\ Ascii.eqb (digit_char d) "+" = false
  /\ mem_char (digit_char d) Xero.whitespace = false
  /\ mem_char (digit_char d) Xero.str_whitespace = false.
Proof.
  intros H.
  assert (C : d = 0 \/ d = 1 \/ d = 2 \/ d = 3 \/ d = 4 \/ d = 5 \/ d = 6
              \/ d = 7 \/ d = 8 \/ d = 9) by lia.
  repeat (destruct C as [->|C]; [repeat split; reflexivity|]).
  subst d. repeat split; reflexivity.
Qed.

Lemma all_digits_tail (d : Z) (ds : list Z) :
  forallb (fun d => (0 <=? d) && (d <=? 9)) (d :: ds) = true ->
  0 <= d <= 9 /\ forallb (fun d => (0 <=? d) && (d <=? 9)) ds = true.
Proof.
  simpl. intros H. apply andb_true_iff in H as [H1 H2].
  apply andb_true_iff in H1 as [A B]. apply Z.leb_le in A, B. auto.
Qed.

Lemma parse_digits_string (ds : list Z) :
  forall acc after rest,
    forallb (fun d => (0 <=? d) && (d <=? 9)) ds = true ->
    Xero.parse_digits (digits_string ds ++ rest) acc after
    = match ds with
      | [] => Xero.parse_digits rest acc after
      | _ => Xero.parse_digits rest (fold_left (fun a d => 10 * a + d) ds acc) true
      end.
Proof.
  induction ds as [|d ds IH]; intros acc after rest H; [reflexivity|].
  destruct (all_digits_tail d ds H) as [Hd Hds].
  destruct (digit_char_facts d Hd) as (D & U & _).
  cbn [digits_string String.append Xero.parse_digits]. rewrite U, D.
  rewrite (IH _ _ _ Hds). destruct ds; reflexivity.
Qed.

Lemma strip_nothing (chars s : string) :
  all_chars (fun c => negb (mem_char c chars)) s = true ->
  lstrip chars s = s /\ rstrip chars s = s.
Proof.
  induction s as [|c s IH]; [auto|]. cbn [all_chars]. intros H.
  apply andb_true_iff in H as [Hc Hs]. apply negb_true_iff in Hc.
  destruct (IH Hs) as [_ R]. split.
  - simpl. now rewrite Hc.
  - cbn [rstrip]. rewrite R, Hc. now destruct s.
Qed.

(** The whitespace [int] drops from text or from bytes. *)
Lemma digits_no_whitespace (as_bytes : bool) (ds : list Z) (rest : string) :
  forallb (fun d => (0 <=? d) && (d <=? 9)) ds = true ->
  all_chars (fun c => negb (mem_char c (int_spaces as_bytes))) rest = true ->
  all_chars (fun c => negb (mem_char c (int_spaces as_bytes)))
    (digits_string ds ++ rest) = true.
Proof.
  intros H Hr. induction ds as [|d ds IH]; [exact Hr|].
  destruct (all_digits_tail d ds H) as [Hd Hds].
  destruct (digit_char_facts d Hd) as (_ & _ & _ & _ & W & W').
  cbn [digits_string String.append all_chars].
  replace (mem_char (digit_char d) (int_spaces as_bytes)) with false
    by (now destruct as_bytes).
  simpl. now apply IH.
Qed.

Lemma count_digits_string (ds : list Z) (rest : string) :
  forallb (fun d => (0 <=? d) && (d <=? 9)) ds = true ->
  Xero.count_digits (digits_string ds ++ rest)
  = (List.length ds + Xero.count_digits rest)%nat.
Proof.
  induction ds as [|d ds IH]; intros H; [reflexivity|].
  destruct (all_digits_tail d ds H) as [Hd Hds].
  destruct (digit_char_facts d Hd) as (_ & U & _).
  cbn [digits_string String.append Xero.count_digits List.length]. rewrite U.
  now rewrite (IH Hds).
Qed.

(** [int] on a sign, digits and a tail. *)
Lemma int_of_signed_digits (as_bytes negative : bool) (ds : list Z) (rest : string) :
  is_digits ds = true ->
  all_chars (fun c => negb (mem_char c (int_spaces as_bytes))) rest = true ->
  Xero.int_of (int_spaces as_bytes)
    (((if negative then "-" else EmptyString) ++ digits_string ds) ++ rest)
  = match Xero.parse_digits rest (digits_value ds) true with
    | Some z =>
        if (Xero.max_str_digits <? List.length ds + Xero.count_digits rest)%nat
        then Raise ValueError
        else Ok (signed negative z)
    | None => Raise ValueError
    end.
Proof.
  intros H Hr. destruct ds as [|d ds]; [discriminate H|].
  cbn [is_digits] in H.
  pose proof (digits_no_whitespace as_bytes _ rest H Hr) as W.
  pose proof (parse_digits_string (d :: ds) 0 false rest H) as P.
  pose proof (count_digits_string (d :: ds) rest H) as C.
  destruct (all_digits_tail d ds H) as [Hd _].
  destruct (digit_char_facts d Hd) as (_ & _ & M & Q & _).
  unfold Xero.int_of. destruct negative.
  - destruct (strip_nothing (int_spaces as_bytes)
                (("-" ++ digits_string (d :: ds)) ++ rest)) as [L R].
    { cbn [String.append all_chars]. rewrite W.
      now destruct as_bytes. }
    rewrite L, R. cbn [String.append]. simpl Ascii.eqb. cbv iota.
    rewrite P, C. reflexivity.
  - cbn [String.append].
    destruct (strip_nothing (int_spaces as_bytes) _ W) as [L R]. rewrite L, R.
    cbn [digits_string String.append] in P, C |- *. rewrite M, Q, P, C.
    reflexivity.
Qed.

Lemma string_length_append (a b : string) :
  String.length (a ++ b) = (String.length a + String.length b)%nat.
Proof. induction a as [|c a IH]; simpl; [reflexivity | now rewrite IH]. Qed.

Lemma substring_middle (body post : string) :
  substring 0 (String.length body) (body ++ post) = body.
Proof.
  induction body as [|c b IH]; simpl.
  - now destruct post.
  - now rewrite IH.
Qed.

Lemma str_slice_date (body tail : string) (stop : Z) :
  body <> EmptyString ->
  stop = - Z.of_nat (String.length tail) ->
  stop < 0 ->
  Xero.str_slice ("/Date(" ++ body ++ tail) 6 stop = body.
Proof.
  intros Hb -> Hc. unfold Xero.str_slice, Xero.clamp_index.
  assert (L : Z.of_nat (String.length ("/Date(" ++ body ++ tail))
              = 6 + Z.of_nat (String.length body) + Z.of_nat (String.length tail)).
  { rewrite !string_length_append. simpl String.length. lia. }
  rewrite L. cbv zeta.
  assert (B : (0 < String.length body)%nat) by (destruct body; [congruence | simpl; lia]).
  replace (6 <? 0) with false by reflexivity.
  replace (- Z.of_nat (String.length tail) <? 0) with true
    by (symmetry; apply Z.ltb_lt; lia).
  replace (Z.min 6 (6 + Z.of_nat (String.length body) + Z.of_nat (String.length tail)))
    with 6 by lia.
  replace (Z.max 0 (- Z.of_nat (String.length tail)
                    + (6 + Z.of_nat (String.length body)
                       + Z.of_nat (String.length tail))))
    with (6 + Z.of_nat (String.length body)) by lia.
  replace (6 <? 6 + Z.of_nat (String.length body)) with true
    by (symmetry; apply Z.ltb_lt; lia).
  replace (Z.to_nat (6 + Z.of_nat (String.length body) - 6))
    with (String.length body) by lia.
  change (Z.to_nat 6) with 6%nat. cbn [String.append substring].
  apply substring_middle.
Qed.

Lemma date_to_seconds_text_or_bytes (as_bytes : bool) (s : string) (tz : bool) :
  Xero.date_to_seconds (text_or_bytes as_bytes s) tz
  = (ms <- (if tz then Xero.int_of (int_spaces as_bytes) (Xero.str_slice s 6 (-7))
            else Xero.int_of (int_spaces as_bytes) (Xero.str_slice s 6 (-2))) ;;
     Ok (PInt (ms / 1000))).
Proof. destruct as_bytes; reflexivity. Qed.

(** X17.  [date_to_seconds] reads the dates Xero sends, given as a
    string or as bytes: on [/Date(ms+0000)/] with the time-zone flag, and
    on [/Date(ms)/] without it, for any decimal [ms] of at most 4300
    digits with an optional minus sign, it returns [ms] floor-divided by
    1000, so that a date before 1970 is rounded towards the past; with
    more than 4300 digits it is a ValueError.  Reading a time-zoned date
    without the flag is a ValueError, and so is the empty string. *)
Theorem date_to_seconds_reads_milliseconds (as_bytes negative : bool) (ds : list Z)
    (timezone : bool) :
  is_digits ds = true ->
  Xero.date_to_seconds (text_or_bytes as_bytes (xero_date negative ds timezone)) timezone
  = (if (List.length ds <=? Xero.max_str_digits)%nat
     then Ok (PInt (signed negative (digits_value ds) / 1000))
     else Raise ValueError)
  /\ Xero.date_to_seconds (text_or_bytes as_bytes (xero_date negative ds true)) false
     = Raise ValueError
  /\ Xero.date_to_seconds (text_or_bytes as_bytes EmptyString) timezone
     = Raise ValueError.
Proof.
  intros H. rewrite !date_to_seconds_text_or_bytes.
  assert (N : (if negative then "-" else EmptyString) ++ digits_string ds
              <> EmptyString).
  { destruct negative; [discriminate|]. destruct ds; [discriminate H | discriminate]. }
  pose proof (int_of_signed_digits as_bytes negative ds EmptyString H eq_refl) as I.
  rewrite append_empty_r in I. cbn [Xero.parse_digits Xero.count_digits] in I.
  rewrite Nat.add_0_r, Nat.ltb_antisym in I.
  split; [|split].
  - unfold xero_date. destruct timezone.
    + rewrite (str_slice_date _ "+0000)/" (-7) N eq_refl ltac:(lia)), I.
      now destruct (List.length ds <=? Xero.max_str_digits)%nat.
    + rewrite (str_slice_date _ ")/" (-2) N eq_refl ltac:(lia)), I.
      now destruct (List.length ds <=? Xero.max_str_digits)%nat.
  - unfold xero_date.
    change "+0000)/" with ("+0000" ++ ")/").
    rewrite <- (append_assoc _ "+0000" ")/") at 1.
    assert (N2 : ((if negative then "-" else EmptyString) ++ digits_string ds)
                 ++ "+0000" <> EmptyString).
    { destruct negative; [discriminate|]. destruct ds; discriminate. }
    rewrite (str_slice_date _ ")/" (-2) N2 eq_refl ltac:(lia)).
    rewrite (int_of_signed_digits as_bytes negative ds "+0000" H)
      by (now destruct as_bytes).
    reflexivity.
  - destruct timezone, as_bytes; reflexivity.
Qed.

Lemma date_to_seconds_reads_milliseconds_witness :
  is_digits [1; 5; 7; 3; 7; 5; 5; 0; 3; 8; 3; 1; 4] = true
  /\ Xero.date_to_seconds (PStr "/Date(1573755038314+0000)/") true
     = Ok (PInt 1573755038)
  /\ Xero.date_to_seconds (PBytes "/Date(-1500)/") false = Ok (PInt (-2)).
Proof.
  split; [reflexivity|]. split.
  - exact (proj1 (date_to_seconds_reads_milliseconds false false
                    [1; 5; 7; 3; 7; 5; 5; 0; 3; 8; 3; 1; 4] true eq_refl)).
  - exact (proj1 (date_to_seconds_reads_milliseconds true true [1; 5; 0; 0] false
                    eq_refl)).
Defined.

End XeroDates.

(** * Further properties: flattening journals, and pages that fail *)

Section JournalPages.

Lemma new_line_fields (d l : list (string * pyval)) (ex : pyval) :
  dates_parse d = true ->
  exists v,
    Xero.new_line d (PDict l) ex = Ok v
    /\ field "journal_number" v = dict_get "JournalNumber" PNone d
    /\ field "journal_line_id" v = dict_get "JournalLineID" PNone l
    /\ field "extracted" v = ex.
Proof.
  unfold dates_parse, Xero.new_line. intros H.
  destruct (Xero.date_to_seconds (dict_get "JournalDate" (PStr EmptyString) d) true)
    as [t|]; [|discriminate H].
  destruct (Xero.date_to_seconds (dict_get "CreatedDateUTC" (PStr EmptyString) d) true)
    as [c|]; [|discriminate H].
  cbn [Py.bind Py.get]. eexists. split; [reflexivity|].
  repeat split; reflexivity.
Qed.

Lemma simplify_lines_fields (d : list (string * pyval)) (ex : pyval) (ls : list pyval) :
  forallb WebScrape.is_dict ls = true ->
  match ls with [] => true | _ => dates_parse d end = true ->
  exists out,
    Xero.simplify_lines d ls ex = Ok out
    /\ map (field "journal_number") out
       = repeat (dict_get "JournalNumber" PNone d) (List.length ls)
    /\ map (field "journal_line_id") out = map (field "JournalLineID") ls
    /\ Forall (fun v => field "extracted" v = ex) out.
Proof.
  intros Hl Hd.
  assert (D : ls = [] \/ dates_parse d = true) by (destruct ls; auto).
  clear Hd. induction ls as [|l ls IH].
  - exists []. simpl. repeat split; constructor.
  - destruct D as [D|D]; [discriminate D|].
    simpl in Hl. apply andb_true_iff in Hl as [H1 H2].
    destruct l as [| | | | | | |l]; try discriminate H1.
    destruct (IH H2 (or_intror D)) as (out & E & N & I & X).
    destruct (new_line_fields d l ex D) as (v & Ev & Nv & Iv & Xv).
    exists (v :: out). cbn [Xero.simplify_lines]. rewrite Ev, E.
    cbn [Py.bind map List.length repeat]. rewrite Nv, N, Iv, I.
    repeat split; try reflexivity. now constructor.
Qed.

(** What one journal at the head contributes. *)
Lemma simplify_each_head (j : pyval) (ex : pyval) :
  well_formed_journal j = true ->
  exists here,
    (forall rest,
        Xero.simplify_each (j :: rest) ex
        = match Xero.simplify_each rest ex with
          | Ok later => Ok (here ++ later)%list
          | Raise e => Raise e
          end)
    /\ map (field "journal_number") here
       = repeat (field "JournalNumber" j) (List.length (lines_of j))
    /\ map (field "journal_line_id") here = map (field "JournalLineID") (lines_of j)
    /\ Forall (fun v => field "extracted" v = ex) here.
Proof.
  unfold well_formed_journal. intros H.
  destruct (truthy j) eqn:T.
  - simpl in H. destruct j as [| | | | | | |d]; try discriminate H.
    unfold lines_of, dict_get. cbn [field].
    destruct (assoc "JournalLines" d) as [[| | | | | |ls|]|] eqn:A; try discriminate H.
    + apply andb_true_iff in H as [Hl Hd].
      destruct (simplify_lines_fields d ex ls Hl Hd) as (out & E & N & I & X).
      exists out. split; [|auto].
      intros rest. cbn [Xero.simplify_each]. rewrite T.
      cbn [negb Py.get Py.bind Py.keys]. unfold dict_get. rewrite A.
      cbn [Py.iter Py.bind]. rewrite E. cbn [Py.bind].
      now destruct (Xero.simplify_each rest ex).
    + exists []. split; [|repeat split; constructor].
      intros rest. cbn [Xero.simplify_each]. rewrite T.
      cbn [negb Py.get Py.bind Py.keys]. unfold dict_get. rewrite A.
      cbn [Py.iter Py.bind Xero.simplify_lines].
      now destruct (Xero.simplify_each rest ex).
  - exists []. split.
    + intros rest. cbn [Xero.simplify_each]. rewrite T. cbn [negb].
      now destruct (Xero.simplify_each rest ex).
    + assert (L : lines_of j = []).
      { destruct j as [| | | | | | |d]; try reflexivity.
        destruct d; [reflexivity | discriminate T]. }
      rewrite L. repeat split; constructor.
Qed.

Lemma simplify_each_flattens (ex : pyval) (js : list pyval) :
  forallb well_formed_journal js = true ->
  exists out,
    Xero.simplify_each js ex = Ok out
    /\ map (field "journal_number") out
       = flat_map (fun j => repeat (field "JournalNumber" j) (List.length (lines_of j)))
           js
    /\ map (field "journal_line_id") out
       = flat_map (fun j => map (field "JournalLineID") (lines_of j)) js
    /\ Forall (fun v => field "extracted" v = ex) out.
Proof.
  induction js as [|j js IH]; intros H.
  - exists []. repeat split; constructor.
  - simpl in H. apply andb_true_iff in H as [Hj Hjs].
    destruct (IH Hjs) as (later & E & N & I & X).
    destruct (simplify_each_head j ex Hj) as (here & S & Nh & Ih & Xh).
    exists (here ++ later)%list. rewrite S, E. cbn [flat_map].
    rewrite !map_app, Nh, N, Ih, I. repeat split; try reflexivity.
    apply Forall_app. now split.
Qed.

(** X18.  [simplify_journals] flattens a page: when every journal of the
    page is either empty or a dict whose journal lines are dicts and
    whose two dates parse, the call returns one line per journal line, in
    the order of the page, each carrying the number of its journal, its
    own line id and the [extracted] stamp; empty journals and journals
    without lines contribute nothing. *)
Theorem simplify_journals_flattens (page ex : pyval) (js : list pyval) :
  getitem page "Journals" = Ok (PList js) ->
  forallb well_formed_journal js = true ->
  exists out,
    Xero.simplify_journals page ex = Ok out
    /\ map (field "journal_number") out
       = flat_map (fun j => repeat (field "JournalNumber" j) (List.length (lines_of j)))
           js
    /\ map (field "journal_line_id") out
       = flat_map (fun j => map (field "JournalLineID") (lines_of j)) js
    /\ Forall (fun v => field "extracted" v = ex) out
    /\ List.length out = list_sum (map (fun j => List.length (lines_of j)) js).
Proof.
  intros G H. destruct (simplify_each_flattens ex js H) as (out & E & N & I & X).
  exists out. unfold Xero.simplify_journals. rewrite G. cbn [Py.bind Py.iter].
  repeat split; try assumption.
  rewrite <- (length_map (field "journal_number") out), N.
  clear. induction js as [|j js IH]; [reflexivity|].
  cbn [flat_map map list_sum]. now rewrite length_app, repeat_length, IH.
Qed.

Lemma simplify_journals_flattens_witness :
  forallb well_formed_journal
    [journal 1 [journal_line "200" 100; journal_line "610" (-100)]; PDict [];
     journal 2 [journal_line "200" 40]] = true
  /\ exists out,
      Xero.simplify_journals
        (PDict [("Journals",
                 PList [journal 1 [journal_line "200" 100; journal_line "610" (-100)];
                        PDict []; journal 2 [journal_line "200" 40]])])
        (PStr "03/11/2026 09:00:00") = Ok out
      /\ map (field "journal_number") out = [PInt 1; PInt 1; PInt 2].
Proof.
  split; [vm_compute; reflexivity|].
  destruct (simplify_journals_flattens
              (PDict [("Journals",
                       PList [journal 1 [journal_line "200" 100;
                                         journal_line "610" (-100)];
                              PDict []; journal 2 [journal_line "200" 40]])])
              (PStr "03/11/2026 09:00:00")
              [journal 1 [journal_line "200" 100; journal_line "610" (-100)]; PDict [];
               journal 2 [journal_line "200" 40]]
              eq_refl ltac:(vm_compute; reflexivity)) as (out & E & N & _).
  exists out. split; [exact E | exact N].
Defined.

(** X19.  One journal without a date stops the page: when the journals
    before it are well formed and a journal with at least one line has no
    [JournalDate], or has one that parses but no [CreatedDateUTC], the
    empty-string default is read as a date and [simplify_journals] raises
    ValueError, whatever the line and the rest of the page hold. *)
Theorem journal_without_date_raises (page ex : pyval) (pre post : list pyval)
    (d : list (string * pyval)) (line : pyval) (lines : list pyval) :
  getitem page "Journals" = Ok (PList (pre ++ PDict d :: post)%list) ->
  forallb well_formed_journal pre = true ->
  assoc "JournalLines" d = Some (PList (line :: lines)) ->
  assoc "JournalDate" d = None
  \/ ((exists t, Xero.date_to_seconds (dict_get "JournalDate" (PStr EmptyString) d) true
                 = Ok t)
      /\ assoc "CreatedDateUTC" d = None) ->
  Xero.simplify_journals page ex = Raise ValueError.
Proof.
  intros G Hpre Hl Hd. unfold Xero.simplify_journals. rewrite G. cbn [Py.bind Py.iter].
  assert (T : truthy (PDict d) = true) by (destruct d; [discriminate Hl | reflexivity]).
  assert (R : Xero.simplify_each (PDict d :: post) ex = Raise ValueError).
  { cbn [Xero.simplify_each]. rewrite T. cbn [negb Py.get Py.bind Py.keys].
    unfold dict_get at 1. rewrite Hl. cbn [Py.iter Py.bind Xero.simplify_lines].
    unfold Xero.new_line. destruct Hd as [Hd | [[t Ht] Hc]].
    - unfold dict_get at 1. rewrite Hd. reflexivity.
    - rewrite Ht. cbn [Py.bind]. unfold dict_get at 1. rewrite Hc. reflexivity. }
  clear G. induction pre as [|j pre IH]; [exact R|].
  simpl in Hpre. apply andb_true_iff in Hpre as [Hj Hpre].
  destruct (simplify_each_head j ex Hj) as (here & S & _).
  cbn [app]. rewrite S, (IH Hpre). reflexivity.
Qed.

Lemma journal_without_date_raises_witness :
  Xero.simplify_journals
    (PDict [("Journals",
             PList [journal 1 [journal_line "200" 100];
                    PDict [("JournalID", PStr "9c1d"); ("JournalNumber", PInt 2);
                           ("JournalLines", PList [journal_line "200" 40])]])])
    (PStr "03/11/2026 09:00:00")
  = Raise ValueError.
Proof.
  apply (journal_without_date_raises _ _ [journal 1 [journal_line "200" 100]] []
           [("JournalID", PStr "9c1d"); ("JournalNumber", PInt 2);
            ("JournalLines", PList [journal_line "200" 40])]
           (journal_line "200" 40) []).
  - reflexivity.
  - vm_compute. reflexivity.
  - reflexivity.
  - left. reflexivity.
Defined.

Lemma journals_loop_fails (k : nat) :
  forall (lines : nat -> list pyval) (acc : list pyval) (params : pyval)
         (w : Xero.world) (fuel : nat),
    (forall i, (i < k)%nat ->
       truthy (Xero.pages w (Xero.ncalls w + i)) = true
       /\ Xero.simplify_journals (Xero.pages w (Xero.ncalls w + i))
            (PStr (Xero.now w (Xero.ncalls w + i))) = Ok (lines i)) ->
    (forall i, (i < k)%nat -> lines i <> []) ->
    (k < fuel)%nat ->
    (truthy (Xero.pages w (Xero.ncalls w + k)) = false ->
     Xero.journals_loop fuel acc params w
     = (Some (Ok PNone),
        Xero.log_error "Get journals API request failed for %s."
          (after_pages w params lines k)))
    /\ (forall e,
          truthy (Xero.pages w (Xero.ncalls w + k)) = true ->
          Xero.simplify_journals (Xero.pages w (Xero.ncalls w + k))
            (PStr (Xero.now w (Xero.ncalls w + k))) = Raise e ->
          Xero.journals_loop fuel acc params w
          = (Some (Raise e), after_pages w params lines k)).
Proof.
  induction k as [|k IH]; intros lines acc params w fuel Hp Hne Hf;
    (destruct fuel as [|fuel]; [lia|]).
  - rewrite Nat.add_0_r. split.
    + intros T. cbn [Xero.journals_loop Xero.fetch]. rewrite T. cbn [negb].
      unfold after_pages. simpl. now rewrite Nat.add_0_r.
    + intros e T S0. cbn [Xero.journals_loop Xero.fetch]. rewrite T, S0. cbn [negb].
      unfold after_pages. simpl. now rewrite Nat.add_0_r.
  - destruct (Hp O ltac:(lia)) as [T S0]. rewrite Nat.add_0_r in T, S0.
    pose proof (Hne O ltac:(lia)) as N0.
    assert (Hp' : forall i, (i < k)%nat ->
       truthy (Xero.pages w (S (Xero.ncalls w) + i)) = true
       /\ Xero.simplify_journals (Xero.pages w (S (Xero.ncalls w) + i))
            (PStr (Xero.now w (S (Xero.ncalls w) + i))) = Ok (lines (S i))).
    { intros i Hi. simpl. rewrite <- Nat.add_succ_r. apply Hp. lia. }
    assert (W : forall w1 : Xero.world,
               w1 = {| Xero.pages := Xero.pages w; Xero.now := Xero.now w;
                       Xero.ncalls := S (Xero.ncalls w);
                       Xero.sent := (Xero.sent w ++ [params])%list;
                       Xero.log := Xero.log w |} ->
               after_pages w1 (offset_after (lines O)) (fun i => lines (S i)) k
               = after_pages w params lines (S k)).
    { intros w1 ->. unfold after_pages.
      cbn [Xero.pages Xero.now Xero.ncalls Xero.sent Xero.log].
      rewrite (map_seq_succ (fun i => offset_after (lines i))), <- app_assoc.
      simpl. f_equal. lia. }
    destruct (IH (fun i => lines (S i)) (acc ++ lines O)%list (offset_after (lines O))
                {| Xero.pages := Xero.pages w; Xero.now := Xero.now w;
                   Xero.ncalls := S (Xero.ncalls w);
                   Xero.sent := (Xero.sent w ++ [params])%list;
                   Xero.log := Xero.log w |} fuel Hp'
                ltac:(intros i Hi; apply Hne; lia) ltac:(lia)) as [F R].
    cbn [Xero.pages Xero.now Xero.ncalls] in F, R.
    rewrite (W _ eq_refl) in F, R.
    replace (Xero.ncalls w + S k)%nat with (S (Xero.ncalls w) + k)%nat by lia.
    split.
    + intros Tk. cbn [Xero.journals_loop Xero.fetch]. rewrite T, S0. cbn [negb].
      rewrite (queue_length_pos _ N0).
      rewrite (next_params_offset _ (simplify_journals_are_lines _ _ _ S0) N0).
      now apply F.
    + intros e Tk Sk. cbn [Xero.journals_loop Xero.fetch]. rewrite T, S0. cbn [negb].
      rewrite (queue_length_pos _ N0).
      rewrite (next_params_offset _ (simplify_journals_are_lines _ _ _ S0) N0).
      now apply R.
Qed.

(** X20.  [get_journals] fails as a whole: after [k] pages that gave
    lines, when the next request comes back with nothing the call logs
    the failure and returns [None], and when the next page makes
    [simplify_journals] raise the exception leaves [get_journals]; either
    way after exactly [k + 1] requests, and the lines of the [k] pages
    already fetched are not returned. *)
Theorem get_journals_drops_partial_result (w : Xero.world)
    (tenant_id access_token : pyval) (lines : nat -> list pyval) (k fuel : nat) :
  tenant_id <> PNone ->
  access_token <> PNone ->
  (forall i, (i < k)%nat ->
     truthy (Xero.pages w (Xero.ncalls w + i)) = true
     /\ Xero.simplify_journals (Xero.pages w (Xero.ncalls w + i))
          (PStr (Xero.now w (Xero.ncalls w + i))) = Ok (lines i)) ->
  (forall i, (i < k)%nat -> lines i <> []) ->
  (k < fuel)%nat ->
  (truthy (Xero.pages w (Xero.ncalls w + k)) = false ->
   Xero.get_journals (Some tt) (tenant_id, access_token) fuel w
   = (Some (Ok PNone),
      Xero.log_error "Get journals API request failed for %s."
        (after_pages w PNone lines k)))
  /\ (forall e,
        truthy (Xero.pages w (Xero.ncalls w + k)) = true ->
        Xero.simplify_journals (Xero.pages w (Xero.ncalls w + k))
          (PStr (Xero.now w (Xero.ncalls w + k))) = Raise e ->
        Xero.get_journals (Some tt) (tenant_id, access_token) fuel w
        = (Some (Raise e), after_pages w PNone lines k)).
Proof.
  intros Ht Ha Hp Hne Hf. unfold Xero.get_journals.
  pose proof (journals_loop_fails k lines [] PNone w fuel Hp Hne Hf) as L.
  destruct tenant_id; try congruence; destruct access_token; try congruence; exact L.
Qed.

Lemma get_journals_drops_partial_result_witness :
  List.length (sample_lines 0) = 2%nat
  /\ Xero.get_journals (Some tt) (PStr "tenant-41", PStr "eyJhbGciOi") 7
       failing_journal_world
     = (Some (Ok PNone),
        Xero.log_error "Get journals API request failed for %s."
          (after_pages failing_journal_world PNone sample_lines 1)).
Proof.
  split; [vm_compute; reflexivity|].
  apply (proj1 (get_journals_drops_partial_result failing_journal_world
                  (PStr "tenant-41") (PStr "eyJhbGciOi") sample_lines 1 7
                  ltac:(discriminate) ltac:(discriminate)
                  ltac:(intros [|i] Hi; [split; vm_compute; reflexivity | lia])
                  ltac:(intros [|i] Hi; [vm_compute; discriminate | lia])
                  ltac:(lia))).
  reflexivity.
Defined.

End JournalPages.

(** * Further properties: the tabs a Spreadsheet knows *)

Section Tabs.

Lemma dict_set_fresh (k v : pyval) (d : list (pyval * pyval)) :
  (forall kv, In kv d -> Spreadsheet.key_eqb (fst kv) k = false) ->
  Spreadsheet.dict_set k v d = (d ++ [(k, v)])%list.
Proof.
  induction d as [|[k' v'] d IH]; intros H; [reflexivity|].
  pose proof (H (k', v') (or_introl eq_refl)) as E. cbn [fst] in E.
  cbn [Spreadsheet.dict_set app]. rewrite E.
  rewrite IH; [reflexivity|]. intros kv I. apply H. now right.
Qed.

Lemma load_titles_tabs (sheets : list pyval) :
  forall (ids : list Z) (titles : list string) (self : Spreadsheet.t),
    map tab_id sheets = map (fun i => Ok (PInt i)) ids ->
    map tab_title sheets = map (fun x => Ok (PStr x)) titles ->
    NoDup ids ->
    (forall kv, In kv (Spreadsheet.title_key self) ->
       exists i, fst kv = PInt i /\ ~ In i ids) ->
    Spreadsheet.load_titles sheets self
    = (Ok tt,
       Spreadsheet.set_title_key
         (Spreadsheet.title_key self
          ++ combine (map PInt ids) (map PStr titles))%list self).
Proof.
  induction sheets as [|sh sheets IH]; intros ids titles self Hi Ht Hn Hk.
  - destruct ids; [|discriminate Hi]. simpl. rewrite app_nil_r. now destruct self.
  - destruct ids as [|i ids]; [discriminate Hi|].
    destruct titles as [|x titles]; [discriminate Ht|].
    cbn [map] in Hi, Ht. injection Hi as Hi1 Hi. injection Ht as Ht1 Ht.
    unfold tab_id in Hi1. unfold tab_title in Ht1.
    cbn [Spreadsheet.load_titles]. unfold st_bind, st_eval, st_assign.
    rewrite Ht1, Hi1. cbn [Spreadsheet.hashable].
    inversion Hn as [|? ? Hni Hn']; subst.
    rewrite (IH ids titles); try assumption.
    + rewrite dict_set_fresh.
      * destruct self. unfold Spreadsheet.set_title_key. simpl.
        now rewrite <- app_assoc.
      * intros kv I. destruct (Hk kv I) as (j & -> & Hj). simpl.
        apply Z.eqb_neq. intros ->. apply Hj. now left.
    + intros kv I. cbn [Spreadsheet.title_key Spreadsheet.set_title_key] in I.
      rewrite dict_set_fresh in I.
      * apply in_app_or in I as [I|[<-|[]]].
        -- destruct (Hk kv I) as (j & E & Hj). exists j. split; [exact E|].
           intros C. apply Hj. now right.
        -- exists i. split; [reflexivity | exact Hni].
      * intros kv' I'. destruct (Hk kv' I') as (j & -> & Hj). simpl.
        apply Z.eqb_neq. intros ->. apply Hj. now left.
Qed.

Lemma id_key_from_tabs (ids : list Z) :
  forall (titles : list string) (acc : list (pyval * pyval)),
    List.length ids = List.length titles ->
    NoDup titles ->
    (forall kv, In kv acc -> exists x, fst kv = PStr x /\ ~ In x titles) ->
    Spreadsheet.id_key_from (combine (map PInt ids) (map PStr titles)) acc
    = Ok (acc ++ combine (map PStr titles) (map PInt ids))%list.
Proof.
  induction ids as [|i ids IH]; intros titles acc Hl Hn Hk.
  - destruct titles; [|discriminate Hl]. simpl. now rewrite app_nil_r.
  - destruct titles as [|x titles]; [discriminate Hl|].
    inversion Hn as [|? ? Hnx Hn']; subst.
    cbn [map combine Spreadsheet.id_key_from Spreadsheet.hashable].
    assert (F : Spreadsheet.dict_set (PStr x) (PInt i) acc
                = (acc ++ [(PStr x, PInt i)])%list).
    { apply dict_set_fresh. intros kv I. destruct (Hk kv I) as (y & -> & Hy). simpl.
      apply String.eqb_neq. intros ->. apply Hy. now left. }
    rewrite F, IH; [now rewrite <- app_assoc | simpl in Hl; lia | exact Hn' |].
    intros kv I. apply in_app_or in I as [I|[<-|[]]].
    + destruct (Hk kv I) as (y & E & Hy). exists y. split; [exact E|].
      intros C. apply Hy. now right.
    + exists x. split; [reflexivity | exact Hnx].
Qed.

(** X21.  Loading a spreadsheet indexes its tabs both ways: on a payload
    whose tabs carry pairwise different integer ids and pairwise
    different titles, [reload] (and [__init__], which has the same body)
    succeeds, forgets the staged requests, and leaves a [title_key] that
    holds each id with its title in payload order; [id_key] then holds
    each title with its id, so that a title looked up there leads back to
    the tab it names. *)
Theorem reload_indexes_tabs (preload sid : pyval) (sheets : list pyval)
    (ids : list Z) (titles : list string) (self : Spreadsheet.t) :
  getitem preload "spreadsheetId" = Ok sid ->
  getitem preload "sheets" = Ok (PList sheets) ->
  map tab_id sheets = map (fun i => Ok (PInt i)) ids ->
  map tab_title sheets = map (fun x => Ok (PStr x)) titles ->
  NoDup ids ->
  NoDup titles ->
  Spreadsheet.reload preload self
  = (Ok tt,
     {| Spreadsheet.spreadsheet_id := sid;
        Spreadsheet.json := preload;
        Spreadsheet.requests := [];
        Spreadsheet.title_key := combine (map PInt ids) (map PStr titles) |})
  /\ Spreadsheet.id_key (snd (Spreadsheet.reload preload self))
     = Ok (combine (map PStr titles) (map PInt ids)).
Proof.
  intros Hs Hsh Hi Ht Hni Hnt.
  assert (R : Spreadsheet.reload preload self
              = (Ok tt,
                 {| Spreadsheet.spreadsheet_id := sid;
                    Spreadsheet.json := preload;
                    Spreadsheet.requests := [];
                    Spreadsheet.title_key := combine (map PInt ids) (map PStr titles) |})).
  { unfold Spreadsheet.reload, st_bind, st_eval, st_assign. rewrite Hs, Hsh.
    cbn [Py.bind Py.iter].
    rewrite (load_titles_tabs sheets ids titles _ Hi Ht Hni); [reflexivity|].
    intros kv []. }
  split; [exact R|]. rewrite R. unfold Spreadsheet.id_key. cbn [snd Spreadsheet.title_key].
  rewrite (id_key_from_tabs ids titles []); [reflexivity | | exact Hnt | intros kv []].
  apply (f_equal (@List.length _)) in Hi, Ht. rewrite !length_map in Hi, Ht. lia.
Qed.

Lemma reload_indexes_tabs_witness :
  Spreadsheet.id_key (snd (Spreadsheet.reload two_tab_preload sample_spreadsheet))
  = Ok [(PStr "Summary", PInt 0); (PStr "Ledger", PInt 1839)].
Proof.
  refine (proj2 (reload_indexes_tabs two_tab_preload (PStr "1BxiMVs0XRA5") two_tabs
                   [0; 1839] ["Summary"; "Ledger"] sample_spreadsheet
                   eq_refl eq_refl eq_refl eq_refl _ _)).
  - repeat constructor; simpl; intuition lia.
  - repeat constructor; simpl; intuition discriminate.
Defined.

End Tabs.

(** * Further properties: the keys made from report titles *)

Section Keys.

Import Formatting.

Variables lower capitalize : string -> string.

Lemma remove_char_removes (c : ascii) (s : string) :
  mem_char c (remove_char c s) = false.
Proof.
  induction s as [|x s IH]; [reflexivity|]. simpl.
  destruct (Ascii.eqb x c) eqn:E; [exact IH|].
  simpl. rewrite Ascii.eqb_sym, E. exact IH.
Qed.

Lemma remove_char_keeps_absent (c b : ascii) (s : string) :
  mem_char c s = false -> mem_char c (remove_char b s) = false.
Proof.
  induction s as [|x s IH]; [reflexivity|]. simpl. intros H.
  apply orb_false_iff in H as [H1 H2].
  destruct (Ascii.eqb x b); [now apply IH|]. simpl. now rewrite H1, IH.
Qed.

Lemma remove_all_keeps_absent (c : ascii) (l : list ascii) :
  forall s, mem_char c s = false ->
            mem_char c (fold_left (fun output b => remove_char b output) l s) = false.
Proof.
  induction l as [|b l IH]; intros s H; [exact H|].
  simpl. apply IH. now apply remove_char_keeps_absent.
Qed.

Lemma remove_all_removes (c : ascii) (l : list ascii) :
  forall s, In c l ->
            mem_char c (fold_left (fun output b => remove_char b output) l s) = false.
Proof.
  induction l as [|b l IH]; intros s H; [destruct H|].
  destruct H as [->|H]; simpl.
  - apply remove_all_keeps_absent, remove_char_removes.
  - now apply IH.
Qed.

(** X22.  The keys [to_camel_case] and [to_snake_case] make from a title
    never hold a backslash, a slash, a full stop, a bar, a comma, a
    hyphen or an ampersand, whatever the title and whatever the case
    conversions of the words produce. *)
Theorem case_keys_hold_no_bad_char (title : string) (c : ascii) :
  In c bad_chars ->
  mem_char c (to_camel_case lower capitalize title) = false
  /\ mem_char c (to_snake_case lower title) = false.
Proof.
  intros H. split; [unfold to_camel_case | unfold to_snake_case];
    now apply remove_all_removes.
Qed.

End Keys.

Lemma case_keys_hold_no_bad_char_witness :
  Formatting.to_camel_case ascii_lower ascii_capitalize "Less Cost of Sales - R&D"
  = "lessCostOfSalesRd"
  /\ mem_char "&" (Formatting.to_camel_case ascii_lower ascii_capitalize
                     "Less Cost of Sales - R&D") = false.
Proof.
  split; [reflexivity|].
  apply (case_keys_hold_no_bad_char ascii_lower ascii_capitalize
           "Less Cost of Sales - R&D" "&"%char).
  simpl. tauto.
Defined.

(** * Further properties: refreshing the tokens of a client *)

Section TokenRefresh.

Variables key salt : Type.
Variable fernet_encrypt : key -> salt -> string -> string.
Variable fernet_decrypt : key -> string -> option string.
Variable utf8_encode : string -> option string.
Variable utf8_decode : string -> option string.
Variable expiry_after : Z -> pyval -> result Z.

Hypothesis decrypt_encrypt :
  forall k s data, fernet_decrypt k (fernet_encrypt k s data) = Some data.
Hypothesis token_not_empty :
  forall k s data, fernet_encrypt k s data <> EmptyString.
Hypothesis decode_encode :
  forall s b, utf8_encode s = Some b -> utf8_decode b = Some s.

Let get_tokens :=
  XeroTokens.get_tokens fernet_encrypt fernet_decrypt utf8_encode utf8_decode expiry_after.
Let read_tokens := XeroTokens.read_tokens fernet_decrypt utf8_decode.
Let get_xero_refresh_token := XeroClient.get_xero_refresh_token fernet_decrypt utf8_decode.

Lemma stored_token_read (k : key) (s : salt) (text bytes : string) :
  utf8_encode text = Some bytes ->
  XeroClient.read_token fernet_decrypt utf8_decode (Some k)
    (Some (fernet_encrypt k s bytes))
  = XeroClient.Returns (Some text).
Proof.
  intros E. unfold XeroClient.read_token, XeroClient.bytes_truthy.
  destruct (String.eqb (fernet_encrypt k s bytes) EmptyString) eqn:Z.
  - apply String.eqb_eq in Z. now apply token_not_empty in Z.
  - simpl. rewrite decrypt_encrypt, (decode_encode _ _ E). reflexivity.
Qed.

Lemma post_without_response (net : ApiClient.send_outcome) (post_ok : bool) :
  no_response net = true ->
  exists line,
    ApiClient.post XeroTokens.auth_client net post_ok "connect/token" None false false
    = (Ok PNone,
       [HttpCall "POST" "https://identity.xero.com/connect/token"; Log ERROR line]).
Proof.
  destruct net; try discriminate; intros _; eexists; reflexivity.
Qed.

(** X23.  [get_tokens] renews a lapsed token: for a client whose access
    token has no expiry or one that is past, with a refresh token in
    store, a key configured, a token endpoint that answers with an
    access token, a refresh token and a lifetime, and a commit that goes
    through, the call makes exactly one request, to the token endpoint,
    and returns the tenant id of the client with the new access token;
    the client then holds the new refresh token and the new expiry. *)
Theorem get_tokens_renews_lapsed_token (k : key) (salt1 salt2 : salt) (post_ok : bool)
    (now later expiry : Z) (client : XeroClient.t) (stored : string)
    (resp : ApiClient.Response) (d : list (string * pyval))
    (access refresh a r : string) (lifetime : pyval) :
  XeroTokens.expired now client = true ->
  get_xero_refresh_token (Some k) client = XeroClient.Returns (Some stored) ->
  stored <> EmptyString ->
  ApiClient.raise_for_status resp = false ->
  ApiClient.json_body resp = Some (PDict d) ->
  assoc "access_token" d = Some (PStr access) ->
  assoc "refresh_token" d = Some (PStr refresh) ->
  assoc "expires_in" d = Some lifetime ->
  expiry_after later lifetime = Ok expiry ->
  utf8_encode access = Some a ->
  utf8_encode refresh = Some r ->
  let '(out, client', events) :=
    get_tokens (Some k) salt1 salt2 true (ApiClient.SendResponse resp) post_ok
      now later client in
  out = XeroTokens.Returns
          (XeroClient.tenant_id (XeroClient.attrs client), Some access)
  /\ get_xero_refresh_token (Some k) client' = XeroClient.Returns (Some refresh)
  /\ XeroClient.access_token_expiry (XeroClient.attrs client') = Some expiry
  /\ XeroClient.committed client' = XeroClient.attrs client'
  /\ events = [HttpCall "POST" "https://identity.xero.com/connect/token"].
Proof.
  intros Hx Hr Hs Hok Hj Ha Hf Hl He Ea Er.
  unfold get_tokens, XeroTokens.get_tokens. rewrite Hx.
  unfold XeroTokens.refresh_client_tokens.
  unfold get_xero_refresh_token in Hr. rewrite Hr.
  assert (T : ApiClient.str_truthy (Some stored) = true).
  { unfold ApiClient.str_truthy. apply negb_true_iff, String.eqb_neq, Hs. }
  rewrite T. cbn [negb].
  unfold ApiClient.post, ApiClient.request, ApiClient.request_try. rewrite Hok, Hj.
  cbn [ApiClient.request_finally ApiClient.str_truthy].
  assert (N : truthy (PDict d) = true) by (destruct d; [discriminate Ha | reflexivity]).
  rewrite N. cbn [negb].
  unfold XeroTokens.tokens_missing, contains_str, has_key. rewrite Ha, Hf.
  cbn [Py.bind negb]. unfold getitem. rewrite Hl, Ha, Hf. cbn [Py.bind]. rewrite He.
  unfold XeroTokens.set_tokens, XeroClient.set_tokens. rewrite Ea, Er.
  cbn [app]. repeat split.
  - unfold XeroTokens.read_tokens, XeroClient.get_access_token.
    cbn [XeroClient.attrs XeroClient.access_token XeroClient.tenant_id].
    rewrite (stored_token_read k salt1 access a Ea). reflexivity.
  - unfold get_xero_refresh_token, XeroClient.get_xero_refresh_token.
    cbn [XeroClient.attrs XeroClient.refresh_token].
    apply (stored_token_read k salt2 refresh r Er).
Qed.

(** X24.  [get_tokens] does not report a refresh that failed.  While the
    stored expiry is not past it sends nothing and returns the stored
    tenant id and access token.  When the token has lapsed and the
    refresh fails, because the client has no refresh token in store (no
    request is made then) or because the one request comes back without
    a response, the call logs the failure and still returns what it
    would have returned without refreshing: the lapsed access token,
    with the client unchanged. *)
Theorem get_tokens_keeps_lapsed_token (cfg : option key) (salt1 salt2 : salt)
    (commit_ok post_ok : bool) (net : ApiClient.send_outcome) (now later : Z)
    (client : XeroClient.t) :
  (XeroTokens.expired now client = false ->
   get_tokens cfg salt1 salt2 commit_ok net post_ok now later client
   = (read_tokens cfg client, client, []))
  /\ (XeroTokens.expired now client = true ->
      XeroClient.refresh_token (XeroClient.attrs client) = None ->
      exists line,
        get_tokens cfg salt1 salt2 commit_ok net post_ok now later client
        = (read_tokens cfg client, client, [Log ERROR line]))
  /\ (forall stored,
        XeroTokens.expired now client = true ->
        get_xero_refresh_token cfg client = XeroClient.Returns (Some stored) ->
        stored <> EmptyString ->
        no_response net = true ->
        exists line line',
          get_tokens cfg salt1 salt2 commit_ok net post_ok now later client
          = (read_tokens cfg client, client,
             [HttpCall "POST" "https://identity.xero.com/connect/token";
              Log ERROR line; Log ERROR line'])).
Proof.
  split; [|split].
  - intros Hx. unfold get_tokens, XeroTokens.get_tokens. now rewrite Hx.
  - intros Hx Hn. unfold get_tokens, XeroTokens.get_tokens. rewrite Hx.
    unfold XeroTokens.refresh_client_tokens, XeroClient.get_xero_refresh_token.
    rewrite Hn. cbn. eexists. reflexivity.
  - intros stored Hx Hr Hs Hnet. unfold get_tokens, XeroTokens.get_tokens. rewrite Hx.
    unfold XeroTokens.refresh_client_tokens.
    unfold get_xero_refresh_token in Hr. rewrite Hr.
    assert (T : ApiClient.str_truthy (Some stored) = true).
    { unfold ApiClient.str_truthy. apply negb_true_iff, String.eqb_neq, Hs. }
    rewrite T. cbn [negb].
    destruct (post_without_response net post_ok Hnet) as (line & ->).
    cbn [truthy negb app]. eexists. eexists. reflexivity.
Qed.

End TokenRefresh.

Lemma get_tokens_renews_lapsed_token_witness :
  fst (fst (XeroTokens.get_tokens tag_encrypt tag_decrypt plain_encode plain_decode
              whole_seconds_after (Some tt) tt tt true
              (ApiClient.SendResponse
                 (token_response [("access_token", PStr "new-access");
                                  ("refresh_token", PStr "new-refresh");
                                  ("expires_in", PInt 1800)]))
              true 1793700001 1793700002 lapsed_client))
  = XeroTokens.Returns (Some "tenant-41", Some "new-access").
Proof.
  pose proof (get_tokens_renews_lapsed_token unit unit tag_encrypt tag_decrypt
                plain_encode plain_decode whole_seconds_after
                tag_decrypt_encrypt tag_token_not_empty plain_decode_encode
                tt tt tt true 1793700001 1793700002 1793701802 lapsed_client
                "old-refresh"
                (token_response [("access_token", PStr "new-access");
                                 ("refresh_token", PStr "new-refresh");
                                 ("expires_in", PInt 1800)])
                [("access_token", PStr "new-access");
                 ("refresh_token", PStr "new-refresh");
                 ("expires_in", PInt 1800)]
                "new-access" "new-refresh" "new-access" "new-refresh" (PInt 1800)
                eq_refl eq_refl ltac:(discriminate) eq_refl eq_refl eq_refl eq_refl
                eq_refl eq_refl eq_refl eq_refl) as H.
  destruct (XeroTokens.get_tokens _ _ _ _ _ _ _ _ _ _ _ _ _ _) as [[out c] ev] in H |- *.
  exact (proj1 H).
Defined.

Lemma get_tokens_keeps_lapsed_token_witness :
  XeroTokens.expired 1793700001 lapsed_client = true
  /\ no_response ApiClient.SendTimeout = true
  /\ fst (fst (XeroTokens.get_tokens tag_encrypt tag_decrypt plain_encode plain_decode
                  whole_seconds_after (Some tt) tt tt true ApiClient.SendTimeout true
                  1793700001 1793700002 lapsed_client))
     = XeroTokens.Returns (Some "tenant-41", Some "old-access").
Proof.
  split; [reflexivity|]. split; [reflexivity|].
  destruct (proj2 (proj2 (get_tokens_keeps_lapsed_token unit unit tag_encrypt tag_decrypt
                            plain_encode plain_decode whole_seconds_after
                            (Some tt) tt tt true true ApiClient.SendTimeout
                            1793700001 1793700002 lapsed_client))
              "old-refresh" eq_refl eq_refl ltac:(discriminate) eq_refl)
    as (line & line' & E).
  rewrite E. reflexivity.
Defined.

(** * Further properties: invoices with their payments, and payments *)

Section InvoicesAndPayments.

Import XeroPayments.

Lemma date_parses_ok (k : string) (d : list (string * pyval)) :
  date_parses k d = true ->
  exists t, Xero.date_to_seconds (dict_get k (PStr EmptyString) d) true = Ok t.
Proof.
  unfold date_parses. destruct (Xero.date_to_seconds _ true) as [t|];
    [eauto | discriminate].
Qed.

Lemma new_invoice_fields (d : list (string * pyval)) (ex : pyval) :
  date_parses "Date" d = true ->
  date_parses "DueDate" d = true ->
  date_parses "UpdatedDateUTC" d = true ->
  WebScrape.is_dict (dict_get "Contact" (PDict []) d) = true ->
  exists v,
    new_invoice (PDict d) ex = Ok v
    /\ field "invoice_id" v = dict_get "InvoiceID" PNone d
    /\ field "extracted" v = ex
    /\ is_payment_record v = false.
Proof.
  intros H1 H2 H3 Hc.
  destruct (date_parses_ok _ _ H1) as (t1 & E1).
  destruct (date_parses_ok _ _ H2) as (t2 & E2).
  destruct (date_parses_ok _ _ H3) as (t3 & E3).
  unfold new_invoice. cbn [Py.get Py.bind]. rewrite E1. cbn [Py.bind].
  rewrite E2. cbn [Py.bind]. rewrite E3. cbn [Py.bind].
  destruct (dict_get "Contact" (PDict []) d) as [| | | | | | |c]; try discriminate Hc.
  cbn [Py.get Py.bind]. eexists. split; [reflexivity|]. repeat split; reflexivity.
Qed.

Lemma new_invoice_payment_fields (d pd : list (string * pyval)) (ex : pyval) :
  date_parses "Date" d = true ->
  date_parses "Date" pd = true ->
  exists v,
    new_invoice_payment (PDict d) (PDict pd) ex = Ok v
    /\ field "invoice_id" v = dict_get "InvoiceID" PNone d
    /\ field "extracted" v = ex
    /\ is_payment_record v = true.
Proof.
  intros H1 H2.
  destruct (date_parses_ok _ _ H1) as (t1 & E1).
  destruct (date_parses_ok _ _ H2) as (t2 & E2).
  unfold new_invoice_payment. cbn [Py.get Py.bind]. rewrite E1. cbn [Py.bind].
  rewrite E2. cbn [Py.bind]. eexists. split; [reflexivity|]. repeat split; reflexivity.
Qed.

Lemma simplify_invoice_lines_fields (d : list (string * pyval)) (ex : pyval)
    (ps : list pyval) :
  date_parses "Date" d = true ->
  forallb (fun p => match p with
                    | PDict pd => date_parses "Date" pd
                    | _ => false
                    end) ps = true ->
  exists out,
    simplify_invoice_lines (PDict d) ps ex = Ok out
    /\ map (field "invoice_id") out
       = repeat (dict_get "InvoiceID" PNone d) (List.length ps)
    /\ map is_payment_record out = repeat true (List.length ps)
    /\ Forall (fun v => field "extracted" v = ex) out.
Proof.
  intros Hd. induction ps as [|p ps IH]; intros H.
  - exists []. repeat split; constructor.
  - simpl in H. apply andb_true_iff in H as [Hp Hps].
    destruct p as [| | | | | | |pd]; try discriminate Hp.
    destruct (IH Hps) as (out & E & I & P & X).
    destruct (new_invoice_payment_fields d pd ex Hd Hp) as (v & Ev & Iv & Xv & Pv).
    exists (v :: out). cbn [simplify_invoice_lines]. rewrite Ev. cbn [Py.bind].
    rewrite E. cbn [Py.bind map List.length repeat]. rewrite Iv, I, Pv, P.
    repeat split; try reflexivity. now constructor.
Qed.

Lemma simplify_each_invoice_links (ex : pyval) (invoices : list pyval) :
  forallb well_formed_invoice invoices = true ->
  exists out,
    simplify_each_invoice invoices ex = Ok out
    /\ map (field "invoice_id") out
       = flat_map (fun i => repeat (field "InvoiceID" i)
                              (S (List.length (payments_of i)))) invoices
    /\ map is_payment_record out
       = flat_map (fun i => false :: repeat true (List.length (payments_of i))) invoices
    /\ Forall (fun v => field "extracted" v = ex) out.
Proof.
  induction invoices as [|i invoices IH]; intros H.
  - exists []. repeat split; constructor.
  - simpl in H. apply andb_true_iff in H as [Hi His].
    destruct (IH His) as (later & E & I & P & X).
    destruct i as [| | | | | | |d]; try discriminate Hi.
    unfold well_formed_invoice in Hi.
    apply andb_true_iff in Hi as [Hi Hp]. apply andb_true_iff in Hi as [Hi Hc].
    apply andb_true_iff in Hi as [Hi H3]. apply andb_true_iff in Hi as [H1 H2].
    destruct (new_invoice_fields d ex H1 H2 H3 Hc) as (v & Ev & Iv & Xv & Pv).
    assert (L : exists ps,
               dict_get "Payments" (PList []) d = PList ps
               /\ forallb (fun p => match p with
                                    | PDict pd => date_parses "Date" pd
                                    | _ => false
                                    end) ps = true).
    { unfold dict_get. destruct (assoc "Payments" d) as [[| | | | | |ps|]|];
        try discriminate Hp; [exists ps | exists []]; auto. }
    destruct L as (ps & Eps & Hps).
    destruct (simplify_invoice_lines_fields d ex ps H1 Hps) as (out & Eo & Io & Po & Xo).
    exists (v :: out ++ later)%list.
    cbn [simplify_each_invoice]. rewrite Ev. cbn [Py.bind Py.get]. rewrite Eps.
    cbn [Py.iter Py.bind]. rewrite Eo. cbn [Py.bind]. rewrite E. cbn [Py.bind].
    cbn [flat_map payments_of field]. rewrite Eps.
    cbn [map repeat app]. rewrite !map_app, Iv, Io, I, Pv, Po, P.
    repeat split; try reflexivity.
    constructor; [exact Xv|]. apply Forall_app. now split.
Qed.

(** X25.  [simplify_invoice_payments] keeps every payment with its
    invoice: on a page of invoices that are dicts whose three dates
    parse, with payments that are dicts whose date parses, it returns,
    for each invoice in page order, one invoice record followed by one
    payment record for each of its payments, all of them carrying the id
    of that invoice and the [extracted] stamp. *)
Theorem invoice_payments_follow_their_invoice (page ex : pyval)
    (invoices : list pyval) :
  getitem page "Invoices" = Ok (PList invoices) ->
  forallb well_formed_invoice invoices = true ->
  exists out,
    simplify_invoice_payments page ex = Ok out
    /\ map (field "invoice_id") out
       = flat_map (fun i => repeat (field "InvoiceID" i)
                              (S (List.length (payments_of i)))) invoices
    /\ map is_payment_record out
       = flat_map (fun i => false :: repeat true (List.length (payments_of i))) invoices
    /\ Forall (fun v => field "extracted" v = ex) out.
Proof.
  intros G H. destruct (simplify_each_invoice_links ex invoices H) as (out & E & R).
  exists out. unfold simplify_invoice_payments. rewrite G. cbn [Py.bind Py.iter].
  now split.
Qed.

Lemma invoice_payments_follow_their_invoice_witness :
  exists out,
    simplify_invoice_payments
      (PDict [("Invoices",
               PList [sample_invoice "inv-1" [sample_payment 40; sample_payment 60];
                      sample_invoice "inv-2" []])])
      (PStr "03/11/2026 09:00:00") = Ok out
    /\ map (field "invoice_id") out
       = [PStr "inv-1"; PStr "inv-1"; PStr "inv-1"; PStr "inv-2"]
    /\ map is_payment_record out = [false; true; true; false].
Proof.
  destruct (invoice_payments_follow_their_invoice
              (PDict [("Invoices",
                       PList [sample_invoice "inv-1" [sample_payment 40;
                                                      sample_payment 60];
                              sample_invoice "inv-2" []])])
              (PStr "03/11/2026 09:00:00")
              [sample_invoice "inv-1" [sample_payment 40; sample_payment 60];
               sample_invoice "inv-2" []]
              eq_refl ltac:(vm_compute; reflexivity)) as (out & E & I & P & _).
  exists out. split; [exact E|]. split; [exact I | exact P].
Defined.

Lemma simplify_each_payment_stops (ex : pyval) (e : exn) (pre : list pyval) :
  forall payment post,
    forallb payment_simplifies pre = true ->
    (forall x, new_payment payment x = Raise e) ->
    simplify_each_payment (pre ++ payment :: post) ex = Raise e.
Proof.
  induction pre as [|p pre IH]; intros payment post Hpre Hp.
  - cbn [app simplify_each_payment]. now rewrite Hp.
  - simpl in Hpre. apply andb_true_iff in Hpre as [H1 H2].
    cbn [app simplify_each_payment].
    assert (O : exists v, new_payment p ex = Ok v).
    { unfold payment_simplifies in H1. unfold new_payment in *.
      repeat match type of H1 with
             | context [Py.bind ?c _] =>
                 destruct c; cbn [Py.bind] in H1 |- *; [|discriminate H1]
             end.
      eauto. }
    destruct O as (v & ->). cbn [Py.bind]. now rewrite (IH payment post H2 Hp).
Qed.

(** X26.  [simplify_payments] needs an account and an invoice on every
    payment: when the payments before it are simplified without an
    exception and a payment whose two dates parse has no [Account], or
    has an account that is a dict but no [Invoice], the call raises
    AttributeError, whatever the rest of the page holds. *)
Theorem payment_without_invoice_raises (page ex : pyval) (pre post : list pyval)
    (d : list (string * pyval)) :
  getitem page "Payments" = Ok (PList (pre ++ PDict d :: post)%list) ->
  forallb payment_simplifies pre = true ->
  date_parses "Date" d = true ->
  date_parses "UpdatedDateUTC" d = true ->
  assoc "Account" d = None
  \/ (WebScrape.is_dict (dict_get "Account" PNone d) = true
      /\ assoc "Invoice" d = None) ->
  simplify_payments page ex = Raise AttributeError.
Proof.
  intros G Hpre H1 H2 Hm. unfold simplify_payments. rewrite G.
  cbn [Py.bind Py.iter]. apply simplify_each_payment_stops; [exact Hpre|].
  intros x.
  destruct (date_parses_ok _ _ H1) as (t1 & E1).
  destruct (date_parses_ok _ _ H2) as (t2 & E2).
  unfold new_payment. cbn [Py.get Py.bind]. rewrite E1. cbn [Py.bind].
  rewrite E2. cbn [Py.bind].
  destruct Hm as [Ha | [Ha Hi]].
  - unfold dict_get at 1. rewrite Ha. reflexivity.
  - destruct (dict_get "Account" PNone d) as [| | | | | | |a]; try discriminate Ha.
    cbn [Py.get Py.bind]. unfold dict_get at 1. rewrite Hi. reflexivity.
Qed.

Lemma payment_without_invoice_raises_witness :
  simplify_payments
    (PDict [("Payments",
             PList [PDict [("PaymentID", PStr "b26f");
                           ("Date", PStr "/Date(1574000000000+0000)/");
                           ("UpdatedDateUTC", PStr "/Date(1574000000999+0000)/");
                           ("Account", PDict [("AccountID", PStr "ac99");
                                              ("Code", PStr "090")]);
                           ("CreditNote", PDict [("CreditNoteID", PStr "cn-7")])]])])
    (PStr "03/11/2026 09:00:00")
  = Raise AttributeError.
Proof.
  apply (payment_without_invoice_raises _ _ [] []
           [("PaymentID", PStr "b26f");
            ("Date", PStr "/Date(1574000000000+0000)/");
            ("UpdatedDateUTC", PStr "/Date(1574000000999+0000)/");
            ("Account", PDict [("AccountID", PStr "ac99"); ("Code", PStr "090")]);
            ("CreditNote", PDict [("CreditNoteID", PStr "cn-7")])]).
  - reflexivity.
  - reflexivity.
  - vm_compute. reflexivity.
  - vm_compute. reflexivity.
  - right. split; reflexivity.
Defined.

End InvoicesAndPayments.
